(** * FloPy scalar data cells and the PCGN package constructor

    A shallow embedding of

    - [flopy/mf6/data/mfdatascalar.py]: the classes [MFScalar] and
      [MFScalarTransient];
    - [flopy/modflow/mfpcgn.py]: the constructor of [ModflowPcgn].

    Python objects are mutable and methods raise exceptions, so methods are
    computations in a state-and-exception monad over the object they are
    called on: a raised exception keeps the mutations made before it.
    [DataStorage] objects are identified by an address into a store owned
    by the data object, so that two dictionary keys can be asked whether
    they refer to the same storage object. *)

From Stdlib Require Import ZArith String Ascii Lia Bool DecimalString.
From stdpp Require Import base list strings.

Set Warnings "-register-all".
Open Scope Z_scope.

(** ** Python values and exceptions *)

(** The two interpreter lines the sources were written for.  They differ, for
    the code modelled here, in one place only: ordering a list against an
    integer. *)
Inductive python : Type := Py2 | Py3.

(** The values that reach the scalar cell.  [PArray] is a [numpy.ndarray], by
    its elements; [PDict] is a [dict] or an [OrderedDict], by its items in
    iteration order. *)
Inductive pyval : Type :=
| PNone
| PBool (b : bool)
| PInt (n : Z)
| PStr (s : string)
| PList (l : list pyval)
| PTuple (l : list pyval)
| PArray (l : list pyval)
| PDict (items : list (Z * pyval)).

Inductive exc : Type :=
| IndexError
| TypeError (msg : string)
| AttributeError (attr : string)
| AssertionError
| MFFileParseException (msg : string).

Inductive result (A : Type) : Type :=
| Ok (a : A)
| Raise (e : exc).
Arguments Ok {A} a.
Arguments Raise {A} e.

Definition is_ok {A} (r : result A) : bool :=
  match r with Ok _ => true | Raise _ => false end.

(** ** Methods as computations over the receiver *)

Definition M (S A : Type) : Type := S -> result A * S.

Definition ret {S A} (a : A) : M S A := fun s => (Ok a, s).

Definition raise {S A} (e : exc) : M S A := fun s => (Raise e, s).

Definition bind {S A B} (m : M S A) (k : A -> M S B) : M S B :=
  fun s => match m s with
           | (Ok a, s') => k a s'
           | (Raise e, s') => (Raise e, s')
           end.

Definition gets {S A} (f : S -> A) : M S A := fun s => (Ok (f s), s).

Definition modify {S} (f : S -> S) : M S unit := fun s => (Ok tt, f s).

Definition lift {S A} (r : result A) : M S A := fun s => (r, s).

Notation "'let*' x ':=' m 'in' k" := (bind m (fun x => k))
  (at level 10, x name, m at level 100, k at level 200).
Notation "m1 ';;' m2" := (bind m1 (fun _ => m2))
  (at level 100, m2 at level 200, right associativity).

(** [for x in l: body(x)] *)
Fixpoint for_each {S A} (l : list A) (body : A -> M S unit) : M S unit :=
  match l with
  | [] => ret tt
  | x :: r => body x ;; for_each r body
  end.

(** ** Strings *)

Definition nl : string := String "010"%char EmptyString.
Definition dquote : string := String "034"%char EmptyString.

Definition upper_ascii (c : ascii) : ascii :=
  let n := nat_of_ascii c in
  if ((97 <=? n) && (n <=? 122))%nat then ascii_of_nat (n - 32) else c.

Definition lower_ascii (c : ascii) : ascii :=
  let n := nat_of_ascii c in
  if ((65 <=? n) && (n <=? 90))%nat then ascii_of_nat (n + 32) else c.

Fixpoint map_string (f : ascii -> ascii) (s : string) : string :=
  match s with
  | EmptyString => EmptyString
  | String c r => String (f c) (map_string f r)
  end.

(** [s.upper()] and [s.lower()], on ASCII text. *)
Definition upper : string -> string := map_string upper_ascii.
Definition lower : string -> string := map_string lower_ascii.

(** [sep.join(l)] *)
Fixpoint join (sep : string) (l : list string) : string :=
  match l with
  | [] => EmptyString
  | [x] => x
  | x :: r => x +:+ sep +:+ join sep r
  end.

(** ['{}'.format(n)] for an integer. *)
Definition str_of_Z (n : Z) : string := NilZero.string_of_int (Z.to_int n).


(** ** Sequences *)

(** [isinstance(v, list) or isinstance(v, np.ndarray) or isinstance(v, tuple)] *)
Definition is_sequence (v : pyval) : bool :=
  match v with
  | PList _ | PTuple _ | PArray _ => true
  | _ => false
  end.

(** [isinstance(v, list) or isinstance(v, tuple)] *)
Definition is_list_or_tuple (v : pyval) : bool :=
  match v with
  | PList _ | PTuple _ => true
  | _ => false
  end.

(** The elements of a list, a tuple or an array. *)
Definition items_of (v : pyval) : option (list pyval) :=
  match v with
  | PList l | PTuple l | PArray l => Some l
  | _ => None
  end.

(** [len(v)] *)
Definition py_len (v : pyval) : result nat :=
  match v with
  | PStr s => Ok (String.length s)
  | PList l | PTuple l | PArray l => Ok (length l)
  | PDict items => Ok (length items)
  | PNone | PBool _ | PInt _ => Raise (TypeError "object has no len()")
  end.

(** [len(v)] on a list, a tuple or an array. *)
Definition seq_len (v : pyval) : nat :=
  match items_of v with
  | Some l => length l
  | None => 0%nat
  end.

(** [v[0]] on a list, a tuple or an array. *)
Definition getitem0 (v : pyval) : result pyval :=
  match items_of v with
  | Some (d :: _) => Ok d
  | Some [] => Raise IndexError
  | None => Raise (TypeError "object is not subscriptable")
  end.

(** [v[1:]] on a list or a tuple. *)
Definition slice_from1 (v : pyval) : list pyval :=
  match items_of v with
  | Some l => tail l
  | None => []
  end.

(** [l[i]] on a list. *)
Definition getitem {A} (l : list A) (i : nat) : result A :=
  match l !! i with
  | Some x => Ok x
  | None => Raise IndexError
  end.

(** [v + k] for an integer [k]: integer addition on [int] and [bool],
    element by element on an array, a [TypeError] elsewhere. *)
Fixpoint py_add_int (v : pyval) (k : Z) : result pyval :=
  match v with
  | PInt n => Ok (PInt (n + k))
  | PBool b => Ok (PInt (Z.b2z b + k))
  | PArray l =>
      match
        (fix go (l : list pyval) : result (list pyval) :=
           match l with
           | [] => Ok []
           | x :: r =>
               match py_add_int x k with
               | Ok y => match go r with
                         | Ok ys => Ok (y :: ys)
                         | Raise e => Raise e
                         end
               | Raise e => Raise e
               end
           end) l
      with
      | Ok l' => Ok (PArray l')
      | Raise e => Raise e
      end
  | _ => Raise (TypeError "unsupported operand type(s) for +")
  end.

(** The number of wrapper layers met by following first elements. *)
Fixpoint depth (v : pyval) : nat :=
  match v with
  | PList l | PTuple l | PArray l =>
      match l with
      | [] => 1%nat
      | d :: _ => S (depth d)
      end
  | _ => 0%nat
  end.

(** ** The schema node ([mfstructure], read only) *)

(** One sub-item descriptor: [name], [type], [optional], [ucase]. *)
Record MFDataItemStructure : Type := {
  item_name : string;
  item_type : string;
  optional : bool;
  ucase : bool
}.

(** Modelled from the spec: [mfstructure.DataType] is not in the sources.
    The overall datatype of a node is one of plain scalar, keyword-only,
    record, transient scalar, transient keyword. *)
Inductive DataType : Type :=
| scalar
| scalar_keyword
| record
| scalar_transient
| scalar_keyword_transient.

(** A node: [name], [type], [data_item_structures], and the answers of its
    two queries [get_datum_type()] and [get_datatype()], which the sources
    call and do not define. *)
Record MFDataStructure : Type := {
  name : string;
  type : string;
  data_item_structures : list MFDataItemStructure;
  get_datum_type : string;
  get_datatype : DataType
}.

(** [structure.get_data_item_types()]: the type tag of every sub-item, in
    schema order. *)
Definition get_data_item_types (s : MFDataStructure) : list string :=
  map item_type (data_item_structures s).

Definition is_int_type (t : string) : bool :=
  String.eqb t "int" || String.eqb t "integer".

(** ** The storage engine ([mfdata.DataStorage]) *)

(** Modelled from the spec: [mfdata.DataStorage] is not in the sources.  A
    storage object holds at most one converted value; Python's [None] is the
    absence of data. *)
Record DataStorage : Type := { sto_data : pyval }.

Module DataStorage.

Definition new : DataStorage := {| sto_data := PNone |}.

Definition is_none (v : pyval) : bool :=
  match v with PNone => true | _ => false end.

(** Modelled from the spec: true iff the storage holds a converted value. *)
Definition has_data (s : DataStorage) : bool := negb (is_none (sto_data s)).

Definition get_data (s : DataStorage) : pyval := sto_data s.

Definition set_data (v : pyval) (_ : DataStorage) : DataStorage :=
  {| sto_data := v |}.

End DataStorage.

(** The collaborators the scalar cell calls and the sources do not define:
    the storage engine's conversion, formatting and multiplier logic, the
    line tokenizer, the keyword matcher and the reader of leading comment
    lines.  Every theorem below holds for any of them. *)
Class Collaborators : Type := {
  (** [DataStorage.convert_data(data, type, data_item)] *)
  convert_data : pyval -> string -> MFDataItemStructure -> result pyval;
  (** [DataStorage.to_string(data, type, force_upper_case=...)] *)
  to_string : pyval -> string -> bool -> string;
  (** [DataStorage.get_data(apply_mult=True)]: the stored value as the
      multiplier logic of the storage engine returns it. *)
  multiplied : pyval -> pyval;
  (** [ArrayUtil.split_data_line(line)] *)
  split_data_line : string -> list string;
  (** [MFData._load_keyword(arr_line, index)]: the index after the keyword
      and an auxiliary index. *)
  _load_keyword : MFDataStructure -> list string -> nat -> result (nat * option nat);
  (** [MFData._read_pre_data_comments(first_line, file_handle, comments)]:
      the first line that is not a comment. *)
  _read_pre_data_comments : string -> list string -> string
}.

(** ** The data object *)

Definition addr : Type := nat.

(** What [self._data_storage] is bound to: one [DataStorage] in an [MFScalar],
    an [OrderedDict] from key to [DataStorage] in an [MFScalarTransient]. *)
Inductive storage_ref : Type :=
| Single (a : addr)
| Keyed (d : list (Z * addr)).

(** The fields of an [MFScalar] (and of its subclass), with the store of the
    [DataStorage] objects it created: [next_addr] is the first address never
    handed out.  [comments] logs the calls of [_add_data_line_comment]. *)
Record MFScalar : Type := {
  structure : MFDataStructure;
  _data_type : string;
  _data_name : string;
  indent_string : string;
  store : addr -> DataStorage;
  next_addr : addr;
  _data_storage : storage_ref;
  _current_key : option Z;
  comments : list (list pyval * Z)
}.

Definition with_store (f : addr -> DataStorage) (self : MFScalar) : MFScalar :=
  {| structure := structure self; _data_type := _data_type self;
     _data_name := _data_name self; indent_string := indent_string self;
     store := f; next_addr := next_addr self;
     _data_storage := _data_storage self; _current_key := _current_key self;
     comments := comments self |}.

Definition with_data_storage (r : storage_ref) (n : addr) (self : MFScalar) : MFScalar :=
  {| structure := structure self; _data_type := _data_type self;
     _data_name := _data_name self; indent_string := indent_string self;
     store := store self; next_addr := n;
     _data_storage := r; _current_key := _current_key self;
     comments := comments self |}.

Definition with_current_key (k : option Z) (self : MFScalar) : MFScalar :=
  {| structure := structure self; _data_type := _data_type self;
     _data_name := _data_name self; indent_string := indent_string self;
     store := store self; next_addr := next_addr self;
     _data_storage := _data_storage self; _current_key := k;
     comments := comments self |}.

Definition with_comments (c : list (list pyval * Z)) (self : MFScalar) : MFScalar :=
  {| structure := structure self; _data_type := _data_type self;
     _data_name := _data_name self; indent_string := indent_string self;
     store := store self; next_addr := next_addr self;
     _data_storage := _data_storage self; _current_key := _current_key self;
     comments := c |}.

Definition update_store (a : addr) (f : DataStorage -> DataStorage)
    (h : addr -> DataStorage) : addr -> DataStorage :=
  fun b => if Nat.eqb b a then f (h a) else h b.

(** ** The ordered dictionary of a transient cell *)

Module OrderedDict.

Fixpoint get (k : Z) (d : list (Z * addr)) : option addr :=
  match d with
  | [] => None
  | (k', a) :: r => if Z.eqb k k' then Some a else get k r
  end.

(** [d[k] = a]: an existing key keeps its place, a new key goes last. *)
Fixpoint set (k : Z) (a : addr) (d : list (Z * addr)) : list (Z * addr) :=
  match d with
  | [] => [(k, a)]
  | (k', a') :: r => if Z.eqb k k' then (k, a) :: r else (k', a') :: set k a r
  end.

Definition keys (d : list (Z * addr)) : list Z := map fst d.

Definition values (d : list (Z * addr)) : list addr := map snd d.

End OrderedDict.

(** ** [class MFScalar] *)

Module MFScalar.
Section Methods.
Context {collab : Collaborators}.

Definition self_ : M MFScalar MFScalar := gets (fun self => self).

(** [MFScalar._new_storage]: a new empty [DataStorage], at a fresh address. *)
Definition _new_storage : M MFScalar addr :=
  fun self =>
    let a := next_addr self in
    (Ok a,
     with_data_storage (_data_storage self) (S a)
       (with_store (update_store a (fun _ => DataStorage.new) (store self)) self)).

(** [self._get_storage_obj()], with its override in [MFScalarTransient]: the
    method that runs is the one of the class of [self], which is read off
    what [_data_storage] is bound to.  [None] is Python's [None]. *)
Definition _get_storage_obj (self : MFScalar) : option addr :=
  match _data_storage self with
  | Single a => Some a
  | Keyed d =>
      match _current_key self with
      | None => None
      | Some k => OrderedDict.get k d
      end
  end.

(** [self._get_storage_obj().meth(...)] for a method that reads the storage:
    the attribute access fails on [None]. *)
Definition storage_read {A} (meth : string) (f : DataStorage -> A) : M MFScalar A :=
  fun self =>
    match _get_storage_obj self with
    | Some a => (Ok (f (store self a)), self)
    | None => (Raise (AttributeError meth), self)
    end.

(** [self._get_storage_obj().set_data(v, ...)] once [v] is evaluated. *)
Definition storage_set_data (v : pyval) : M MFScalar unit :=
  fun self =>
    match _get_storage_obj self with
    | Some a =>
        (Ok tt, with_store (update_store a (DataStorage.set_data v) (store self)) self)
    | None => (Raise (AttributeError "set_data"), self)
    end.

(** The value held by the storage object of [self], if it has one. *)
Definition stored (self : MFScalar) : option pyval :=
  match _get_storage_obj self with
  | Some a => Some (sto_data (store self a))
  | None => None
  end.

(** Modelled from the spec: [MFData._add_data_line_comment] is not in the
    sources; the comment sink accepts the tokens and their line. *)
Definition _add_data_line_comment (c : list pyval) (line : Z) : M MFScalar unit :=
  modify (fun self => with_comments (comments self ++ [(c, line)]) self).

Definition has_data : M MFScalar bool :=
  storage_read "has_data" DataStorage.has_data.

(** [get_data] hands [apply_mult] to the storage engine, which returns the
    stored value, post-processed by its multiplier logic when [apply_mult]
    holds. *)
Definition get_data (apply_mult : bool) : M MFScalar pyval :=
  storage_read "get_data"
    (fun s => if apply_mult then multiplied (DataStorage.get_data s)
              else DataStorage.get_data s).

(** [(isinstance(data, list) or isinstance(data, tuple)) and len(data) > 1] *)
Definition has_trailing (data : pyval) : bool :=
  is_list_or_tuple data && (1 <? seq_len data)%nat.

(** The body of the [while] loop of [set_data]. *)
Definition set_data_step (data : pyval) : M MFScalar pyval :=
  let* data := lift (getitem0 data) in
  (if has_trailing data then _add_data_line_comment (slice_from1 data) 0
   else ret tt) ;;
  ret data.

(** The [while] loop of [set_data], run for at most [fuel] iterations:
    [None] when the iterations do not suffice. *)
Fixpoint while_unwrap (fuel : nat) (data : pyval) (self : MFScalar)
    : option (result pyval * MFScalar) :=
  if is_sequence data then
    match fuel with
    | O => None
    | S fuel' =>
        match set_data_step data self with
        | (Ok data', self') => while_unwrap fuel' data' self'
        | (Raise e, self') => Some (Raise e, self')
        end
    end
  else Some (Ok data, self).

(** The same loop by recursion on the nesting of [data]. *)
Fixpoint unwrap (data : pyval) : M MFScalar pyval :=
  match data with
  | PList l | PTuple l | PArray l =>
      match l with
      | [] => raise IndexError
      | d :: _ =>
          (if has_trailing d then _add_data_line_comment (slice_from1 d) 0
           else ret tt) ;;
          unwrap d
      end
  | _ => ret data
  end.

Definition item0 : M MFScalar MFDataItemStructure :=
  let* self := self_ in
  lift (getitem (data_item_structures (structure self)) 0).

Definition set_data (data : pyval) : M MFScalar unit :=
  let* data := unwrap data in
  storage_read "set_data" (fun _ => tt) ;;
  storage_read "convert_data" (fun _ => tt) ;;
  let* self := self_ in
  let* it := item0 in
  let* v := lift (convert_data data (_data_type self) it) in
  storage_set_data v.

(** The message of the exception [add_one] raises; the [print] of the
    message before the [raise] writes to the standard output and leaves the
    object alone. *)
Definition add_one_message (self : MFScalar) : string :=
  _data_name self +:+ " of type " +:+ get_datum_type (structure self)
  +:+ " does not support add one operation.".

Definition add_one : M MFScalar unit :=
  let* self := self_ in
  if is_int_type (get_datum_type (structure self)) then
    let* d := get_data false in
    if DataStorage.is_none d then
      storage_set_data (PInt 1)
    else
      storage_read "set_data" (fun _ => tt) ;;
      let* d := get_data false in
      let* v := lift (py_add_int d 1) in
      storage_set_data v
  else
    raise (MFFileParseException (add_one_message self)).

(** The [for] loop of the record branch of [get_file_entry]: [text_line]. *)
Fixpoint record_text_line (items : list MFDataItemStructure) : M MFScalar (list string) :=
  match items with
  | [] => ret []
  | data_item :: rest =>
      let force_upper_case := ucase data_item in
      let* here :=
        (if String.eqb (lower (item_type data_item)) "keyword"
            && negb (optional data_item)
         then ret [upper (item_name data_item)]
         else
           let* data := get_data false in
           let* n := lift (py_len data) in
           if (0 <? n)%nat then
             let* d := get_data false in
             let* self := self_ in
             ret [to_string d (_data_type self) force_upper_case]
           else ret []) in
      let* more := record_text_line rest in
      ret (here ++ more)
  end.

(** [self._get_storage_obj() is None or
    self._get_storage_obj().get_data() is None] *)
Definition no_data (self : MFScalar) : bool :=
  match stored self with
  | None => true
  | Some v => DataStorage.is_none v
  end.

(** The branches of [get_file_entry] on the kind of the schema node, taken
    when there is data. *)
Definition entry_text (values_only one_based : bool) : M MFScalar string :=
  let* self := self_ in
  let indent := indent_string self in
  if String.eqb (type (structure self)) "keyword" then
    ret (indent +:+ upper (name (structure self)) +:+ nl)
  else if String.eqb (type (structure self)) "record" then
    let* text_line := record_text_line (data_item_structures (structure self)) in
    ret (indent +:+ join indent text_line +:+ nl)
  else
    let* it := item0 in
    let force_upper_case := ucase it in
    let* data :=
      (if one_based then
         (if is_int_type (type (structure self)) then ret tt
          else raise AssertionError) ;;
         let* d := get_data false in
         lift (py_add_int d 1)
       else get_data false) in
    if values_only then
      ret (indent +:+ to_string data (_data_type self) force_upper_case)
    else
      ret (indent +:+ upper (name (structure self)) +:+ indent
           +:+ to_string data (_data_type self) force_upper_case +:+ nl).

(** [get_file_entry]; the argument [ext_file_action] is not used. *)
Definition get_file_entry (values_only one_based : bool) : M MFScalar string :=
  let* self := self_ in
  if no_data self then ret EmptyString
  else entry_text values_only one_based.

(** The [for] loop of the record branch of [load]: the final [index]. *)
Fixpoint record_index (types : list string) (arr_len : nat)
    (items : list MFDataItemStructure) (index : nat) : result nat :=
  match types with
  | [] => Ok index
  | data_item_type :: rest =>
      if (arr_len <=? index + 1)%nat || negb (String.eqb data_item_type "keyword")
      then Ok index
      else if (0 <? index)%nat then
        match getitem items index with
        | Ok it =>
            if optional it then Ok index
            else record_index rest arr_len items (S index)
        | Raise e => Raise e
        end
      else record_index rest arr_len items (S index)
  end.

(** The message of the exception [load] raises on a missing token. *)
Definition missing_data_message (data_name label current_line : string) : string :=
  "Error reading variable " +:+ dquote +:+ data_name +:+ dquote
  +:+ ".  Expected data after label " +:+ dquote +:+ label +:+ dquote
  +:+ " not found at line " +:+ dquote +:+ current_line +:+ dquote +:+ ".".

Definition is_keyword_datatype (t : DataType) : bool :=
  match t with
  | scalar_keyword | scalar_keyword_transient => true
  | _ => false
  end.

(** [load]; the call of [MFData.load], which is not in the sources, is taken
    to leave the storage alone.  The result [[False, None]] is the pair. *)
Definition load (first_line : string) (file_handle : list string)
    : M MFScalar (bool * option string) :=
  let* self := self_ in
  let current_line := _read_pre_data_comments first_line file_handle in
  let arr_line := split_data_line current_line in
  let* kw := lift (_load_keyword (structure self) arr_line 0) in
  let index_num := fst kw in
  let* index_num :=
    (if String.eqb (type (structure self)) "record" then
       let* index :=
         lift (record_index (get_data_item_types (structure self))
                 (length arr_line) (data_item_structures (structure self)) 0) in
       storage_read "set_data" (fun _ => tt) ;;
       storage_read "convert_data" (fun _ => tt) ;;
       let* tok := lift (getitem arr_line index) in
       let* it := lift (getitem (data_item_structures (structure self)) index) in
       let* it0 := item0 in
       let* v := lift (convert_data (PStr tok) (item_type it) it0) in
       storage_set_data v ;;
       ret index_num
     else if is_keyword_datatype (get_datatype (structure self)) then
       storage_set_data (PBool true) ;;
       ret index_num
     else if (length arr_line <? 1 + index_num)%nat then
       let* it0 := item0 in
       raise (MFFileParseException
                (missing_data_message (_data_name self)
                   (lower (item_name it0)) current_line))
     else
       storage_read "set_data" (fun _ => tt) ;;
       storage_read "convert_data" (fun _ => tt) ;;
       let* tok := lift (getitem arr_line index_num) in
       let* it0 := item0 in
       let* v := lift (convert_data (PStr tok) (_data_type self) it0) in
       storage_set_data v ;;
       ret (index_num + 1)%nat) in
  (if (index_num <? length arr_line)%nat then
     _add_data_line_comment (map PStr (drop index_num arr_line)) 0
   else ret tt) ;;
  ret (false, None).

(** [MFScalar.__init__(sim_data, structure, data)], for the class itself:
    [sim_data] by its indent string; [MFData.__init__], which is not in the
    sources, binds [structure], the field's name and an empty current key. *)
Definition __init__ (indent : string) (s : MFDataStructure) (data : pyval)
    : result MFScalar :=
  match getitem (data_item_structures s) 0 with
  | Raise e => Raise e
  | Ok it =>
      let self :=
        {| structure := s; _data_type := item_type it; _data_name := name s;
           indent_string := indent;
           store := fun _ => DataStorage.new; next_addr := 1%nat;
           _data_storage := Single 0%nat; _current_key := None;
           comments := [] |} in
      if DataStorage.is_none data then Ok self
      else match set_data data self with
           | (Ok _, self') => Ok self'
           | (Raise e, _) => Raise e
           end
  end.

End Methods.
End MFScalar.

(** ** [class MFScalarTransient(MFScalar, MFTransient)] *)

(** Modelled from the spec: the block header is not in the sources; the load
    context it carries is the key the input line belongs to. *)
Record MFBlockHeader : Type := { get_transient_key : Z }.

Module MFScalarTransient.
Section Methods.
Context {collab : Collaborators}.

(** [MFScalarTransient._new_storage]: [OrderedDict()]. *)
Definition _new_storage : storage_ref := Keyed [].

(** [self._data_storage.keys()] *)
Definition storage_keys : M MFScalar (list Z) :=
  fun self =>
    match _data_storage self with
    | Keyed d => (Ok (OrderedDict.keys d), self)
    | Single _ => (Raise (AttributeError "keys"), self)
    end.

(** [self._data_storage[key] = obj] *)
Definition storage_setitem (key : Z) (a : addr) : M MFScalar unit :=
  fun self =>
    match _data_storage self with
    | Keyed d =>
        (Ok tt, with_data_storage (Keyed (OrderedDict.set key a d)) (next_addr self) self)
    | Single _ =>
        (Raise (TypeError "object does not support item assignment"), self)
    end.

(** Modelled from the spec: the prep steps of [MFTransient] are not in the
    sources.  Each designates the given key as the active key; a set with no
    key keeps the currently active one. *)
Definition get_data_prep (key : Z) : M MFScalar unit :=
  modify (with_current_key (Some key)).

Definition _set_data_prep (data : pyval) (key : option Z) : M MFScalar unit :=
  match key with
  | Some k => modify (with_current_key (Some k))
  | None => ret tt
  end.

Definition _get_file_entry_prep (key : Z) : M MFScalar unit :=
  modify (with_current_key (Some key)).

Definition _update_record_prep (key : Z) : M MFScalar unit :=
  modify (with_current_key (Some key)).

Definition _load_prep (block_header : MFBlockHeader) : M MFScalar unit :=
  modify (with_current_key (Some (get_transient_key block_header))).

(** [MFScalarTransient.__init__]: the constructor of [MFScalar] with no data,
    where [_new_storage] is the override. *)
Definition __init__ (indent : string) (s : MFDataStructure) : result MFScalar :=
  match getitem (data_item_structures s) 0 with
  | Raise e => Raise e
  | Ok it =>
      Ok {| structure := s; _data_type := item_type it; _data_name := name s;
            indent_string := indent;
            store := fun _ => DataStorage.new; next_addr := 0%nat;
            _data_storage := _new_storage; _current_key := None;
            comments := [] |}
  end.

(** [add_transient_key]; the call of [MFTransient.add_transient_key], which is
    not in the sources, is taken to leave the dictionary alone. *)
Definition add_transient_key (key : Z) : M MFScalar unit :=
  let* a := MFScalar._new_storage in
  storage_setitem key a.

Definition add_one (key : Z) : M MFScalar unit :=
  _update_record_prep key ;;
  MFScalar.add_one.

(** The [for] loop of [has_data]; [data_found or ...] does not call
    [has_data] of the cell once [data_found] holds. *)
Fixpoint has_data_loop (keys : list Z) (data_found : bool) : M MFScalar bool :=
  match keys with
  | [] => ret data_found
  | sto_key :: rest =>
      get_data_prep sto_key ;;
      let* data_found :=
        (if data_found then ret true else MFScalar.has_data) in
      if data_found then ret data_found else has_data_loop rest data_found
  end.

Definition has_data (key : option Z) : M MFScalar bool :=
  match key with
  | None =>
      let* keys := storage_keys in
      has_data_loop keys false
  | Some k =>
      get_data_prep k ;;
      MFScalar.has_data
  end.

Definition get_data (key : Z) : M MFScalar pyval :=
  get_data_prep key ;;
  MFScalar.get_data false.

Definition set_data (data : pyval) (key : option Z) : M MFScalar unit :=
  match data with
  | PDict items =>
      for_each items (fun entry =>
        _set_data_prep (snd entry) (Some (fst entry)) ;;
        MFScalar.set_data (snd entry))
  | _ =>
      _set_data_prep data key ;;
      MFScalar.set_data data
  end.

(** The [for] loop of [get_file_entry]: the list [file_entry]. *)
Fixpoint collect_entries (keys : list Z) : M MFScalar (list string) :=
  match keys with
  | [] => ret []
  | sto_key :: rest =>
      let* found := has_data (Some sto_key) in
      let* here :=
        (if found then
           _get_file_entry_prep sto_key ;;
           let* entry := MFScalar.get_file_entry false false in
           ret [entry]
         else ret []) in
      let* more := collect_entries rest in
      ret (here ++ more)
  end.

(** [file_entry > n] for a list and an integer: Python 2 orders a list after
    every number, Python 3 refuses to order them. *)
Definition list_gt_int {A} (py : python) (file_entry : list A) (n : Z) : result bool :=
  match py with
  | Py2 => Ok true
  | Py3 => Raise (TypeError "'>' not supported between instances of 'list' and 'int'")
  end.

(** [file_entry == n] for a list and an integer. *)
Definition list_eq_int {A} (file_entry : list A) (n : Z) : bool := false.

Definition get_file_entry (py : python) (key : option Z) : M MFScalar string :=
  match key with
  | None =>
      let* keys := storage_keys in
      let* file_entry := collect_entries keys in
      let* more_than_one := lift (list_gt_int py file_entry 1) in
      if more_than_one then ret (join (nl +:+ nl) file_entry)
      else if list_eq_int file_entry 1 then lift (getitem file_entry 0)
      else ret EmptyString
  | Some k =>
      _get_file_entry_prep k ;;
      MFScalar.get_file_entry false false
  end.

Definition load (first_line : string) (file_handle : list string)
    (block_header : MFBlockHeader) : M MFScalar (bool * option string) :=
  _load_prep block_header ;;
  MFScalar.load first_line file_handle.

End Methods.
End MFScalarTransient.

(** ** [class ModflowPcgn(Package)] *)

Module ModflowPcgn.
Section Methods.
(** The type of the floating point arguments, which the constructor only
    stores. *)
Variable float : Type.

Record ModflowPcgn : Type := {
  extension : list string;
  name : list string;
  unit_number : list Z;
  extra : list string;
  iter_mo : Z;
  iter_mi : Z;
  close_h : float;
  close_r : float;
  relax : float;
  ifill : Z;
  unit_pc : Z;
  unit_ts : Z;
  adamp : Z;
  damp : float;
  damp_lb : float;
  rate_d : float;
  chglimit : float;
  acnvg : Z;
  cnvg_lb : float;
  mcnvg : Z;
  rate_c : float;
  ipunit : Z
}.

(** The parent model, by the packages added to it. *)
Record Model : Type := { packagelist : list ModflowPcgn }.

(** Modelled from the spec: [Package] and the model are not in the sources;
    [add_package] appends the package to the packages of the model. *)
Definition add_package (p : ModflowPcgn) : M Model unit :=
  modify (fun m => {| packagelist := packagelist m ++ [p] |}).

(** The lists built by the loop over [zip(tu, ea)]. *)
Fixpoint data_files (tu : list Z) (ea : list string)
    (acc : list string * list string * list Z * list string)
    : list string * list string * list Z * list string :=
  match tu, ea with
  | t :: tu', e :: ea' =>
      let '(extension, name, units, extra) := acc in
      if 0 <? t then
        data_files tu' ea'
          (extension ++ [e], name ++ ["DATA"%string], units ++ [t],
           extra ++ ["REPLACE"%string])
      else data_files tu' ea' acc
  | _, _ => acc
  end.

Definition ifill_message (ifill : Z) : string :=
  "PCGN: ifill must be 0 or 1 - an ifill value of " +:+ str_of_Z ifill
  +:+ " was specified".

(** [ModflowPcgn.__init__], a computation over the parent model.  The file
    is Python 2: [raise TypeError, msg]. *)
Definition __init__ (iter_mo iter_mi : Z) (close_h close_r relax : float)
    (ifill unit_pc unit_ts adamp : Z) (damp damp_lb rate_d chglimit : float)
    (acnvg : Z) (cnvg_lb : float) (mcnvg : Z) (rate_c : float) (ipunit : Z)
    (extension : list string) (unit_number : Z) : M Model ModflowPcgn :=
  let '(extension, name, units, extra) :=
    data_files [unit_pc; unit_ts; ipunit]
      ["pcgni"%string; "pcgnt"%string; "pcgno"%string]
      (extension, ["PCGN"%string], [unit_number], [EmptyString]) in
  let self :=
    {| extension := extension; name := name; unit_number := units;
       extra := extra; iter_mo := iter_mo; iter_mi := iter_mi;
       close_h := close_h; close_r := close_r; relax := relax;
       ifill := ifill; unit_pc := unit_pc; unit_ts := unit_ts;
       adamp := adamp; damp := damp; damp_lb := damp_lb; rate_d := rate_d;
       chglimit := chglimit; acnvg := acnvg; cnvg_lb := cnvg_lb;
       mcnvg := mcnvg; rate_c := rate_c; ipunit := ipunit |} in
  if (ifill <? 0) || (1 <? ifill) then
    raise (TypeError (ifill_message ifill))
  else
    add_package self ;;
    ret self.

End Methods.
End ModflowPcgn.

(** ** Collaborators to run the methods on concrete input *)

Module Sample.

(** Modelled from the spec: [convert(raw, declared_type, sub_item)] yields a
    value of the declared type and fails on invalid input.  Integer types
    take an integer, a boolean or decimal text; other types keep the value;
    [None] is no value of any type. *)
Definition convert_data (data : pyval) (type : string) (_ : MFDataItemStructure)
    : result pyval :=
  if is_int_type type then
    match data with
    | PInt n => Ok (PInt n)
    | PBool b => Ok (PInt (Z.b2z b))
    | PStr s =>
        match NilZero.int_of_string s with
        | Some d => Ok (PInt (Z.of_int d))
        | None => Raise (MFFileParseException ("Unable to convert " +:+ s))
        end
    | _ => Raise (MFFileParseException "Unable to convert data")
    end
  else
    match data with
    | PNone => Raise (MFFileParseException "Unable to convert data")
    | _ => Ok data
    end.

(** Modelled from the spec: [to_string(value, declared_type, upper)]. *)
Definition to_string (data : pyval) (type : string) (force_upper_case : bool) : string :=
  match data with
  | PInt n => str_of_Z n
  | PStr s => if force_upper_case then upper s else s
  | PBool true => "True"
  | PBool false => "False"
  | _ => EmptyString
  end.

(** The tokens of a line: its maximal runs of characters other than space. *)
Fixpoint split_run (s : string) (cur : string) : list string :=
  match s with
  | EmptyString =>
      match cur with EmptyString => [] | _ => [cur] end
  | String c r =>
      if Ascii.eqb c " "%char then
        match cur with
        | EmptyString => split_run r EmptyString
        | _ => cur :: split_run r EmptyString
        end
      else split_run r (cur +:+ String c EmptyString)
  end.

Definition split_data_line (line : string) : list string :=
  split_run line EmptyString.

(** Modelled from the spec: the keyword matcher validates the expected
    keyword at the start index and returns the next index. *)
Definition _load_keyword (s : MFDataStructure) (arr_line : list string) (index : nat)
    : result (nat * option nat) :=
  match arr_line !! index with
  | Some tok =>
      if String.eqb (lower tok) (lower (name s)) then Ok (S index, None)
      else Raise (MFFileParseException ("Unexpected keyword " +:+ tok))
  | None => Raise (MFFileParseException "Keyword not found")
  end.

Definition _read_pre_data_comments (first_line : string) (_ : list string) : string :=
  first_line.

(** Modelled from the spec: the multiplier logic post-processes the stored
    value; this engine doubles an integer and returns any other value, also
    no value, as it is stored. *)
Definition multiplied (v : pyval) : pyval :=
  match v with
  | PInt n => PInt (2 * n)
  | _ => v
  end.

Definition collaborators : Collaborators :=
  Build_Collaborators convert_data to_string multiplied split_data_line
    _load_keyword _read_pre_data_comments.

End Sample.

(** ** Vocabulary of the statements *)

(** The successive layers met by following first elements: the value, its
    first element, the first element of that, down to a value that is no
    sequence or to an empty sequence. *)
Fixpoint spine (v : pyval) : list pyval :=
  v :: match v with
       | PList l | PTuple l | PArray l =>
           match l with
           | [] => []
           | d :: _ => spine d
           end
       | _ => []
       end.

(** No layer of the spine is an empty sequence. *)
Fixpoint layers_nonempty (v : pyval) : bool :=
  match v with
  | PList l | PTuple l | PArray l =>
      match l with
      | [] => false
      | d :: _ => layers_nonempty d
      end
  | _ => true
  end.

(** The value at the end of the spine. *)
Fixpoint first_scalar (v : pyval) : pyval :=
  match v with
  | PList l | PTuple l | PArray l =>
      match l with
      | [] => v
      | d :: _ => first_scalar d
      end
  | _ => v
  end.

(** The elements from index 1 onward of every layer of [layers] that
    [is_layer] accepts and that is longer than 1, outermost first. *)
Fixpoint trailing_of (is_layer : pyval -> bool) (layers : list pyval)
    : list (list pyval) :=
  match layers with
  | [] => []
  | d :: rest =>
      (if is_layer d && (1 <? seq_len d)%nat then [slice_from1 d] else [])
      ++ trailing_of is_layer rest
  end.

(** The comments of the claim as worded: the trailing elements of every
    wrapper layer longer than 1. *)
Definition claimed_comments (raw : pyval) : list (list pyval) :=
  trailing_of is_sequence (spine raw).

(** The comments the code records: the trailing elements of every list or
    tuple longer than 1 that is the first element of a wrapper. *)
Definition recorded_comments (raw : pyval) : list (list pyval) :=
  trailing_of is_list_or_tuple (tail (spine raw)).

(** Comments as the sink logs them, all on line 0. *)
Definition logged (cs : list (list pyval)) : list (list pyval * Z) :=
  map (fun c => (c, 0)) cs.

(** A computation that ends, from every receiver, in a state related by [R]
    to the one it started in, whether it returns or raises. *)
Definition preserves {S A} (R : S -> S -> Prop) (m : M S A) : Prop :=
  forall s, R s (snd (m s)).

(** [self'] differs from [self] at most in the storage object of [self] and
    in the logged comments. *)
Record touches_own_storage (self self' : MFScalar) : Prop := {
  tos_structure : structure self' = structure self;
  tos_data_type : _data_type self' = _data_type self;
  tos_data_name : _data_name self' = _data_name self;
  tos_indent : indent_string self' = indent_string self;
  tos_next : next_addr self' = next_addr self;
  tos_data_storage : _data_storage self' = _data_storage self;
  tos_current_key : _current_key self' = _current_key self;
  tos_store : forall b, MFScalar._get_storage_obj self <> Some b ->
                        store self' b = store self b
}.

(** [self'] differs from [self] at most in the logged comments. *)
Record same_data (self self' : MFScalar) : Prop := {
  sd_touches : touches_own_storage self self';
  sd_store : forall b, store self' b = store self b
}.

(** The dictionary of a transient cell. *)
Definition dict_of (self : MFScalar) : list (Z * addr) :=
  match _data_storage self with
  | Keyed d => d
  | Single _ => []
  end.

(** The storage object registered for key [k], by its address. *)
Definition cell_addr (self : MFScalar) (k : Z) : option addr :=
  OrderedDict.get k (dict_of self).

(** The cell of key [k]: what its storage object holds. *)
Definition cell (self : MFScalar) (k : Z) : option DataStorage :=
  match cell_addr self k with
  | Some a => Some (store self a)
  | None => None
  end.

(** Every registered key owns a storage object of its own: [_data_storage]
    is a dictionary, no two keys are bound to one object, and every bound
    object has been created. *)
Record own_cells (self : MFScalar) : Prop := {
  oc_keyed : exists d, _data_storage self = Keyed d;
  oc_distinct : forall k1 k2 a,
      cell_addr self k1 = Some a -> cell_addr self k2 = Some a -> k1 = k2;
  oc_created : forall k a, cell_addr self k = Some a -> (a < next_addr self)%nat
}.

(** ** Schemas and cells used to run the methods *)

Module Fixture.

Definition nper_item : MFDataItemStructure :=
  {| item_name := "nper"; item_type := "integer"; optional := false; ucase := false |}.

(** A plain integer scalar. *)
Definition nper : MFDataStructure :=
  {| name := "nper"; type := "integer"; data_item_structures := [nper_item];
     get_datum_type := "integer"; get_datatype := scalar |}.

Definition save_item : MFDataItemStructure :=
  {| item_name := "save_flows"; item_type := "keyword"; optional := false; ucase := false |}.

(** A keyword-only field. *)
Definition save_flows : MFDataStructure :=
  {| name := "save_flows"; type := "keyword"; data_item_structures := [save_item];
     get_datum_type := "keyword"; get_datatype := scalar_keyword |}.

Definition title_item : MFDataItemStructure :=
  {| item_name := "title"; item_type := "string"; optional := false; ucase := false |}.

(** A plain text scalar. *)
Definition title : MFDataStructure :=
  {| name := "title"; type := "string"; data_item_structures := [title_item];
     get_datum_type := "string"; get_datatype := scalar |}.

Definition indent : string := "  ".

(** An [MFScalar] of [s] as its constructor leaves it when given no data. *)
Definition empty_cell (s : MFDataStructure) (it : MFDataItemStructure) : MFScalar :=
  {| structure := s; _data_type := item_type it; _data_name := name s;
     indent_string := indent;
     store := fun _ => DataStorage.new; next_addr := 1%nat;
     _data_storage := Single 0%nat; _current_key := None;
     comments := [] |}.

(** The same cell holding [v]. *)
Definition cell_with (s : MFDataStructure) (it : MFDataItemStructure) (v : pyval) : MFScalar :=
  with_store (update_store 0%nat (DataStorage.set_data v) (fun _ => DataStorage.new))
    (empty_cell s it).

(** An [MFScalarTransient] of [nper] with keys 0, 1, 2 registered in that
    order and a value at keys 0 and 2. *)
Definition three_periods : MFScalar :=
  {| structure := nper; _data_type := "integer"; _data_name := "nper";
     indent_string := indent;
     store := fun a => match a with
                       | O => {| sto_data := PInt 5 |}
                       | 2%nat => {| sto_data := PInt 7 |}
                       | _ => DataStorage.new
                       end;
     next_addr := 3%nat;
     _data_storage := Keyed [(0, 0%nat); (1, 1%nat); (2, 2%nat)];
     _current_key := None;
     comments := [] |}.

End Fixture.

(** The claim on [set_data] as worded: the stored value is the converted
    first scalar and the trailing elements of every wrapper layer longer
    than 1 are recorded as comments. *)
Definition set_data_records_every_layer (collab : Collaborators) : Prop :=
  forall (raw : pyval) (self : MFScalar) (a : addr) (it : MFDataItemStructure)
         (v : pyval),
    layers_nonempty raw = true ->
    MFScalar._get_storage_obj self = Some a ->
    data_item_structures (structure self) !! 0%nat = Some it ->
    convert_data (first_scalar raw) (_data_type self) it = Ok v ->
    exists self',
      MFScalar.set_data raw self = (Ok tt, self')
      /\ MFScalar.stored self' = Some v
      /\ comments self' = comments self ++ logged (claimed_comments raw).

(** The same claim with "an unwrapped layer" read as a layer obtained by
    unwrapping: the trailing elements of every list, tuple or array longer
    than 1 that is the first element of a wrapper are recorded. *)
Definition set_data_records_every_inner_layer (collab : Collaborators) : Prop :=
  forall (raw : pyval) (self : MFScalar) (a : addr) (it : MFDataItemStructure)
         (v : pyval),
    layers_nonempty raw = true ->
    MFScalar._get_storage_obj self = Some a ->
    data_item_structures (structure self) !! 0%nat = Some it ->
    convert_data (first_scalar raw) (_data_type self) it = Ok v ->
    exists self',
      MFScalar.set_data raw self = (Ok tt, self')
      /\ MFScalar.stored self' = Some v
      /\ comments self'
         = comments self ++ logged (trailing_of is_sequence (tail (spine raw))).

(** The first half of the claim on [has_data] as worded: every cell the
    constructor returns has no data. *)
Definition constructed_cell_has_no_data (collab : Collaborators) : Prop :=
  forall (indent : string) (s : MFDataStructure) (data : pyval) (self : MFScalar),
    MFScalar.__init__ indent s data = Ok self ->
    fst (MFScalar.has_data self) = Ok false.


(** The object once [load] has recorded as a comment the tokens from
    [index_num] onward, when there are any. *)
Definition with_remainder (index_num : nat) (arr_line : list string)
    (s : MFScalar) : MFScalar :=
  if (index_num <? length arr_line)%nat then
    with_comments (comments s ++ [(map PStr (drop index_num arr_line), 0)]) s
  else s.

(** The object once the storage object at [a] holds [v]. *)
Definition with_value (a : addr) (v : pyval) (s : MFScalar) : MFScalar :=
  with_store (update_store a (DataStorage.set_data v) (store s)) s.

(** The number of leading sub-items, counted from position [index], that
    are keywords and, past position 0, not optional. *)
Fixpoint leading_keywords (index : nat) (items : list MFDataItemStructure) : nat :=
  match items with
  | [] => 0%nat
  | it :: rest =>
      if String.eqb (item_type it) "keyword"
         && (Nat.eqb index 0 || negb (optional it))
      then S (leading_keywords (S index) rest)
      else 0%nat
  end.

(** The line of a scalar that is neither a keyword nor a record, holding
    [v]. *)
Definition scalar_line {collab : Collaborators} (self : MFScalar)
    (it : MFDataItemStructure) (v : pyval) : string :=
  indent_string self +:+ upper (name (structure self)) +:+ indent_string self
  +:+ to_string v (_data_type self) (ucase it) +:+ nl.

(** The line of a keyword. *)
Definition keyword_line (self : MFScalar) : string :=
  indent_string self +:+ upper (name (structure self)) +:+ nl.

Module Records.

Definition ts6 : MFDataItemStructure :=
  {| item_name := "ts6"; item_type := "keyword"; optional := false; ucase := false |}.
Definition filein : MFDataItemStructure :=
  {| item_name := "filein"; item_type := "keyword"; optional := false; ucase := false |}.
Definition ts6_filename : MFDataItemStructure :=
  {| item_name := "ts6_filename"; item_type := "string"; optional := false;
     ucase := false |}.

(** A record of two keywords and a file name. *)
Definition ts6_file : MFDataStructure :=
  {| name := "ts6"; type := "record";
     data_item_structures := [ts6; filein; ts6_filename];
     get_datum_type := "string"; get_datatype := scalar |}.

(** A record made of its keyword alone. *)
Definition ts6_only : MFDataStructure :=
  {| name := "ts6"; type := "record"; data_item_structures := [ts6];
     get_datum_type := "keyword"; get_datatype := scalar |}.

End Records.

(** [m] called [n] times in a row, stopping at the first exception. *)
Fixpoint repeat_call {S} (n : nat) (m : M S unit) : M S unit :=
  match n with
  | O => ret tt
  | S n' => m ;; repeat_call n' m
  end.

(** What one sub-item adds to the line of a record holding [v] of length
    [n]: the upper-case name for a keyword that is not optional, else the
    formatted value when [v] is not empty. *)
Definition record_item_text {collab : Collaborators} (self : MFScalar)
    (v : pyval) (n : nat) (data_item : MFDataItemStructure) : list string :=
  if String.eqb (lower (item_type data_item)) "keyword"
     && negb (optional data_item)
  then [upper (item_name data_item)]
  else if (0 <? n)%nat then [to_string v (_data_type self) (ucase data_item)]
  else [].

(** The cell registered for key [k] holds data. *)
Definition key_has_data (self : MFScalar) (k : Z) : bool :=
  match cell self k with
  | Some c => DataStorage.has_data c
  | None => false
  end.

(** The entry of key [k] in a node that is not a record: none when its cell
    holds no data. *)
Definition key_entry {collab : Collaborators} (self : MFScalar)
    (it : MFDataItemStructure) (k : Z) : list string :=
  match cell self k with
  | Some c =>
      if DataStorage.has_data c then
        [if String.eqb (type (structure self)) "keyword" then keyword_line self
         else scalar_line self it (sto_data c)]
      else []
  | None => []
  end.

(** [self'] differs from [self] at most in the active key. *)
Record same_but_key (self self' : MFScalar) : Prop := {
  sbk_structure : structure self' = structure self;
  sbk_data_type : _data_type self' = _data_type self;
  sbk_data_name : _data_name self' = _data_name self;
  sbk_indent : indent_string self' = indent_string self;
  sbk_store : store self' = store self;
  sbk_next : next_addr self' = next_addr self;
  sbk_data_storage : _data_storage self' = _data_storage self;
  sbk_comments : comments self' = comments self
}.

(** The data files of the PCGN package: the units among [unit_pc],
    [unit_ts] and [ipunit] that are positive, each with its extension, in
    the order of the loop. *)
Definition pcgn_data_units (unit_pc unit_ts ipunit : Z) : list (Z * string) :=
  List.filter (fun p => 0 <? fst p)
    [(unit_pc, "pcgni"%string); (unit_ts, "pcgnt"%string); (ipunit, "pcgno"%string)].

(** [ModflowPcgn.__init__] called without [extension].  The default
    [['pcgn']] is one list, made when the function is defined, and the loop
    appends to it in place: the state is that list and the parent model, and
    a call leaves the list as the loop made it, also when the check of
    [ifill] raises afterwards. *)
Module DefaultExtension.

Definition __init__ (float : Type) (iter_mo iter_mi : Z)
    (close_h close_r relax : float) (ifill unit_pc unit_ts adamp : Z)
    (damp damp_lb rate_d chglimit : float) (acnvg : Z) (cnvg_lb : float)
    (mcnvg : Z) (rate_c : float) (ipunit : Z) (unit_number : Z)
    : M (list string * ModflowPcgn.Model float) (ModflowPcgn.ModflowPcgn float) :=
  fun st =>
    let '(extension, model) := st in
    let '(r, model') :=
      ModflowPcgn.__init__ float iter_mo iter_mi close_h close_r relax ifill
        unit_pc unit_ts adamp damp damp_lb rate_d chglimit acnvg cnvg_lb mcnvg
        rate_c ipunit extension unit_number model in
    let '(extension', _, _, _) :=
      ModflowPcgn.data_files [unit_pc; unit_ts; ipunit]
        ["pcgni"%string; "pcgnt"%string; "pcgno"%string]
        (extension, ["PCGN"%string], [unit_number], [EmptyString]) in
    (r, (extension', model')).

End DefaultExtension.

(** Unfolds the monad. *)
Ltac unfold_monad :=
  unfold bind, ret, raise, gets, modify, lift, MFScalar.self_ in *.

(** * Properties *)

(** ** The monad *)

Lemma bind_ok {S A B} (m : M S A) (k : A -> M S B) s a s' :
  m s = (Ok a, s') -> bind m k s = k a s'.
Proof. intros H. unfold bind. rewrite H. reflexivity. Qed.

Lemma bind_raise {S A B} (m : M S A) (k : A -> M S B) s e s' :
  m s = (Raise e, s') -> bind m k s = (Raise e, s').
Proof. intros H. unfold bind. rewrite H. reflexivity. Qed.

Lemma preserves_ret {S A} (R : S -> S -> Prop) `{!Reflexive R} (a : A) :
  preserves R (ret a).
Proof. intros s. reflexivity. Qed.

Lemma preserves_raise {S A} (R : S -> S -> Prop) `{!Reflexive R} e :
  preserves R (@raise S A e).
Proof. intros s. reflexivity. Qed.

Lemma preserves_lift {S A} (R : S -> S -> Prop) `{!Reflexive R} (r : result A) :
  preserves R (lift r).
Proof. intros s. reflexivity. Qed.

Lemma preserves_gets {S A} (R : S -> S -> Prop) `{!Reflexive R} (f : S -> A) :
  preserves R (gets f).
Proof. intros s. reflexivity. Qed.

Lemma preserves_bind {S A B} (R : S -> S -> Prop) `{!Transitive R}
    (m : M S A) (k : A -> M S B) :
  preserves R m -> (forall a, preserves R (k a)) -> preserves R (bind m k).
Proof.
  intros Hm Hk s. unfold bind.
  specialize (Hm s). destruct (m s) as [[a|e] s1]; simpl in *.
  - etransitivity; [exact Hm | apply Hk].
  - exact Hm.
Qed.

Lemma preserves_if {S A} (R : S -> S -> Prop) (b : bool) (m1 m2 : M S A) :
  preserves R m1 -> preserves R m2 -> preserves R (if b then m1 else m2).
Proof. destruct b; auto. Qed.

(** ** Induction along the spine *)

Lemma spine_ind (P : pyval -> Prop) :
  (forall v, is_sequence v = false -> P v) ->
  (forall v, items_of v = Some [] -> P v) ->
  (forall v d l, items_of v = Some (d :: l) -> P d -> P v) ->
  forall v, P v.
Proof.
  intros Hscalar Hempty Hcons. fix IH 1. intros v.
  destruct v as [| | | |[|d l]|[|d l]|[|d l]|];
    try (apply Hscalar; reflexivity);
    try (apply Hempty; reflexivity);
    (eapply Hcons; [reflexivity | apply IH]).
Qed.

Lemma first_scalar_is_scalar v :
  layers_nonempty v = true -> is_sequence (first_scalar v) = false.
Proof.
  induction v as [v Hv|v Hv|v d l Hv IH] using spine_ind; intros Hne.
  - destruct v; try discriminate; reflexivity.
  - destruct v; simplify_eq/=.
  - destruct v; simplify_eq/=; auto.
Qed.

(** ** The state relations *)

Lemma touches_own_storage_refl : Reflexive touches_own_storage.
Proof. intros s. constructor; auto. Qed.
#[local] Existing Instance touches_own_storage_refl.

Lemma get_storage_obj_eq self self' :
  _data_storage self' = _data_storage self ->
  _current_key self' = _current_key self ->
  MFScalar._get_storage_obj self' = MFScalar._get_storage_obj self.
Proof. intros H1 H2. unfold MFScalar._get_storage_obj. rewrite H1, H2. reflexivity. Qed.

Lemma touches_own_storage_trans : Transitive touches_own_storage.
Proof.
  intros s1 s2 s3 [? ? ? ? ? Hd1 Hk1 Hst1] [? ? ? ? ? Hd2 Hk2 Hst2].
  constructor; try congruence.
  intros b Hb. rewrite Hst2, Hst1; auto.
  rewrite (get_storage_obj_eq s1 s2); auto.
Qed.
#[local] Existing Instance touches_own_storage_trans.

Lemma same_data_refl : Reflexive same_data.
Proof. intros s. constructor; [reflexivity | auto]. Qed.
#[local] Existing Instance same_data_refl.

Lemma same_data_trans : Transitive same_data.
Proof.
  intros s1 s2 s3 [H1 E1] [H2 E2]. constructor.
  - etransitivity; eauto.
  - intros b. rewrite E2, E1. reflexivity.
Qed.
#[local] Existing Instance same_data_trans.

Lemma same_data_storage_obj self self' :
  same_data self self' ->
  MFScalar._get_storage_obj self' = MFScalar._get_storage_obj self.
Proof.
  intros [[_ _ _ _ _ Hd Hk _] _]. apply get_storage_obj_eq; assumption.
Qed.

Lemma same_data_stored self self' :
  same_data self self' -> MFScalar.stored self' = MFScalar.stored self.
Proof.
  intros H. unfold MFScalar.stored.
  rewrite (same_data_storage_obj _ _ H). destruct H as [_ E].
  destruct (MFScalar._get_storage_obj self); [rewrite E|]; reflexivity.
Qed.

Section Unwrapping.
Context {collab : Collaborators}.

Lemma add_comment_same_data c line :
  preserves same_data (MFScalar._add_data_line_comment c line).
Proof. intros s. repeat constructor. Qed.

Lemma add_comment_eq c line self :
  MFScalar._add_data_line_comment c line self
  = (Ok tt, with_comments (comments self ++ [(c, line)]) self).
Proof. reflexivity. Qed.

(** Every iteration of the loop strictly reduces the depth. *)
Lemma set_data_step_decreases data self data' self' :
  MFScalar.set_data_step data self = (Ok data', self') ->
  (depth data' < depth data)%nat.
Proof.
  unfold MFScalar.set_data_step, MFScalar._add_data_line_comment. unfold_monad.
  destruct data as [| | | |[|d l]|[|d l]|[|d l]|]; simpl; try discriminate;
    destruct (MFScalar.has_trailing d); intros [= <- _]; lia.
Qed.

(** With more iterations than the depth, the [while] loop ends, and in the
    result of the recursion on the nesting. *)
Lemma while_unwrap_unwrap data :
  forall fuel self, (depth data < fuel)%nat ->
    MFScalar.while_unwrap fuel data self = Some (MFScalar.unwrap data self).
Proof.
  induction data as [v Hv|v Hv|v d l Hv IH] using spine_ind; intros fuel self Hfuel.
  - destruct fuel; destruct v; try discriminate; reflexivity.
  - destruct fuel; [lia|]. destruct v; simplify_eq/=; reflexivity.
  - destruct fuel; [lia|].
    assert (Hd : (depth d < fuel)%nat) by (destruct v; simplify_eq/=; lia).
    assert (Hstep : MFScalar.set_data_step v self
              = ((if MFScalar.has_trailing d
                  then MFScalar._add_data_line_comment (slice_from1 d) 0
                  else ret tt) ;; ret d) self).
    { destruct v; simplify_eq/=; reflexivity. }
    assert (Hrec : MFScalar.unwrap v self
              = ((if MFScalar.has_trailing d
                  then MFScalar._add_data_line_comment (slice_from1 d) 0
                  else ret tt) ;; MFScalar.unwrap d) self).
    { destruct v; simplify_eq/=; reflexivity. }
    assert (Hseq : is_sequence v = true) by (destruct v; simplify_eq/=; reflexivity).
    simpl. rewrite Hseq, Hstep, Hrec.
    destruct (MFScalar.has_trailing d); unfold_monad; simpl; apply IH; exact Hd.
Qed.

(** The loop on a value whose layers are not empty: it returns the first
    scalar and logs the trailing elements of the inner lists and tuples. *)
Lemma unwrap_nonempty data :
  forall self, layers_nonempty data = true ->
    exists self',
      MFScalar.unwrap data self = (Ok (first_scalar data), self')
      /\ same_data self self'
      /\ comments self' = comments self ++ logged (recorded_comments data).
Proof.
  induction data as [v Hv|v Hv|v d l Hv IH] using spine_ind; intros self Hne.
  - exists self. destruct v; try discriminate;
      (split; [reflexivity | split; [reflexivity | simpl; rewrite app_nil_r; reflexivity]]).
  - destruct v; simplify_eq/=.
  - assert (Hd : layers_nonempty d = true) by (destruct v; simplify_eq/=; assumption).
    assert (Hrec : MFScalar.unwrap v self
              = ((if MFScalar.has_trailing d
                  then MFScalar._add_data_line_comment (slice_from1 d) 0
                  else ret tt) ;; MFScalar.unwrap d) self).
    { destruct v; simplify_eq/=; reflexivity. }
    assert (Hfs : first_scalar v = first_scalar d) by (destruct v; simplify_eq/=; reflexivity).
    assert (Hrc : recorded_comments v
              = (if MFScalar.has_trailing d then [slice_from1 d] else [])
                ++ recorded_comments d).
    { unfold recorded_comments, MFScalar.has_trailing.
      destruct v; simplify_eq/=; destruct d; reflexivity. }
    rewrite Hrec, Hfs, Hrc. destruct (MFScalar.has_trailing d).
    + rewrite (bind_ok _ _ _ _ _ (add_comment_eq _ _ self)).
      destruct (IH (with_comments (comments self ++ [(slice_from1 d, 0)]) self) Hd)
        as (self' & Hu & Hsame & Hc).
      exists self'. split; [exact Hu|]. split.
      * etransitivity; [|exact Hsame]. repeat constructor.
      * rewrite Hc. simpl. rewrite <- app_assoc. reflexivity.
    + destruct (IH self Hd) as (self' & Hu & Hsame & Hc).
      exists self'. split; [exact Hu|]. split; [exact Hsame|exact Hc].
Qed.

(** The loop on a value with an empty layer: it raises [IndexError] and
    leaves the data alone. *)
Lemma unwrap_empty data :
  forall self, layers_nonempty data = false ->
    exists self',
      MFScalar.unwrap data self = (Raise IndexError, self') /\ same_data self self'.
Proof.
  induction data as [v Hv|v Hv|v d l Hv IH] using spine_ind; intros self Hne.
  - destruct v; discriminate.
  - exists self. destruct v; simplify_eq/=; (split; reflexivity).
  - assert (Hd : layers_nonempty d = false) by (destruct v; simplify_eq/=; assumption).
    assert (Hrec : MFScalar.unwrap v self
              = ((if MFScalar.has_trailing d
                  then MFScalar._add_data_line_comment (slice_from1 d) 0
                  else ret tt) ;; MFScalar.unwrap d) self).
    { destruct v; simplify_eq/=; reflexivity. }
    rewrite Hrec. destruct (MFScalar.has_trailing d).
    + rewrite (bind_ok _ _ _ _ _ (add_comment_eq _ _ self)).
      destruct (IH (with_comments (comments self ++ [(slice_from1 d, 0)]) self) Hd)
        as (self' & Hu & Hsame).
      exists self'. split; [exact Hu|].
      etransitivity; [|exact Hsame]. repeat constructor.
    + destruct (IH self Hd) as (self' & Hu & Hsame).
      exists self'. split; [exact Hu|exact Hsame].
Qed.

End Unwrapping.

(** ** The scalar cell: [set_data] *)

Section ScalarCell.
Context {collab : Collaborators}.

Lemma storage_read_some {A} meth (f : DataStorage -> A) self a :
  MFScalar._get_storage_obj self = Some a ->
  MFScalar.storage_read meth f self = (Ok (f (store self a)), self).
Proof. intros H. unfold MFScalar.storage_read. rewrite H. reflexivity. Qed.

Lemma storage_read_none {A} meth (f : DataStorage -> A) self :
  MFScalar._get_storage_obj self = None ->
  MFScalar.storage_read meth f self = (Raise (AttributeError meth), self).
Proof. intros H. unfold MFScalar.storage_read. rewrite H. reflexivity. Qed.

Lemma storage_set_data_some v self a :
  MFScalar._get_storage_obj self = Some a ->
  MFScalar.storage_set_data v self
  = (Ok tt, with_store (update_store a (DataStorage.set_data v) (store self)) self).
Proof. intros H. unfold MFScalar.storage_set_data. rewrite H. reflexivity. Qed.

Lemma update_store_same a f h : update_store a f h a = f (h a).
Proof. unfold update_store. rewrite Nat.eqb_refl. reflexivity. Qed.

Lemma update_store_other a f h b : b <> a -> update_store a f h b = h b.
Proof.
  intros Hne. unfold update_store.
  destruct (Nat.eqb_spec b a); [contradiction|reflexivity].
Qed.

Lemma stored_with_store v self a :
  MFScalar._get_storage_obj self = Some a ->
  MFScalar.stored
    (with_store (update_store a (DataStorage.set_data v) (store self)) self)
  = Some v.
Proof.
  intros H. unfold MFScalar.stored.
  change (MFScalar._get_storage_obj (with_store _ self))
    with (MFScalar._get_storage_obj self).
  rewrite H. simpl. rewrite update_store_same. reflexivity.
Qed.

Lemma item0_some self it :
  data_item_structures (structure self) !! 0%nat = Some it ->
  MFScalar.item0 self = (Ok it, self).
Proof.
  intros H. unfold MFScalar.item0, getitem. unfold_monad. simpl. rewrite H. reflexivity.
Qed.

(** [set_data] once the loop has returned [data] in state [self]. *)
Lemma set_data_after_unwrap raw data self0 self a it v :
  MFScalar.unwrap raw self0 = (Ok data, self) ->
  MFScalar._get_storage_obj self = Some a ->
  data_item_structures (structure self) !! 0%nat = Some it ->
  convert_data data (_data_type self) it = Ok v ->
  MFScalar.set_data raw self0
  = (Ok tt, with_store (update_store a (DataStorage.set_data v) (store self)) self).
Proof.
  intros Hu Ha Hit Hv. unfold MFScalar.set_data.
  rewrite (bind_ok _ _ _ _ _ Hu).
  rewrite (bind_ok _ _ _ _ _ (storage_read_some _ _ _ _ Ha)).
  rewrite (bind_ok _ _ _ _ _ (storage_read_some _ _ _ _ Ha)).
  unfold MFScalar.self_ at 1. unfold bind at 1, gets at 1.
  rewrite (bind_ok _ _ _ _ _ (item0_some _ _ Hit)).
  unfold bind at 1, lift at 1. rewrite Hv.
  apply storage_set_data_some. exact Ha.
Qed.

(** C2, as amended: for a raw value whose wrapper layers are not empty,
    [set_data] follows first elements down to a value that is no list, tuple
    or array, stores its conversion to the declared type, and records as
    comments, on line 0 and outermost first, the elements from index 1 onward
    of every list or tuple longer than 1 that is the first element of a
    wrapper.  The trailing elements of the outermost wrapper and of arrays
    are not recorded. *)
Theorem set_data_unwraps_first_scalar (raw : pyval) (self : MFScalar)
    (a : addr) (it : MFDataItemStructure) (v : pyval) :
  layers_nonempty raw = true ->
  MFScalar._get_storage_obj self = Some a ->
  data_item_structures (structure self) !! 0%nat = Some it ->
  convert_data (first_scalar raw) (_data_type self) it = Ok v ->
  exists self',
    MFScalar.set_data raw self = (Ok tt, self')
    /\ is_sequence (first_scalar raw) = false
    /\ MFScalar.stored self' = Some v
    /\ comments self' = comments self ++ logged (recorded_comments raw).
Proof.
  intros Hne Ha Hit Hv.
  destruct (unwrap_nonempty raw self Hne) as (self1 & Hu & Hsame & Hc).
  pose proof (same_data_storage_obj _ _ Hsame) as Hobj. rewrite Ha in Hobj.
  destruct Hsame as [[Hs Hdt _ _ _ _ _ _] _].
  eexists. split.
  - eapply set_data_after_unwrap; eauto.
    + rewrite Hs. exact Hit.
    + rewrite Hdt. exact Hv.
  - split; [apply first_scalar_is_scalar; exact Hne|]. split.
    + apply stored_with_store. exact Hobj.
    + exact Hc.
Qed.

(** C10: every iteration of the unwrapping loop strictly reduces the depth
    of [data], so the loop ends within [depth data + 1] iterations; when no
    wrapper layer is empty it ends on the first scalar; when a layer is
    empty [set_data] raises [IndexError] and no storage object changes. *)
Theorem set_data_unwrap_terminates (data : pyval) (self : MFScalar) :
  (forall data' self',
      MFScalar.set_data_step data self = (Ok data', self') ->
      (depth data' < depth data)%nat)
  /\ (forall fuel, (depth data < fuel)%nat ->
        MFScalar.while_unwrap fuel data self = Some (MFScalar.unwrap data self))
  /\ (layers_nonempty data = true ->
        exists self',
          MFScalar.unwrap data self = (Ok (first_scalar data), self')
          /\ is_sequence (first_scalar data) = false)
  /\ (layers_nonempty data = false ->
        exists self',
          MFScalar.set_data data self = (Raise IndexError, self')
          /\ (forall b, store self' b = store self b)
          /\ MFScalar.stored self' = MFScalar.stored self).
Proof.
  split; [|split; [|split]].
  - intros data' self'. apply set_data_step_decreases.
  - intros fuel. apply while_unwrap_unwrap.
  - intros Hne. destruct (unwrap_nonempty data self Hne) as (self' & Hu & _).
    exists self'. split; [exact Hu|]. apply first_scalar_is_scalar. exact Hne.
  - intros Hne. destruct (unwrap_empty data self Hne) as (self' & Hu & Hsame).
    exists self'. split; [|split].
    + unfold MFScalar.set_data. apply bind_raise. exact Hu.
    + apply Hsame.
    + apply same_data_stored. exact Hsame.
Qed.

End ScalarCell.

(** [set_data([[5, "note"]])] stores 5 and records the comment "note". *)
Lemma set_data_unwraps_first_scalar_witness :
  exists self',
    MFScalar.set_data (collab := Sample.collaborators)
      (PList [PList [PInt 5; PStr "note"]])
      (Fixture.empty_cell Fixture.nper Fixture.nper_item) = (Ok tt, self')
    /\ is_sequence (PInt 5) = false
    /\ MFScalar.stored self' = Some (PInt 5)
    /\ comments self' = [([PStr "note"], 0)].
Proof.
  apply (set_data_unwraps_first_scalar (collab := Sample.collaborators)
           (PList [PList [PInt 5; PStr "note"]])
           (Fixture.empty_cell Fixture.nper Fixture.nper_item)
           0%nat Fixture.nper_item (PInt 5));
    reflexivity.
Defined.

(** [set_data([5, "note"])] stores 5 and records nothing, where the claim as
    worded has "note" recorded; and [set_data([array([5, 7])])] stores 5 and
    records nothing, where the claim, also when it is read for inner layers
    only, has 7 recorded. *)
Lemma set_data_drops_outermost_trailing :
  ~ set_data_records_every_layer Sample.collaborators
  /\ ~ set_data_records_every_inner_layer Sample.collaborators.
Proof.
  split; intros Hclaim.
  - destruct (Hclaim (PList [PInt 5; PStr "note"])
                (Fixture.empty_cell Fixture.nper Fixture.nper_item)
                0%nat Fixture.nper_item (PInt 5)
                eq_refl eq_refl eq_refl eq_refl) as (self' & Hrun & _ & Hc).
    vm_compute in Hrun. injection Hrun as <-. discriminate Hc.
  - destruct (Hclaim (PList [PArray [PInt 5; PInt 7]])
                (Fixture.empty_cell Fixture.nper Fixture.nper_item)
                0%nat Fixture.nper_item (PInt 5)
                eq_refl eq_refl eq_refl eq_refl) as (self' & Hrun & _ & Hc).
    vm_compute in Hrun. injection Hrun as <-. discriminate Hc.
Qed.

(** An array that is the first element of a wrapper is unwrapped without a
    comment, whatever its length. *)
Example set_data_array_layer :
  let r := MFScalar.set_data (collab := Sample.collaborators)
             (PList [PArray [PInt 5; PInt 7]])
             (Fixture.empty_cell Fixture.nper Fixture.nper_item) in
  fst r = Ok tt /\ MFScalar.stored (snd r) = Some (PInt 5) /\ comments (snd r) = [].
Proof. repeat split. Qed.

(** Three iterations unwrap [[5, "note"]] of depth 2; [[]] raises. *)
Lemma set_data_unwrap_terminates_witness :
  MFScalar.while_unwrap 3 (PList [PList [PInt 5; PStr "note"]])
    (Fixture.empty_cell Fixture.nper Fixture.nper_item)
  = Some (MFScalar.unwrap (PList [PList [PInt 5; PStr "note"]])
            (Fixture.empty_cell Fixture.nper Fixture.nper_item))
  /\ exists self',
       MFScalar.set_data (collab := Sample.collaborators) (PList [PList []])
         (Fixture.empty_cell Fixture.nper Fixture.nper_item)
       = (Raise IndexError, self')
       /\ (forall b, store self' b
                     = store (Fixture.empty_cell Fixture.nper Fixture.nper_item) b)
       /\ MFScalar.stored self'
          = MFScalar.stored (Fixture.empty_cell Fixture.nper Fixture.nper_item).
Proof.
  split.
  - apply (set_data_unwrap_terminates (collab := Sample.collaborators)
             (PList [PList [PInt 5; PStr "note"]])
             (Fixture.empty_cell Fixture.nper Fixture.nper_item)).
    simpl. lia.
  - apply (set_data_unwrap_terminates (collab := Sample.collaborators)
             (PList [PList []])
             (Fixture.empty_cell Fixture.nper Fixture.nper_item)).
    reflexivity.
Defined.

(** ** The scalar cell: [has_data], [add_one] *)

Lemma bind_ok_inv {S A B} (m : M S A) (k : A -> M S B) s b s' :
  bind m k s = (Ok b, s') ->
  exists a s1, m s = (Ok a, s1) /\ k a s1 = (Ok b, s').
Proof. unfold bind. destruct (m s) as [[a|e] s1]; [eauto | discriminate]. Qed.

Lemma lift_ok_inv {S A} (r : result A) (s s1 : S) x :
  lift r s = (Ok x, s1) -> r = Ok x /\ s1 = s.
Proof. unfold lift. intros [= -> ->]. auto. Qed.

Lemma ret_ok_inv {S A} (a : A) (s s1 : S) x :
  ret a s = (Ok x, s1) -> x = a /\ s1 = s.
Proof. unfold ret. intros [= -> ->]. auto. Qed.

Section ScalarData.
Context {collab : Collaborators}.

Lemma self_ok_inv s x s1 :
  MFScalar.self_ s = (Ok x, s1) -> x = s /\ s1 = s.
Proof. unfold MFScalar.self_, gets. intros [= -> ->]. auto. Qed.

Lemma storage_read_ok_inv {A} meth (f : DataStorage -> A) s x s1 :
  MFScalar.storage_read meth f s = (Ok x, s1) ->
  s1 = s /\ exists a, MFScalar._get_storage_obj s = Some a /\ x = f (store s a).
Proof.
  unfold MFScalar.storage_read.
  destruct (MFScalar._get_storage_obj s) as [a|]; [|discriminate].
  intros [= <- <-]. eauto.
Qed.

Lemma storage_set_data_ok_inv v s u s1 :
  MFScalar.storage_set_data v s = (Ok u, s1) -> MFScalar.stored s1 = Some v.
Proof.
  unfold MFScalar.storage_set_data.
  destruct (MFScalar._get_storage_obj s) as [a|] eqn:Ha; [|discriminate].
  intros [= _ <-]. apply stored_with_store. exact Ha.
Qed.


Lemma stored_inv self v :
  MFScalar.stored self = Some v ->
  exists a, MFScalar._get_storage_obj self = Some a /\ sto_data (store self a) = v.
Proof.
  unfold MFScalar.stored.
  destruct (MFScalar._get_storage_obj self) as [a|]; [|discriminate].
  intros [= <-]. eauto.
Qed.

Lemma has_data_stored self v :
  MFScalar.stored self = Some v ->
  MFScalar.has_data self = (Ok (negb (DataStorage.is_none v)), self).
Proof.
  intros H. destruct (stored_inv _ _ H) as (a & Ha & Hv).
  unfold MFScalar.has_data. rewrite (storage_read_some _ _ _ _ Ha).
  unfold DataStorage.has_data. rewrite Hv. reflexivity.
Qed.

Lemma get_data_stored self v b :
  MFScalar.stored self = Some v ->
  MFScalar.get_data b self = (Ok (if b then multiplied v else v), self).
Proof.
  intros H. destruct (stored_inv _ _ H) as (a & Ha & Hv).
  unfold MFScalar.get_data. rewrite (storage_read_some _ _ _ _ Ha).
  unfold DataStorage.get_data. rewrite Hv. reflexivity.
Qed.

Lemma get_data_false_stored self v :
  MFScalar.stored self = Some v -> MFScalar.get_data false self = (Ok v, self).
Proof. apply (get_data_stored self v false). Qed.

(** A successful [set_data] leaves a converted value in the storage. *)
Lemma set_data_ok_inv raw self u self' :
  MFScalar.set_data raw self = (Ok u, self') ->
  exists d t it v, convert_data d t it = Ok v /\ MFScalar.stored self' = Some v.
Proof.
  unfold MFScalar.set_data. intros H.
  apply bind_ok_inv in H as (d & s1 & _ & H).
  apply bind_ok_inv in H as (? & s2 & _ & H).
  apply bind_ok_inv in H as (? & s3 & _ & H).
  apply bind_ok_inv in H as (s4 & s5 & _ & H).
  apply bind_ok_inv in H as (it & s6 & _ & H).
  apply bind_ok_inv in H as (v & s7 & Hv & H).
  apply lift_ok_inv in Hv as [Hv _].
  apply storage_set_data_ok_inv in H. eauto 10.
Qed.

(** A successful [load] leaves [True] or a converted value in the storage. *)
Lemma load_ok_inv first_line file_handle self r self' :
  MFScalar.load first_line file_handle self = (Ok r, self') ->
  exists v, MFScalar.stored self' = Some v
            /\ (v = PBool true \/ exists d t it, convert_data d t it = Ok v).
Proof.
  unfold MFScalar.load. intros H.
  apply bind_ok_inv in H as (s0 & s1 & _ & H).
  apply bind_ok_inv in H as (kw & s2 & _ & H).
  apply bind_ok_inv in H as (index_num & s3 & Hstore & H).
  apply bind_ok_inv in H as (? & s4 & Hcomment & H).
  apply ret_ok_inv in H as [_ ->].
  assert (Hs3 : exists v, MFScalar.stored s3 = Some v
            /\ (v = PBool true \/ exists d t it, convert_data d t it = Ok v)).
  { clear Hcomment.
    destruct (String.eqb (type (structure s0)) "record").
    - apply bind_ok_inv in Hstore as (index & t1 & _ & H).
      apply bind_ok_inv in H as (? & t2 & _ & H).
      apply bind_ok_inv in H as (? & t3 & _ & H).
      apply bind_ok_inv in H as (tok & t4 & _ & H).
      apply bind_ok_inv in H as (it & t5 & _ & H).
      apply bind_ok_inv in H as (it0 & t6 & _ & H).
      apply bind_ok_inv in H as (v & t7 & Hv & H).
      apply lift_ok_inv in Hv as [Hv _].
      apply bind_ok_inv in H as (? & t8 & H & Hret).
      apply ret_ok_inv in Hret as [_ ->].
      apply storage_set_data_ok_inv in H. eauto 10.
    - destruct (MFScalar.is_keyword_datatype (get_datatype (structure s0))).
      + apply bind_ok_inv in Hstore as (? & t1 & H & Hret).
        apply ret_ok_inv in Hret as [_ ->].
        apply storage_set_data_ok_inv in H. eauto.
      + destruct (length _ <? 1 + fst kw)%nat.
        * apply bind_ok_inv in Hstore as (it0 & t1 & _ & H). discriminate H.
        * apply bind_ok_inv in Hstore as (? & t2 & _ & H).
          apply bind_ok_inv in H as (? & t3 & _ & H).
          apply bind_ok_inv in H as (tok & t4 & _ & H).
          apply bind_ok_inv in H as (it0 & t6 & _ & H).
          apply bind_ok_inv in H as (v & t7 & Hv & H).
          apply lift_ok_inv in Hv as [Hv _].
          apply bind_ok_inv in H as (? & t8 & H & Hret).
          apply ret_ok_inv in Hret as [_ ->].
          apply storage_set_data_ok_inv in H. eauto 10. }
  destruct Hs3 as (v & Hv & Hkind). exists v. split; [|exact Hkind].
  rewrite <- Hv. apply same_data_stored.
  destruct (index_num <? length _)%nat.
  - pose proof (add_comment_same_data
                  (map PStr (drop index_num
                     (split_data_line (_read_pre_data_comments first_line file_handle))))
                  0 s3) as Hp.
    rewrite Hcomment in Hp. exact Hp.
  - apply ret_ok_inv in Hcomment as [_ ->]. reflexivity.
Qed.

(** C3, as amended: [has_data()] is false right after a construction without
    initial data, and true right after a construction with initial data,
    after any successful [set_data] and after any successful [load], the
    conversion of the storage engine yielding a value and never [None]. *)
Theorem has_data_after_construction_set_load
    (convert_yields_value :
       forall d t it v, convert_data d t it = Ok v -> v <> PNone) :
  (forall indent s self,
      MFScalar.__init__ indent s PNone = Ok self ->
      MFScalar.has_data self = (Ok false, self))
  /\ (forall indent s data self,
        data <> PNone ->
        MFScalar.__init__ indent s data = Ok self ->
        MFScalar.has_data self = (Ok true, self))
  /\ (forall raw self self',
        MFScalar.set_data raw self = (Ok tt, self') ->
        MFScalar.has_data self' = (Ok true, self'))
  /\ (forall first_line file_handle self r self',
        MFScalar.load first_line file_handle self = (Ok r, self') ->
        MFScalar.has_data self' = (Ok true, self')).
Proof.
  assert (Hset : forall raw self u self',
             MFScalar.set_data raw self = (Ok u, self') ->
             MFScalar.has_data self' = (Ok true, self')).
  { intros raw self u self' H.
    apply set_data_ok_inv in H as (d & t & it & v & Hv & Hs).
    rewrite (has_data_stored _ _ Hs).
    apply convert_yields_value in Hv. destruct v; [contradiction|..]; reflexivity. }
  split; [|split; [|split]].
  - intros indent s self. unfold MFScalar.__init__.
    destruct (getitem (data_item_structures s) 0) as [it|e]; [|discriminate].
    simpl. intros [= <-]. reflexivity.
  - intros indent s data self Hdata. unfold MFScalar.__init__.
    destruct (getitem (data_item_structures s) 0) as [it|e]; [|discriminate].
    destruct (DataStorage.is_none data) eqn:Hn.
    { destruct data; try discriminate. contradiction. }
    destruct (MFScalar.set_data data _) as [[u|e] s1] eqn:Hrun; [|discriminate].
    intros [= <-]. eapply Hset. exact Hrun.
  - intros raw self self'. apply Hset.
  - intros first_line file_handle self r self' H.
    apply load_ok_inv in H as (v & Hs & Hkind).
    rewrite (has_data_stored _ _ Hs).
    destruct Hkind as [->|(d & t & it & Hv)]; [reflexivity|].
    apply convert_yields_value in Hv. destruct v; [contradiction|..]; reflexivity.
Qed.

(** C4: on a cell whose declared datum type is integer, [add_one] stores 1
    when no value is present and [n + 1] when [n] is present; on a cell of
    any other declared type it raises the exception whose message names the
    field and the declared type, and the object is left as it was. *)
Theorem add_one_integer_or_unsupported (self : MFScalar) :
  (is_int_type (get_datum_type (structure self)) = true ->
     (MFScalar.stored self = Some PNone ->
        exists self',
          MFScalar.add_one self = (Ok tt, self')
          /\ MFScalar.stored self' = Some (PInt 1))
     /\ (forall n, MFScalar.stored self = Some (PInt n) ->
           exists self',
             MFScalar.add_one self = (Ok tt, self')
             /\ MFScalar.stored self' = Some (PInt (n + 1))))
  /\ (is_int_type (get_datum_type (structure self)) = false ->
        MFScalar.add_one self
        = (Raise (MFFileParseException
                    (_data_name self +:+ " of type "
                     +:+ get_datum_type (structure self)
                     +:+ " does not support add one operation.")), self)).
Proof.
  split.
  - intros Hint. split.
    + intros Hs. destruct (stored_inv _ _ Hs) as (a & Ha & _).
      eexists. split.
      * unfold MFScalar.add_one. unfold MFScalar.self_ at 1.
        unfold bind at 1, gets at 1. rewrite Hint.
        rewrite (bind_ok _ _ _ _ _ (get_data_false_stored _ _ Hs)). simpl.
        apply storage_set_data_some. exact Ha.
      * apply stored_with_store. exact Ha.
    + intros n Hs. destruct (stored_inv _ _ Hs) as (a & Ha & _).
      eexists. split.
      * unfold MFScalar.add_one. unfold MFScalar.self_ at 1.
        unfold bind at 1, gets at 1. rewrite Hint.
        rewrite (bind_ok _ _ _ _ _ (get_data_false_stored _ _ Hs)). simpl.
        rewrite (bind_ok _ _ _ _ _ (storage_read_some _ _ _ _ Ha)).
        rewrite (bind_ok _ _ _ _ _ (get_data_false_stored _ _ Hs)).
        unfold bind at 1, lift at 1. simpl.
        apply storage_set_data_some. exact Ha.
      * apply stored_with_store. exact Ha.
  - intros Hint. unfold MFScalar.add_one. unfold MFScalar.self_ at 1.
    unfold bind at 1, gets at 1. rewrite Hint. reflexivity.
Qed.

End ScalarData.

(** A cell constructed with the value 5 has data. *)
Lemma constructed_with_data_has_data :
  ~ constructed_cell_has_no_data Sample.collaborators.
Proof.
  intros Hclaim.
  specialize (Hclaim Fixture.indent Fixture.nper (PInt 5)
                (Fixture.cell_with Fixture.nper Fixture.nper_item (PInt 5))
                eq_refl).
  discriminate Hclaim.
Qed.

Lemma sample_convert_yields_value d t it v :
  Sample.convert_data d t it = Ok v -> v <> PNone.
Proof.
  unfold Sample.convert_data.
  destruct (is_int_type t).
  - destruct d; try discriminate; try (intros [= <-]; discriminate).
    destruct (NilZero.int_of_string s); [intros [= <-]|]; discriminate.
  - destruct d; try discriminate; intros [= <-]; discriminate.
Qed.

(** The integer cell: empty when constructed, with data once 5 is set or
    the line [NPER 12] is loaded. *)
Lemma has_data_after_construction_set_load_witness :
  MFScalar.has_data
    (Fixture.empty_cell Fixture.nper Fixture.nper_item)
  = (Ok false, Fixture.empty_cell Fixture.nper Fixture.nper_item)
  /\ MFScalar.has_data
       (snd (MFScalar.set_data (collab := Sample.collaborators) (PInt 5)
               (Fixture.empty_cell Fixture.nper Fixture.nper_item)))
     = (Ok true,
        snd (MFScalar.set_data (collab := Sample.collaborators) (PInt 5)
               (Fixture.empty_cell Fixture.nper Fixture.nper_item)))
  /\ MFScalar.has_data
       (snd (MFScalar.load (collab := Sample.collaborators) "NPER 12" []
               (Fixture.empty_cell Fixture.nper Fixture.nper_item)))
     = (Ok true,
        snd (MFScalar.load (collab := Sample.collaborators) "NPER 12" []
               (Fixture.empty_cell Fixture.nper Fixture.nper_item))).
Proof.
  pose proof (has_data_after_construction_set_load
                (collab := Sample.collaborators) sample_convert_yields_value)
    as (Hinit & _ & Hset & Hload).
  split; [|split].
  - apply (Hinit Fixture.indent Fixture.nper). reflexivity.
  - apply (Hset (PInt 5) (Fixture.empty_cell Fixture.nper Fixture.nper_item)).
    reflexivity.
  - apply (Hload "NPER 12"%string []
             (Fixture.empty_cell Fixture.nper Fixture.nper_item) (false, None)).
    reflexivity.
Defined.

(** [add_one] on the integer cell, empty and holding 5, and on a text cell. *)
Lemma add_one_integer_or_unsupported_witness :
  (exists self',
      MFScalar.add_one (collab := Sample.collaborators) (Fixture.empty_cell Fixture.nper Fixture.nper_item)
      = (Ok tt, self')
      /\ MFScalar.stored self' = Some (PInt 1))
  /\ (exists self',
        MFScalar.add_one (collab := Sample.collaborators) (Fixture.cell_with Fixture.nper Fixture.nper_item (PInt 5))
        = (Ok tt, self')
        /\ MFScalar.stored self' = Some (PInt (5 + 1)))
  /\ MFScalar.add_one (collab := Sample.collaborators)
       (Fixture.cell_with Fixture.title Fixture.title_item (PStr "basin"))
     = (Raise (MFFileParseException
                 "title of type string does not support add one operation."),
        Fixture.cell_with Fixture.title Fixture.title_item (PStr "basin")).
Proof.
  split; [|split].
  - apply (add_one_integer_or_unsupported (collab := Sample.collaborators)
             (Fixture.empty_cell Fixture.nper Fixture.nper_item));
      reflexivity.
  - apply (add_one_integer_or_unsupported (collab := Sample.collaborators)
             (Fixture.cell_with Fixture.nper Fixture.nper_item (PInt 5)));
      reflexivity.
  - apply (add_one_integer_or_unsupported (collab := Sample.collaborators)
             (Fixture.cell_with Fixture.title Fixture.title_item (PStr "basin"))).
    reflexivity.
Defined.

(** ** The scalar cell: [load] *)

Section ScalarLoad.
Context {collab : Collaborators}.

(** The end of [load]: the remainder of the line becomes a comment and the
    data stay as they are. *)
Lemma load_finish (index_num : nat) (arr_line : list string) (s : MFScalar) :
  exists s',
    ((if (index_num <? length arr_line)%nat then
        MFScalar._add_data_line_comment (map PStr (drop index_num arr_line)) 0
      else ret tt) ;;
     ret (false, @None string)) s = (Ok (false, None), s')
    /\ MFScalar.stored s' = MFScalar.stored s.
Proof.
  destruct (index_num <? length arr_line)%nat; eexists; split; reflexivity.
Qed.

(** C5: past the record test, [load] on a keyword-only datatype stores
    [True] whatever follows the keyword; on any other datatype, when no
    token stands at the index after the keyword, it raises the exception
    whose text names the field, the label (the name of the first sub-item in
    lower case) and the line, each between double quotes, and leaves the
    object as it was; otherwise it converts and stores the token at that
    index. *)
Theorem load_keyword_or_token (self : MFScalar) (first_line : string)
    (file_handle : list string) (index_num : nat) (aux : option nat) :
  let current_line := _read_pre_data_comments first_line file_handle in
  let arr_line := split_data_line current_line in
  String.eqb (type (structure self)) "record" = false ->
  _load_keyword (structure self) arr_line 0 = Ok (index_num, aux) ->
  (MFScalar.is_keyword_datatype (get_datatype (structure self)) = true ->
     forall a, MFScalar._get_storage_obj self = Some a ->
       exists self',
         MFScalar.load first_line file_handle self = (Ok (false, None), self')
         /\ MFScalar.stored self' = Some (PBool true))
  /\ (MFScalar.is_keyword_datatype (get_datatype (structure self)) = false ->
        (forall it0,
            arr_line !! index_num = None ->
            data_item_structures (structure self) !! 0%nat = Some it0 ->
            MFScalar.load first_line file_handle self
            = (Raise (MFFileParseException
                        ("Error reading variable "
                         +:+ String "034"%char (_data_name self)
                         +:+ String "034"%char ".  Expected data after label "
                         +:+ String "034"%char (lower (item_name it0))
                         +:+ String "034"%char " not found at line "
                         +:+ String "034"%char current_line
                         +:+ String "034"%char ".")), self))
        /\ (forall tok a it0 v,
              arr_line !! index_num = Some tok ->
              MFScalar._get_storage_obj self = Some a ->
              data_item_structures (structure self) !! 0%nat = Some it0 ->
              convert_data (PStr tok) (_data_type self) it0 = Ok v ->
              exists self',
                MFScalar.load first_line file_handle self = (Ok (false, None), self')
                /\ MFScalar.stored self' = Some v)).
Proof.
  intros current_line arr_line Hrec Hkw.
  assert (Hload :
            MFScalar.load first_line file_handle self
            = bind
                (if MFScalar.is_keyword_datatype (get_datatype (structure self)) then
                   MFScalar.storage_set_data (PBool true) ;; ret index_num
                 else if (length arr_line <? 1 + index_num)%nat then
                   let* it0 := MFScalar.item0 in
                   raise (MFFileParseException
                            (MFScalar.missing_data_message (_data_name self)
                               (lower (item_name it0)) current_line))
                 else
                   MFScalar.storage_read "set_data" (fun _ => tt) ;;
                   MFScalar.storage_read "convert_data" (fun _ => tt) ;;
                   let* tok := lift (getitem arr_line index_num) in
                   let* it0 := MFScalar.item0 in
                   let* v := lift (convert_data (PStr tok) (_data_type self) it0) in
                   MFScalar.storage_set_data v ;;
                   ret (index_num + 1)%nat)
                (fun index_num =>
                   (if (index_num <? length arr_line)%nat then
                      MFScalar._add_data_line_comment
                        (map PStr (drop index_num arr_line)) 0
                    else ret tt) ;;
                   ret (false, None)) self).
  { unfold MFScalar.load. unfold MFScalar.self_ at 1.
    unfold bind at 1, gets at 1. cbv beta iota zeta.
    fold current_line. fold arr_line. rewrite Hkw.
    unfold bind at 1, lift at 1. cbv beta iota. cbn [fst].
    rewrite Hrec. reflexivity. }
  rewrite Hload. clear Hload. split.
  - intros Hdt a Ha. rewrite Hdt.
    pose proof (storage_set_data_some (PBool true) self a Ha) as Hset.
    assert (Hbranch :
              (MFScalar.storage_set_data (PBool true) ;; ret index_num) self
              = (Ok index_num,
                 with_store (update_store a (DataStorage.set_data (PBool true))
                               (store self)) self)).
    { rewrite (bind_ok _ _ _ _ _ Hset). reflexivity. }
    rewrite (bind_ok _ _ _ _ _ Hbranch).
    destruct (load_finish index_num arr_line
                (with_store (update_store a (DataStorage.set_data (PBool true))
                               (store self)) self)) as (s' & Hfin & Hst).
    exists s'. split; [exact Hfin|].
    rewrite Hst. apply stored_with_store. exact Ha.
  - intros Hdt. rewrite Hdt. split.
    + intros it0 Htok Hit.
      apply lookup_ge_None in Htok.
      assert (Hlt : (length arr_line <? 1 + index_num)%nat = true)
        by (apply Nat.ltb_lt; lia).
      rewrite Hlt. apply bind_raise.
      rewrite (bind_ok _ _ _ _ _ (item0_some _ _ Hit)). reflexivity.
    + intros tok a it0 v Htok Ha Hit Hv.
      pose proof (lookup_lt_Some _ _ _ Htok) as Hlen.
      assert (Hlt : (length arr_line <? 1 + index_num)%nat = false)
        by (apply Nat.ltb_ge; lia).
      rewrite Hlt.
      assert (Hbranch :
                (MFScalar.storage_read "set_data" (fun _ => tt) ;;
                 MFScalar.storage_read "convert_data" (fun _ => tt) ;;
                 let* tok := lift (getitem arr_line index_num) in
                 let* it0 := MFScalar.item0 in
                 let* v := lift (convert_data (PStr tok) (_data_type self) it0) in
                 MFScalar.storage_set_data v ;;
                 ret (index_num + 1)%nat) self
                = (Ok (index_num + 1)%nat,
                   with_store (update_store a (DataStorage.set_data v)
                                 (store self)) self)).
      { rewrite (bind_ok _ _ _ _ _ (storage_read_some _ _ _ _ Ha)).
        rewrite (bind_ok _ _ _ _ _ (storage_read_some _ _ _ _ Ha)).
        unfold getitem. rewrite Htok.
        unfold bind at 1, lift at 1. cbv beta iota.
        rewrite (bind_ok _ _ _ _ _ (item0_some _ _ Hit)).
        rewrite Hv. unfold bind at 1, lift at 1. cbv beta iota.
        rewrite (bind_ok _ _ _ _ _ (storage_set_data_some v self a Ha)).
        reflexivity. }
      rewrite (bind_ok _ _ _ _ _ Hbranch).
      destruct (load_finish (index_num + 1) arr_line
                  (with_store (update_store a (DataStorage.set_data v)
                                 (store self)) self)) as (s' & Hfin & Hst).
      exists s'. split; [exact Hfin|].
      rewrite Hst. apply stored_with_store. exact Ha.
Qed.

End ScalarLoad.

(** The keyword field loads from the keyword alone; the integer field raises
    on [NPER] alone and stores 12 from [NPER 12]. *)
Lemma load_keyword_or_token_witness :
  (exists self',
      MFScalar.load (collab := Sample.collaborators) "SAVE_FLOWS" []
        (Fixture.empty_cell Fixture.save_flows Fixture.save_item)
      = (Ok (false, None), self')
      /\ MFScalar.stored self' = Some (PBool true))
  /\ MFScalar.load (collab := Sample.collaborators) "NPER" []
       (Fixture.empty_cell Fixture.nper Fixture.nper_item)
     = (Raise (MFFileParseException
                 ("Error reading variable "
                  +:+ String "034"%char "nper"
                  +:+ String "034"%char ".  Expected data after label "
                  +:+ String "034"%char "nper"
                  +:+ String "034"%char " not found at line "
                  +:+ String "034"%char "NPER"
                  +:+ String "034"%char ".")),
        Fixture.empty_cell Fixture.nper Fixture.nper_item)
  /\ (exists self',
        MFScalar.load (collab := Sample.collaborators) "NPER 12" []
          (Fixture.empty_cell Fixture.nper Fixture.nper_item)
        = (Ok (false, None), self')
        /\ MFScalar.stored self' = Some (PInt 12)).
Proof.
  split; [|split].
  - destruct (load_keyword_or_token (collab := Sample.collaborators)
                (Fixture.empty_cell Fixture.save_flows Fixture.save_item)
                "SAVE_FLOWS" [] 1%nat None eq_refl eq_refl) as [Hkeyword _].
    apply (Hkeyword eq_refl 0%nat eq_refl).
  - destruct (load_keyword_or_token (collab := Sample.collaborators)
                (Fixture.empty_cell Fixture.nper Fixture.nper_item)
                "NPER" [] 1%nat None eq_refl eq_refl) as [_ Hscalar].
    destruct (Hscalar eq_refl) as [Hmissing _].
    apply (Hmissing Fixture.nper_item eq_refl eq_refl).
  - destruct (load_keyword_or_token (collab := Sample.collaborators)
                (Fixture.empty_cell Fixture.nper Fixture.nper_item)
                "NPER 12" [] 1%nat None eq_refl eq_refl) as [_ Hscalar].
    destruct (Hscalar eq_refl) as [_ Htoken].
    apply (Htoken "12"%string 0%nat Fixture.nper_item (PInt 12)
             eq_refl eq_refl eq_refl eq_refl).
Defined.

(** ** The scalar cell: [get_file_entry] *)


Lemma is_int_type_not_keyword_record t :
  is_int_type t = true ->
  String.eqb t "keyword" = false /\ String.eqb t "record" = false.
Proof.
  unfold is_int_type. intros H.
  destruct (orb_prop _ _ H) as [E|E]; apply String.eqb_eq in E; subst t;
    split; reflexivity.
Qed.

Section ScalarEntry.
Context {collab : Collaborators}.

Lemma storage_read_read_only {A} meth (f : DataStorage -> A) :
  preserves eq (MFScalar.storage_read meth f).
Proof.
  intros s. unfold MFScalar.storage_read.
  destruct (MFScalar._get_storage_obj s); reflexivity.
Qed.

Lemma item0_read_only : preserves eq MFScalar.item0.
Proof.
  unfold MFScalar.item0.
  apply preserves_bind; [apply _ | apply preserves_gets; apply _ |].
  intros self. apply preserves_lift. apply _.
Qed.

Lemma record_text_line_read_only items :
  preserves eq (MFScalar.record_text_line items).
Proof.
  induction items as [|data_item rest IH]; simpl.
  - apply preserves_ret. apply _.
  - apply preserves_bind; [apply _ | |].
    + apply preserves_if; [apply preserves_ret; apply _|].
      apply preserves_bind; [apply _ | apply storage_read_read_only |].
      intros data.
      apply preserves_bind; [apply _ | apply preserves_lift; apply _ |].
      intros n. apply preserves_if; [|apply preserves_ret; apply _].
      apply preserves_bind; [apply _ | apply storage_read_read_only |].
      intros d.
      apply preserves_bind; [apply _ | apply preserves_gets; apply _ |].
      intros self. apply preserves_ret. apply _.
    + intros here.
      apply preserves_bind; [apply _ | exact IH |].
      intros more. apply preserves_ret. apply _.
Qed.

Lemma entry_text_read_only values_only one_based :
  preserves eq (MFScalar.entry_text values_only one_based).
Proof.
  unfold MFScalar.entry_text.
  apply preserves_bind; [apply _ | apply preserves_gets; apply _ |].
  intros self. cbv zeta.
  apply preserves_if; [apply preserves_ret; apply _|].
  apply preserves_if.
  - apply preserves_bind; [apply _ | apply record_text_line_read_only |].
    intros text_line. apply preserves_ret. apply _.
  - apply preserves_bind; [apply _ | apply item0_read_only |].
    intros it.
    apply preserves_bind; [apply _ | |].
    + apply preserves_if; [|apply storage_read_read_only].
      apply preserves_bind; [apply _ | |].
      * apply preserves_if; [apply preserves_ret | apply preserves_raise]; apply _.
      * intros _.
        apply preserves_bind; [apply _ | apply storage_read_read_only |].
        intros d. apply preserves_lift. apply _.
    + intros data. apply preserves_if; apply preserves_ret; apply _.
Qed.

(** [get_file_entry] changes nothing of the object, whatever it returns or
    raises. *)
Lemma get_file_entry_read_only values_only one_based :
  preserves eq (MFScalar.get_file_entry values_only one_based).
Proof.
  unfold MFScalar.get_file_entry.
  apply preserves_bind; [apply _ | apply preserves_gets; apply _ |].
  intros self. apply preserves_if; [apply preserves_ret; apply _|].
  apply entry_text_read_only.
Qed.

Lemma get_file_entry_with_data values_only one_based self :
  MFScalar.no_data self = false ->
  MFScalar.get_file_entry values_only one_based self
  = MFScalar.entry_text values_only one_based self.
Proof.
  intros H. unfold MFScalar.get_file_entry. unfold MFScalar.self_ at 1.
  unfold bind at 1, gets at 1. cbv beta iota. rewrite H. reflexivity.
Qed.

Lemma get_file_entry_no_data values_only one_based self :
  MFScalar.no_data self = true ->
  MFScalar.get_file_entry values_only one_based self = (Ok EmptyString, self).
Proof.
  intros H. unfold MFScalar.get_file_entry. unfold MFScalar.self_ at 1.
  unfold bind at 1, gets at 1. cbv beta iota. rewrite H. reflexivity.
Qed.

(** C7: [get_file_entry] leaves the object as it was, whatever its flags;
    on a cell of integer type holding [n], called with [one_based], it
    renders [n + 1]. *)
Theorem get_file_entry_one_based_keeps_data (self : MFScalar)
    (values_only : bool) :
  (forall one_based,
      snd (MFScalar.get_file_entry values_only one_based self) = self)
  /\ (forall n it,
        is_int_type (type (structure self)) = true ->
        MFScalar.stored self = Some (PInt n) ->
        data_item_structures (structure self) !! 0%nat = Some it ->
        MFScalar.get_file_entry values_only true self
        = (Ok (if values_only then
                 indent_string self
                 +:+ to_string (PInt (n + 1)) (_data_type self) (ucase it)
               else
                 indent_string self +:+ upper (name (structure self))
                 +:+ indent_string self
                 +:+ to_string (PInt (n + 1)) (_data_type self) (ucase it)
                 +:+ nl),
           self)
        /\ MFScalar.stored
             (snd (MFScalar.get_file_entry values_only true self))
           = Some (PInt n)).
Proof.
  split.
  - intros one_based. symmetry. apply get_file_entry_read_only.
  - intros n it Hint Hs Hit.
    assert (Hrun : MFScalar.get_file_entry values_only true self
              = (Ok (if values_only then
                       indent_string self
                       +:+ to_string (PInt (n + 1)) (_data_type self) (ucase it)
                     else
                       indent_string self +:+ upper (name (structure self))
                       +:+ indent_string self
                       +:+ to_string (PInt (n + 1)) (_data_type self) (ucase it)
                       +:+ nl),
                 self)).
    { rewrite get_file_entry_with_data
        by (unfold MFScalar.no_data; rewrite Hs; reflexivity).
      destruct (is_int_type_not_keyword_record _ Hint) as [Hk Hr].
      unfold MFScalar.entry_text. unfold MFScalar.self_ at 1.
      unfold bind at 1, gets at 1. cbv beta iota zeta.
      rewrite Hk, Hr, Hint.
      rewrite (bind_ok _ _ _ _ _ (item0_some _ _ Hit)).
      assert (Hdata :
                ((ret tt ;;
                  let* d := MFScalar.get_data false in
                  lift (py_add_int d 1)) : M MFScalar pyval) self
                = (Ok (PInt (n + 1)), self)).
      { unfold bind at 1, ret at 1. cbv beta iota.
        rewrite (bind_ok _ _ _ _ _ (get_data_false_stored _ _ Hs)).
        reflexivity. }
      rewrite (bind_ok _ _ _ _ _ Hdata).
      destruct values_only; reflexivity. }
    split; [exact Hrun|]. rewrite Hrun. exact Hs.
Qed.


End ScalarEntry.

(** The integer cell holding 5 renders 6 and still holds 5. *)
Lemma get_file_entry_one_based_keeps_data_witness :
  MFScalar.get_file_entry (collab := Sample.collaborators) false true
    (Fixture.cell_with Fixture.nper Fixture.nper_item (PInt 5))
  = (Ok ("  NPER  6" +:+ nl),
     Fixture.cell_with Fixture.nper Fixture.nper_item (PInt 5))
  /\ MFScalar.stored
       (snd (MFScalar.get_file_entry (collab := Sample.collaborators) false true
               (Fixture.cell_with Fixture.nper Fixture.nper_item (PInt 5))))
     = Some (PInt 5).
Proof.
  destruct (get_file_entry_one_based_keeps_data (collab := Sample.collaborators)
              (Fixture.cell_with Fixture.nper Fixture.nper_item (PInt 5)) false)
    as [_ Hrender].
  apply (Hrender 5 Fixture.nper_item eq_refl eq_refl eq_refl).
Defined.



(** ** The transient sequence *)

Lemma preserves_weaken {S A} (R R' : S -> S -> Prop) (m : M S A) :
  (forall s s', R s s' -> R' s s') -> preserves R m -> preserves R' m.
Proof. intros Hsub Hm s. apply Hsub, Hm. Qed.

Lemma ordered_dict_get_set k' k a d :
  OrderedDict.get k' (OrderedDict.set k a d)
  = if Z.eqb k' k then Some a else OrderedDict.get k' d.
Proof.
  induction d as [|[k0 a0] d IH]; simpl.
  - reflexivity.
  - destruct (Z.eqb_spec k k0) as [->|Hne]; simpl.
    + destruct (Z.eqb_spec k' k0); reflexivity.
    + rewrite IH. destruct (Z.eqb_spec k' k0) as [->|Hne'].
      * destruct (Z.eqb_spec k0 k); [congruence|reflexivity].
      * reflexivity.
Qed.

Lemma own_cells_transfer s s' :
  _data_storage s' = _data_storage s ->
  next_addr s' = next_addr s ->
  own_cells s -> own_cells s'.
Proof.
  intros Hd Hn [Hk Hdis Hcr].
  assert (Hca : forall k, cell_addr s' k = cell_addr s k)
    by (intros k; unfold cell_addr, dict_of; rewrite Hd; reflexivity).
  constructor.
  - rewrite Hd. exact Hk.
  - intros k1 k2 a. rewrite !Hca. apply Hdis.
  - intros k a. rewrite Hca, Hn. apply Hcr.
Qed.

(** With key [K] active, what touches only the storage object of the
    receiver leaves the cell of every other key as it was. *)
Lemma other_cells_kept s0 s1 s2 K :
  own_cells s0 ->
  _data_storage s1 = _data_storage s0 ->
  next_addr s1 = next_addr s0 ->
  store s1 = store s0 ->
  _current_key s1 = Some K ->
  touches_own_storage s1 s2 ->
  own_cells s2 /\ forall k, k <> K -> cell s2 k = cell s0 k.
Proof.
  intros Hown Hd Hn Hst Hkey [_ _ _ _ Hn2 Hd2 _ Hstore].
  split.
  - apply (own_cells_transfer s0); [congruence | congruence | exact Hown].
  - intros k Hk. unfold cell, cell_addr, dict_of. rewrite Hd2, Hd.
    destruct (OrderedDict.get k _) as [a|] eqn:Hget; [|reflexivity].
    rewrite Hstore, Hst; [reflexivity|].
    unfold MFScalar._get_storage_obj. rewrite Hd, Hkey.
    destruct Hown as [[d Hdict] Hdis _].
    unfold cell_addr, dict_of in Hdis. rewrite Hdict in Hget, Hdis |- *.
    intros Hsame. apply Hk. exact (Hdis k K a Hget Hsame).
Qed.

Section Transient.
Context {collab : Collaborators}.

Lemma storage_read_touches {A} meth (f : DataStorage -> A) :
  preserves touches_own_storage (MFScalar.storage_read meth f).
Proof.
  intros s. unfold MFScalar.storage_read.
  destruct (MFScalar._get_storage_obj s); reflexivity.
Qed.

Lemma storage_set_data_touches v :
  preserves touches_own_storage (MFScalar.storage_set_data v).
Proof.
  intros s. unfold MFScalar.storage_set_data.
  destruct (MFScalar._get_storage_obj s) as [a|] eqn:Ha; [|reflexivity].
  constructor; try reflexivity.
  intros b Hb. simpl. apply update_store_other. congruence.
Qed.

Lemma add_comment_touches c line :
  preserves touches_own_storage (MFScalar._add_data_line_comment c line).
Proof.
  apply (preserves_weaken same_data); [intros s s' []; assumption|].
  apply add_comment_same_data.
Qed.

Lemma item0_touches : preserves touches_own_storage MFScalar.item0.
Proof.
  unfold MFScalar.item0.
  apply preserves_bind; [apply _ | apply preserves_gets; apply _ |].
  intros self. apply preserves_lift. apply _.
Qed.

Lemma unwrap_same_data data : preserves same_data (MFScalar.unwrap data).
Proof.
  intros s. destruct (layers_nonempty data) eqn:Hne.
  - destruct (unwrap_nonempty data s Hne) as (s' & -> & Hsame & _). exact Hsame.
  - destruct (unwrap_empty data s Hne) as (s' & -> & Hsame). exact Hsame.
Qed.

(** [MFScalar.set_data] touches only the storage object of the receiver. *)
Lemma set_data_touches data :
  preserves touches_own_storage (MFScalar.set_data data).
Proof.
  unfold MFScalar.set_data.
  apply preserves_bind; [apply _ | |].
  { apply (preserves_weaken same_data); [intros s s' []; assumption|].
    apply unwrap_same_data. }
  intros d. apply preserves_bind; [apply _ | apply storage_read_touches |].
  intros _. apply preserves_bind; [apply _ | apply storage_read_touches |].
  intros _. apply preserves_bind; [apply _ | apply preserves_gets; apply _ |].
  intros self. apply preserves_bind; [apply _ | apply item0_touches |].
  intros it. apply preserves_bind; [apply _ | apply preserves_lift; apply _ |].
  intros v. apply storage_set_data_touches.
Qed.

(** [MFScalar.load] touches only the storage object of the receiver. *)
Lemma load_touches first_line file_handle :
  preserves touches_own_storage (MFScalar.load first_line file_handle).
Proof.
  unfold MFScalar.load.
  apply preserves_bind; [apply _ | apply preserves_gets; apply _ |].
  intros self. cbv zeta.
  apply preserves_bind; [apply _ | apply preserves_lift; apply _ |].
  intros kw. apply preserves_bind; [apply _ | |].
  - apply preserves_if; [|apply preserves_if; [|apply preserves_if]].
    + apply preserves_bind; [apply _ | apply preserves_lift; apply _ |].
      intros index.
      apply preserves_bind; [apply _ | apply storage_read_touches |].
      intros _. apply preserves_bind; [apply _ | apply storage_read_touches |].
      intros _. apply preserves_bind; [apply _ | apply preserves_lift; apply _ |].
      intros tok. apply preserves_bind; [apply _ | apply preserves_lift; apply _ |].
      intros it. apply preserves_bind; [apply _ | apply item0_touches |].
      intros it0. apply preserves_bind; [apply _ | apply preserves_lift; apply _ |].
      intros v. apply preserves_bind; [apply _ | apply storage_set_data_touches |].
      intros _. apply preserves_ret. apply _.
    + apply preserves_bind; [apply _ | apply storage_set_data_touches |].
      intros _. apply preserves_ret. apply _.
    + apply preserves_bind; [apply _ | apply item0_touches |].
      intros it0. apply preserves_raise. apply _.
    + apply preserves_bind; [apply _ | apply storage_read_touches |].
      intros _. apply preserves_bind; [apply _ | apply storage_read_touches |].
      intros _. apply preserves_bind; [apply _ | apply preserves_lift; apply _ |].
      intros tok. apply preserves_bind; [apply _ | apply item0_touches |].
      intros it0. apply preserves_bind; [apply _ | apply preserves_lift; apply _ |].
      intros v. apply preserves_bind; [apply _ | apply storage_set_data_touches |].
      intros _. apply preserves_ret. apply _.
  - intros index_num. apply preserves_bind; [apply _ | |].
    + apply preserves_if; [apply add_comment_touches | apply preserves_ret; apply _].
    + intros _. apply preserves_ret. apply _.
Qed.

(** A set scoped to key [K]. *)
Lemma set_data_scoped data K self :
  own_cells self ->
  let self' :=
    snd ((MFScalarTransient._set_data_prep data (Some K) ;;
          MFScalar.set_data data) self) in
  own_cells self' /\ forall k, k <> K -> cell self' k = cell self k.
Proof.
  intros Hown self'. subst self'.
  unfold MFScalarTransient._set_data_prep.
  unfold bind at 1, modify at 1. cbv beta iota.
  apply (other_cells_kept self (with_current_key (Some K) self) _ K Hown);
    try reflexivity.
  apply set_data_touches.
Qed.

(** The bulk set: the loop over the items of a dictionary. *)
Lemma set_data_items items :
  forall self,
    own_cells self ->
    let self' :=
      snd (for_each items (fun entry =>
             MFScalarTransient._set_data_prep (snd entry) (Some (fst entry)) ;;
             MFScalar.set_data (snd entry)) self) in
    own_cells self'
    /\ forall k, k ∉ map fst items -> cell self' k = cell self k.
Proof.
  induction items as [|[K v] items IH]; intros self Hown; cbv zeta.
  - split; [exact Hown | reflexivity].
  - destruct (set_data_scoped v K self Hown) as [Hown1 Hkeep1].
    cbn [for_each fst snd].
    destruct ((MFScalarTransient._set_data_prep v (Some K) ;;
               MFScalar.set_data v) self) as [[u|e] s1] eqn:Hstep;
      cbn [snd] in Hown1, Hkeep1.
    + rewrite (bind_ok _ _ _ _ _ Hstep).
      destruct (IH s1 Hown1) as [Hown2 Hkeep2]. split; [exact Hown2|].
      intros k Hk. rewrite Hkeep2, Hkeep1; [reflexivity | |].
      * intros ->. apply Hk. simpl. left.
      * intros Hin. apply Hk. simpl. right. exact Hin.
    + rewrite (bind_raise _ _ _ _ _ Hstep). cbn [snd].
      split; [exact Hown1|]. intros k Hk. apply Hkeep1.
      intros ->. apply Hk. simpl. left.
Qed.

(** C6: in a transient sequence where every registered key owns its storage
    object, this stays so after [set_data], [load] and [add_transient_key];
    [set_data] and [load] scoped to key [K] leave the cell of every other key
    as it was, the bulk [set_data] leaves the cells of the keys it does not
    name, and [add_transient_key K] binds [K] to a new empty cell, whether
    [K] was registered or not, and leaves the other cells. *)
Theorem transient_keys_own_their_cells (self : MFScalar) (K : Z) :
  own_cells self ->
  (forall data,
      (forall items, data <> PDict items) ->
      let self' := snd (MFScalarTransient.set_data data (Some K) self) in
      own_cells self' /\ forall k, k <> K -> cell self' k = cell self k)
  /\ (forall items key,
        let self' := snd (MFScalarTransient.set_data (PDict items) key self) in
        own_cells self'
        /\ forall k, k ∉ map fst items -> cell self' k = cell self k)
  /\ (forall first_line file_handle block_header,
        get_transient_key block_header = K ->
        let self' :=
          snd (MFScalarTransient.load first_line file_handle block_header self) in
        own_cells self' /\ forall k, k <> K -> cell self' k = cell self k)
  /\ (let self' := snd (MFScalarTransient.add_transient_key K self) in
      own_cells self'
      /\ cell self' K = Some DataStorage.new
      /\ forall k, k <> K -> cell self' k = cell self k).
Proof.
  intros Hown. split; [|split; [|split]].
  - intros data Hnd self'. subst self'.
    assert (Hrun : MFScalarTransient.set_data data (Some K) self
              = (MFScalarTransient._set_data_prep data (Some K) ;;
                 MFScalar.set_data data) self).
    { destruct data; try reflexivity. exfalso. eapply Hnd. reflexivity. }
    rewrite Hrun. apply set_data_scoped. exact Hown.
  - intros items key self'. subst self'. apply set_data_items. exact Hown.
  - intros first_line file_handle block_header HK self'. subst self'.
    unfold MFScalarTransient.load, MFScalarTransient._load_prep.
    unfold bind at 1, modify at 1. cbv beta iota. rewrite HK.
    apply (other_cells_kept self (with_current_key (Some K) self) _ K Hown);
      try reflexivity.
    apply load_touches.
  - cbv zeta. destruct Hown as [[d Hdict] Hdis Hcr].
    assert (Hrun : MFScalarTransient.add_transient_key K self
              = (Ok tt,
                 with_data_storage
                   (Keyed (OrderedDict.set K (next_addr self) d))
                   (S (next_addr self))
                   (with_store
                      (update_store (next_addr self)
                         (fun _ => DataStorage.new) (store self)) self))).
    { unfold MFScalarTransient.add_transient_key, MFScalar._new_storage,
        MFScalarTransient.storage_setitem.
      unfold bind. simpl. rewrite Hdict. reflexivity. }
    rewrite Hrun. cbn [snd].
    assert (Hca : forall k,
              cell_addr
                (with_data_storage
                   (Keyed (OrderedDict.set K (next_addr self) d))
                   (S (next_addr self))
                   (with_store
                      (update_store (next_addr self)
                         (fun _ => DataStorage.new) (store self)) self)) k
              = if Z.eqb k K then Some (next_addr self) else cell_addr self k).
    { intros k. unfold cell_addr, dict_of. simpl. rewrite Hdict.
      apply ordered_dict_get_set. }
    split; [|split].
    + constructor.
      * eexists. reflexivity.
      * intros k1 k2 a. rewrite !Hca.
        destruct (Z.eqb_spec k1 K) as [->|H1], (Z.eqb_spec k2 K) as [->|H2];
          intros E1 E2; try reflexivity.
        -- injection E1 as <-. apply Hcr in E2. lia.
        -- injection E2 as <-. apply Hcr in E1. lia.
        -- exact (Hdis k1 k2 a E1 E2).
      * intros k a. rewrite Hca. simpl.
        destruct (Z.eqb_spec k K) as [->|H1]; intros E.
        -- injection E as <-. lia.
        -- apply Hcr in E. lia.
    + unfold cell. rewrite Hca, Z.eqb_refl. simpl.
      rewrite update_store_same. reflexivity.
    + intros k Hk. unfold cell. rewrite Hca.
      destruct (Z.eqb_spec k K) as [->|_]; [contradiction|].
      destruct (cell_addr self k) as [a|] eqn:E; [|reflexivity].
      simpl. rewrite update_store_other; [reflexivity|].
      apply Hcr in E. lia.
Qed.

(** A transient sequence starts with no key, so with nothing shared. *)
Lemma init_own_cells indent s self :
  MFScalarTransient.__init__ indent s = Ok self -> own_cells self.
Proof.
  unfold MFScalarTransient.__init__.
  destruct (getitem (data_item_structures s) 0) as [it|e]; [|discriminate].
  intros [= <-]. constructor.
  - eexists. reflexivity.
  - intros k1 k2 a H. discriminate H.
  - intros k a H. discriminate H.
Qed.

End Transient.

Lemma three_periods_own_cells : own_cells Fixture.three_periods.
Proof.
  constructor.
  - eexists. reflexivity.
  - intros k1 k2 a. unfold cell_addr, dict_of. simpl.
    destruct (Z.eqb_spec k1 0), (Z.eqb_spec k1 1), (Z.eqb_spec k1 2),
      (Z.eqb_spec k2 0), (Z.eqb_spec k2 1), (Z.eqb_spec k2 2);
      intros E1 E2; simplify_eq; reflexivity.
  - intros k a. unfold cell_addr, dict_of. simpl.
    destruct (Z.eqb_spec k 0), (Z.eqb_spec k 1), (Z.eqb_spec k 2);
      intros E; simplify_eq; lia.
Qed.

(** Keys 0, 1, 2 with data at 0 and 2: a set at key 1 leaves keys 0 and 2,
    and registering key 0 again empties its cell and leaves keys 1 and 2. *)
Lemma transient_keys_own_their_cells_witness :
  own_cells Fixture.three_periods
  /\ (let self' :=
        snd (MFScalarTransient.set_data (collab := Sample.collaborators)
               (PInt 9) (Some 1) Fixture.three_periods) in
      own_cells self'
      /\ forall k, k <> 1 -> cell self' k = cell Fixture.three_periods k)
  /\ (let self' :=
        snd (MFScalarTransient.add_transient_key 0 Fixture.three_periods) in
      own_cells self'
      /\ cell self' 0 = Some DataStorage.new
      /\ forall k, k <> 0 -> cell self' k = cell Fixture.three_periods k).
Proof.
  split; [exact three_periods_own_cells|]. split.
  - destruct (transient_keys_own_their_cells (collab := Sample.collaborators)
                Fixture.three_periods 1 three_periods_own_cells) as [Hset _].
    apply (Hset (PInt 9)). discriminate.
  - destruct (transient_keys_own_their_cells (collab := Sample.collaborators)
                Fixture.three_periods 0 three_periods_own_cells)
      as (_ & _ & _ & Hadd).
    exact Hadd.
Defined.

(** ** The transient sequence: [get_file_entry] with no key *)

Lemma join_cases (sep : string) (l : list string) :
  match l with
  | [] => join sep l = EmptyString
  | [x] => join sep l = x
  | x :: y :: r => join sep l = x +:+ sep +:+ join sep (y :: r)
  end.
Proof. destruct l as [|x [|y r]]; reflexivity. Qed.

Section TransientEntry.
Context {collab : Collaborators}.

(** Under Python 3 the call with no key never returns: when the loop over
    the keys has collected the entries, comparing the list with 1 raises. *)
Lemma get_file_entry_no_key_py3 self text self' :
  MFScalarTransient.get_file_entry Py3 None self <> (Ok text, self').
Proof.
  unfold MFScalarTransient.get_file_entry. intros H.
  apply bind_ok_inv in H as (keys & s1 & _ & H).
  apply bind_ok_inv in H as (file_entry & s2 & _ & H).
  apply bind_ok_inv in H as (gt & s3 & Hgt & _).
  discriminate Hgt.
Qed.

(** Under Python 2 the list orders after 1, the first branch is taken, and
    the result is the collected entries joined by a blank line. *)
Lemma get_file_entry_no_key_py2 self keys file_entry self' :
  MFScalarTransient.storage_keys self = (Ok keys, self) ->
  MFScalarTransient.collect_entries keys self = (Ok file_entry, self') ->
  MFScalarTransient.get_file_entry Py2 None self
  = (Ok (join (nl +:+ nl) file_entry), self').
Proof.
  intros Hkeys Hcollect. unfold MFScalarTransient.get_file_entry.
  rewrite (bind_ok _ _ _ _ _ Hkeys), (bind_ok _ _ _ _ _ Hcollect).
  reflexivity.
Qed.

End TransientEntry.

(** C1 (a defect of the code): with a value at two of the three keys, the
    loop of [get_file_entry] with no key collects the two entries in
    registration order; the branch then compares the list itself with 1,
    which raises [TypeError] under Python 3, where the claim has the two
    entries joined by a blank line.  Under Python 2 the comparison holds for
    every list and the join gives the claimed text. *)
Theorem transient_get_file_entry_compares_list_with_int :
  fst (MFScalarTransient.collect_entries (collab := Sample.collaborators)
         [0; 1; 2] Fixture.three_periods)
  = Ok ["  NPER  5" +:+ nl; "  NPER  7" +:+ nl]
  /\ fst (MFScalarTransient.get_file_entry (collab := Sample.collaborators)
            Py3 None Fixture.three_periods)
     = Raise (TypeError "'>' not supported between instances of 'list' and 'int'")
  /\ fst (MFScalarTransient.get_file_entry (collab := Sample.collaborators)
            Py2 None Fixture.three_periods)
     = Ok ("  NPER  5" +:+ nl +:+ nl +:+ nl +:+ "  NPER  7" +:+ nl).
Proof. repeat split. Qed.

(** ** The PCGN package *)

Section Pcgn.
Variable float : Type.

(** C9: the constructor raises [TypeError], with a message that names the
    value, whenever [ifill] is less than 0 or greater than 1, and the parent
    model is then as it was: the package has not been added.  For [ifill]
    equal to 0 or 1 the constructor returns the package and has added it. *)
Theorem pcgn_ifill_checked_before_add
    (iter_mo iter_mi : Z) (close_h close_r relax : float)
    (ifill unit_pc unit_ts adamp : Z) (damp damp_lb rate_d chglimit : float)
    (acnvg : Z) (cnvg_lb : float) (mcnvg : Z) (rate_c : float) (ipunit : Z)
    (extension : list string) (unit_number : Z)
    (model : ModflowPcgn.Model float) :
  (ifill < 0 \/ 1 < ifill ->
     ModflowPcgn.__init__ float iter_mo iter_mi close_h close_r relax ifill
       unit_pc unit_ts adamp damp damp_lb rate_d chglimit acnvg cnvg_lb mcnvg
       rate_c ipunit extension unit_number model
     = (Raise (TypeError ("PCGN: ifill must be 0 or 1 - an ifill value of "
                          +:+ str_of_Z ifill +:+ " was specified")),
        model))
  /\ (ifill = 0 \/ ifill = 1 ->
        exists self,
          ModflowPcgn.__init__ float iter_mo iter_mi close_h close_r relax ifill
            unit_pc unit_ts adamp damp damp_lb rate_d chglimit acnvg cnvg_lb
            mcnvg rate_c ipunit extension unit_number model
          = (Ok self,
             {| ModflowPcgn.packagelist :=
                  ModflowPcgn.packagelist float model ++ [self] |})
          /\ ModflowPcgn.ifill float self = ifill).
Proof.
  unfold ModflowPcgn.__init__.
  destruct (ModflowPcgn.data_files _ _ _) as [[[ext nm] units] extra].
  split.
  - intros Hbad.
    assert (Hc : (ifill <? 0) || (1 <? ifill) = true).
    { apply orb_true_iff. destruct Hbad; [left|right]; apply Z.ltb_lt; lia. }
    rewrite Hc. reflexivity.
  - intros Hgood.
    assert (Hc : (ifill <? 0) || (1 <? ifill) = false).
    { apply orb_false_iff. split; apply Z.ltb_ge; lia. }
    rewrite Hc. eexists. split; reflexivity.
Qed.

End Pcgn.

(** [ifill = 2] is refused and nothing is added; [ifill = 1] is accepted. *)
Lemma pcgn_ifill_checked_before_add_witness :
  ModflowPcgn.__init__ unit 50 30 tt tt tt 2 0 0 0 tt tt tt tt 0 tt 2 tt 0
    ["pcgn"%string] 27 {| ModflowPcgn.packagelist := [] |}
  = (Raise (TypeError
              "PCGN: ifill must be 0 or 1 - an ifill value of 2 was specified"),
     {| ModflowPcgn.packagelist := [] |})
  /\ exists self,
       ModflowPcgn.__init__ unit 50 30 tt tt tt 1 0 0 0 tt tt tt tt 0 tt 2 tt 0
         ["pcgn"%string] 27 {| ModflowPcgn.packagelist := [] |}
       = (Ok self, {| ModflowPcgn.packagelist := [] ++ [self] |})
       /\ ModflowPcgn.ifill unit self = 1.
Proof.
  split.
  - destruct (pcgn_ifill_checked_before_add unit 50 30 tt tt tt 2 0 0 0 tt tt
                tt tt 0 tt 2 tt 0 ["pcgn"%string] 27
                {| ModflowPcgn.packagelist := [] |}) as [Hbad _].
    apply Hbad. right. lia.
  - destruct (pcgn_ifill_checked_before_add unit 50 30 tt tt tt 1 0 0 0 tt tt
                tt tt 0 tt 2 tt 0 ["pcgn"%string] 27
                {| ModflowPcgn.packagelist := [] |}) as [_ Hgood].
    apply Hgood. right. reflexivity.
Defined.

(** * Further properties *)

(** ** [load]: the three branches and the remainder of the line *)

Section LoadBranches.
Context {collab : Collaborators}.

Lemma load_finish_exact (index_num : nat) (arr_line : list string) (s : MFScalar) :
  ((if (index_num <? length arr_line)%nat then
      MFScalar._add_data_line_comment (map PStr (drop index_num arr_line)) 0
    else ret tt) ;;
   ret (false, @None string)) s
  = (Ok (false, None), with_remainder index_num arr_line s).
Proof.
  unfold with_remainder. destruct (index_num <? length arr_line)%nat; reflexivity.
Qed.

Lemma with_remainder_touches k arr s : touches_own_storage s (with_remainder k arr s).
Proof.
  unfold with_remainder. destruct (k <? length arr)%nat; [|reflexivity].
  constructor; reflexivity.
Qed.

Lemma with_remainder_stored k arr s :
  MFScalar.stored (with_remainder k arr s) = MFScalar.stored s.
Proof. unfold with_remainder. destruct (k <? length arr)%nat; reflexivity. Qed.

Lemma with_remainder_comments k arr s :
  comments (with_remainder k arr s)
  = comments s ++ (if (k <? length arr)%nat
                   then [(map PStr (drop k arr), 0)] else []).
Proof.
  unfold with_remainder. destruct (k <? length arr)%nat; simpl;
    [reflexivity | rewrite app_nil_r; reflexivity].
Qed.

Lemma with_value_stored a v s :
  MFScalar._get_storage_obj s = Some a ->
  MFScalar.stored (with_value a v s) = Some v.
Proof. apply stored_with_store. Qed.

(** The run of [load] on a scalar that is neither record nor keyword, with a
    token at the index after the keyword. *)
Lemma load_scalar_exact self first_line file_handle index_num aux tok a it0 v :
  String.eqb (type (structure self)) "record" = false ->
  MFScalar.is_keyword_datatype (get_datatype (structure self)) = false ->
  _load_keyword (structure self)
    (split_data_line (_read_pre_data_comments first_line file_handle)) 0
  = Ok (index_num, aux) ->
  split_data_line (_read_pre_data_comments first_line file_handle) !! index_num
  = Some tok ->
  MFScalar._get_storage_obj self = Some a ->
  data_item_structures (structure self) !! 0%nat = Some it0 ->
  convert_data (PStr tok) (_data_type self) it0 = Ok v ->
  MFScalar.load first_line file_handle self
  = (Ok (false, None),
     with_remainder (index_num + 1)
       (split_data_line (_read_pre_data_comments first_line file_handle))
       (with_value a v self)).
Proof.
  intros Hrec Hdt Hkw Htok Ha Hit Hv.
  pose proof (lookup_lt_Some _ _ _ Htok) as Hlen.
  assert (Hlt : (length (split_data_line
                           (_read_pre_data_comments first_line file_handle))
                 <? 1 + index_num)%nat = false)
    by (apply Nat.ltb_ge; lia).
  unfold MFScalar.load. unfold MFScalar.self_ at 1.
  unfold bind at 1, gets at 1. cbv beta iota zeta.
  rewrite Hkw. unfold bind at 1, lift at 1. cbv beta iota. cbn [fst].
  rewrite Hrec, Hdt, Hlt.
  assert (Hbranch :
            (MFScalar.storage_read "set_data" (fun _ => tt) ;;
             MFScalar.storage_read "convert_data" (fun _ => tt) ;;
             let* tok := lift (getitem
                                 (split_data_line
                                    (_read_pre_data_comments first_line file_handle))
                                 index_num) in
             let* it0 := MFScalar.item0 in
             let* v := lift (convert_data (PStr tok) (_data_type self) it0) in
             MFScalar.storage_set_data v ;;
             ret (index_num + 1)%nat) self
            = (Ok (index_num + 1)%nat, with_value a v self)).
  { rewrite (bind_ok _ _ _ _ _ (storage_read_some _ _ _ _ Ha)).
    rewrite (bind_ok _ _ _ _ _ (storage_read_some _ _ _ _ Ha)).
    unfold getitem. rewrite Htok.
    unfold bind at 1, lift at 1. cbv beta iota.
    rewrite (bind_ok _ _ _ _ _ (item0_some _ _ Hit)).
    rewrite Hv. unfold bind at 1, lift at 1. cbv beta iota.
    rewrite (bind_ok _ _ _ _ _ (storage_set_data_some v self a Ha)).
    reflexivity. }
  rewrite (bind_ok _ _ _ _ _ Hbranch). apply load_finish_exact.
Qed.

(** The run of [load] on a keyword-only datatype. *)
Lemma load_keyword_exact self first_line file_handle index_num aux a :
  String.eqb (type (structure self)) "record" = false ->
  MFScalar.is_keyword_datatype (get_datatype (structure self)) = true ->
  _load_keyword (structure self)
    (split_data_line (_read_pre_data_comments first_line file_handle)) 0
  = Ok (index_num, aux) ->
  MFScalar._get_storage_obj self = Some a ->
  MFScalar.load first_line file_handle self
  = (Ok (false, None),
     with_remainder index_num
       (split_data_line (_read_pre_data_comments first_line file_handle))
       (with_value a (PBool true) self)).
Proof.
  intros Hrec Hdt Hkw Ha.
  unfold MFScalar.load. unfold MFScalar.self_ at 1.
  unfold bind at 1, gets at 1. cbv beta iota zeta.
  rewrite Hkw. unfold bind at 1, lift at 1. cbv beta iota. cbn [fst].
  rewrite Hrec, Hdt.
  assert (Hbranch :
            (MFScalar.storage_set_data (PBool true) ;; ret index_num) self
            = (Ok index_num, with_value a (PBool true) self)).
  { rewrite (bind_ok _ _ _ _ _ (storage_set_data_some _ self a Ha)). reflexivity. }
  rewrite (bind_ok _ _ _ _ _ Hbranch). apply load_finish_exact.
Qed.

(** The loop of the record branch stops at the first sub-item that is not a
    leading keyword, or at the last token of the line. *)
Lemma record_index_closed_form arr_len pre rest :
  MFScalar.record_index (map item_type rest) arr_len (pre ++ rest) (length pre)
  = Ok (length pre
        + Nat.min (leading_keywords (length pre) rest)
                  (arr_len - 1 - length pre))%nat.
Proof.
  revert pre. induction rest as [|it rest IH]; intros pre; simpl.
  - f_equal. lia.
  - destruct (arr_len <=? length pre + 1)%nat eqn:Hlen; simpl.
    { apply Nat.leb_le in Hlen. f_equal.
      replace (arr_len - 1 - length pre)%nat with 0%nat by lia.
      rewrite Nat.min_0_r. lia. }
    apply Nat.leb_gt in Hlen.
    destruct (String.eqb (item_type it) "keyword") eqn:Hk; simpl;
      [|f_equal; lia].
    assert (Hnext :
              MFScalar.record_index (map item_type rest) arr_len
                (pre ++ it :: rest) (S (length pre))
              = Ok (length pre
                    + Nat.min (S (leading_keywords (S (length pre)) rest))
                              (arr_len - 1 - length pre))%nat).
    { specialize (IH (pre ++ [it])).
      rewrite <- app_assoc, length_app in IH. simpl in IH.
      replace (length pre + 1)%nat with (S (length pre)) in IH by lia.
      rewrite IH. f_equal.
      replace (arr_len - 1 - length pre)%nat
        with (S (arr_len - 1 - S (length pre))) by lia.
      rewrite <- Nat.succ_min_distr. lia. }
    destruct (0 <? length pre)%nat eqn:Hpos.
    + apply Nat.ltb_lt in Hpos.
      unfold getitem. rewrite lookup_app_r by lia.
      rewrite Nat.sub_diag. simpl.
      assert (Hz : Nat.eqb (length pre) 0 = false) by (apply Nat.eqb_neq; lia).
      rewrite Hz. simpl.
      destruct (optional it); simpl; [f_equal; lia | exact Hnext].
    + apply Nat.ltb_ge in Hpos.
      assert (Hz : Nat.eqb (length pre) 0 = true) by (apply Nat.eqb_eq; lia).
      rewrite Hz. simpl. exact Hnext.
Qed.

End LoadBranches.

Section LoadProperties.
Context {collab : Collaborators}.

Lemma touches_scalar_line s s' it v :
  touches_own_storage s s' -> scalar_line s' it v = scalar_line s it v.
Proof.
  intros [Hs Hdt _ Hi _ _ _ _]. unfold scalar_line. rewrite Hs, Hdt, Hi.
  reflexivity.
Qed.

Lemma touches_keyword_line s s' :
  touches_own_storage s s' -> keyword_line s' = keyword_line s.
Proof.
  intros [Hs _ _ Hi _ _ _ _]. unfold keyword_line. rewrite Hs, Hi. reflexivity.
Qed.

Lemma loaded_touches k arr a v self :
  MFScalar._get_storage_obj self = Some a ->
  touches_own_storage self (with_remainder k arr (with_value a v self)).
Proof.
  intros Ha.
  transitivity (with_value a v self); [|apply with_remainder_touches].
  constructor; try reflexivity.
  intros b Hb. simpl. apply update_store_other. congruence.
Qed.

Lemma no_data_stored s v :
  MFScalar.stored s = Some v -> MFScalar.no_data s = DataStorage.is_none v.
Proof. intros H. unfold MFScalar.no_data. rewrite H. reflexivity. Qed.

(** The entry of a scalar that is neither keyword nor record. *)
Lemma get_file_entry_scalar_line s it v :
  String.eqb (type (structure s)) "keyword" = false ->
  String.eqb (type (structure s)) "record" = false ->
  data_item_structures (structure s) !! 0%nat = Some it ->
  MFScalar.stored s = Some v ->
  DataStorage.is_none v = false ->
  MFScalar.get_file_entry false false s = (Ok (scalar_line s it v), s).
Proof.
  intros Hk Hr Hit Hs Hv.
  rewrite get_file_entry_with_data by (rewrite (no_data_stored _ _ Hs); exact Hv).
  unfold MFScalar.entry_text. unfold MFScalar.self_ at 1.
  unfold bind at 1, gets at 1. cbv beta iota zeta. rewrite Hk, Hr.
  rewrite (bind_ok _ _ _ _ _ (item0_some _ _ Hit)).
  rewrite (bind_ok _ _ _ _ _ (get_data_false_stored _ _ Hs)).
  reflexivity.
Qed.

(** The entry of a keyword. *)
Lemma get_file_entry_keyword_line values_only one_based s v :
  String.eqb (type (structure s)) "keyword" = true ->
  MFScalar.stored s = Some v ->
  DataStorage.is_none v = false ->
  MFScalar.get_file_entry values_only one_based s = (Ok (keyword_line s), s).
Proof.
  intros Hk Hs Hv.
  rewrite get_file_entry_with_data by (rewrite (no_data_stored _ _ Hs); exact Hv).
  unfold MFScalar.entry_text. unfold MFScalar.self_ at 1.
  unfold bind at 1, gets at 1. cbv beta iota zeta. rewrite Hk. reflexivity.
Qed.

(** X1: when [load] has stored its datum, the tokens after the consumed
    index become one comment on line 0, after the comments already logged,
    and no comment is added when no token remains.  The consumed index is
    the index after the keyword for a keyword-only datatype, and one more
    for a scalar that takes a token; [load] returns [[False, None]]. *)
Theorem load_remainder_becomes_comment (self : MFScalar) (first_line : string)
    (file_handle : list string) (index_num : nat) (aux : option nat) (a : addr) :
  let arr_line :=
    split_data_line (_read_pre_data_comments first_line file_handle) in
  String.eqb (type (structure self)) "record" = false ->
  _load_keyword (structure self) arr_line 0 = Ok (index_num, aux) ->
  MFScalar._get_storage_obj self = Some a ->
  (MFScalar.is_keyword_datatype (get_datatype (structure self)) = true ->
     fst (MFScalar.load first_line file_handle self) = Ok (false, None)
     /\ comments (snd (MFScalar.load first_line file_handle self))
        = comments self
          ++ (if (index_num <? length arr_line)%nat
              then [(map PStr (drop index_num arr_line), 0)] else []))
  /\ (MFScalar.is_keyword_datatype (get_datatype (structure self)) = false ->
      forall tok it0 v,
        arr_line !! index_num = Some tok ->
        data_item_structures (structure self) !! 0%nat = Some it0 ->
        convert_data (PStr tok) (_data_type self) it0 = Ok v ->
        fst (MFScalar.load first_line file_handle self) = Ok (false, None)
        /\ comments (snd (MFScalar.load first_line file_handle self))
           = comments self
             ++ (if (index_num + 1 <? length arr_line)%nat
                 then [(map PStr (drop (index_num + 1) arr_line), 0)] else [])).
Proof.
  intros arr_line Hrec Hkw Ha. split.
  - intros Hdt.
    rewrite (load_keyword_exact self first_line file_handle index_num aux a
               Hrec Hdt Hkw Ha).
    split; [reflexivity|]. cbn [snd].
    rewrite with_remainder_comments. reflexivity.
  - intros Hdt tok it0 v Htok Hit Hv.
    rewrite (load_scalar_exact self first_line file_handle index_num aux tok a
               it0 v Hrec Hdt Hkw Htok Ha Hit Hv).
    split; [reflexivity|]. cbn [snd].
    rewrite with_remainder_comments. reflexivity.
Qed.

(** X2: [load] followed by [get_file_entry] writes the field back.  After
    the load of a keyword field the entry is the indent and the upper-case
    name; after the load of a token into a scalar that is neither keyword
    nor record it is the indent, the upper-case name, the indent and the
    formatted converted value; each line ends with one added newline. *)
Theorem load_then_get_file_entry (self : MFScalar) (first_line : string)
    (file_handle : list string) (index_num : nat) (aux : option nat) (a : addr) :
  let arr_line :=
    split_data_line (_read_pre_data_comments first_line file_handle) in
  String.eqb (type (structure self)) "record" = false ->
  _load_keyword (structure self) arr_line 0 = Ok (index_num, aux) ->
  MFScalar._get_storage_obj self = Some a ->
  (MFScalar.is_keyword_datatype (get_datatype (structure self)) = true ->
   String.eqb (type (structure self)) "keyword" = true ->
   fst (MFScalar.get_file_entry false false
          (snd (MFScalar.load first_line file_handle self)))
   = Ok (indent_string self +:+ upper (name (structure self)) +:+ nl))
  /\ (MFScalar.is_keyword_datatype (get_datatype (structure self)) = false ->
      String.eqb (type (structure self)) "keyword" = false ->
      forall tok it0 v,
        arr_line !! index_num = Some tok ->
        data_item_structures (structure self) !! 0%nat = Some it0 ->
        convert_data (PStr tok) (_data_type self) it0 = Ok v ->
        v <> PNone ->
        fst (MFScalar.get_file_entry false false
               (snd (MFScalar.load first_line file_handle self)))
        = Ok (indent_string self +:+ upper (name (structure self))
              +:+ indent_string self
              +:+ to_string v (_data_type self) (ucase it0) +:+ nl)).
Proof.
  intros arr_line Hrec Hkw Ha. subst arr_line. split.
  - intros Hdt Hk.
    rewrite (load_keyword_exact self first_line file_handle index_num aux a
               Hrec Hdt Hkw Ha). cbn [snd].
    pose proof (loaded_touches index_num
                  (split_data_line (_read_pre_data_comments first_line file_handle))
                  a (PBool true) self Ha) as Ht.
    pose proof Ht as [Hs _ _ _ _ _ _ _].
    rewrite (get_file_entry_keyword_line _ _ _ (PBool true)).
    + cbn [fst]. f_equal. apply (touches_keyword_line _ _ Ht).
    + rewrite Hs. exact Hk.
    + rewrite with_remainder_stored. apply with_value_stored. exact Ha.
    + reflexivity.
  - intros Hdt Hk tok it0 v Htok Hit Hv Hnone.
    rewrite (load_scalar_exact self first_line file_handle index_num aux tok a
               it0 v Hrec Hdt Hkw Htok Ha Hit Hv). cbn [snd].
    pose proof (loaded_touches (index_num + 1)
                  (split_data_line (_read_pre_data_comments first_line file_handle))
                  a v self Ha) as Ht.
    pose proof Ht as [Hs _ _ _ _ _ _ _].
    rewrite (get_file_entry_scalar_line _ it0 v).
    + cbn [fst]. f_equal. apply (touches_scalar_line _ _ _ _ Ht).
    + rewrite Hs. exact Hk.
    + rewrite Hs. exact Hrec.
    + rewrite Hs. exact Hit.
    + rewrite with_remainder_stored. apply with_value_stored. exact Ha.
    + destruct v; [contradiction|..]; reflexivity.
Qed.

(** X3: on a record, [load] converts and stores the token at the index
    where its scan of the sub-items stops: the number of leading keyword
    sub-items (not optional past the first), or the index of the last token
    when the line is shorter.  The token is converted with the type of the
    sub-item at that index, and the comment starts at the index the keyword
    matcher returned.  When every sub-item is a leading keyword and the line
    has more tokens than sub-items, the sub-item at the index does not
    exist: [load] raises [IndexError] and the object is as it was. *)
Theorem load_record_stores_token_after_keywords (self : MFScalar)
    (first_line : string) (file_handle : list string) (index_num : nat)
    (aux : option nat) (a : addr) (tok : string) :
  let arr_line :=
    split_data_line (_read_pre_data_comments first_line file_handle) in
  let index :=
    Nat.min (leading_keywords 0 (data_item_structures (structure self)))
            (length arr_line - 1) in
  String.eqb (type (structure self)) "record" = true ->
  _load_keyword (structure self) arr_line 0 = Ok (index_num, aux) ->
  MFScalar._get_storage_obj self = Some a ->
  arr_line !! index = Some tok ->
  (forall it it0 v,
      data_item_structures (structure self) !! index = Some it ->
      data_item_structures (structure self) !! 0%nat = Some it0 ->
      convert_data (PStr tok) (item_type it) it0 = Ok v ->
      MFScalar.load first_line file_handle self
      = (Ok (false, None),
         with_remainder index_num arr_line (with_value a v self)))
  /\ (data_item_structures (structure self) !! index = None ->
      MFScalar.load first_line file_handle self = (Raise IndexError, self)).
Proof.
  intros arr_line index Hrec Hkw Ha Htok.
  assert (Hidx : MFScalar.record_index (get_data_item_types (structure self))
                   (length arr_line) (data_item_structures (structure self)) 0
                 = Ok index).
  { pose proof (record_index_closed_form (length arr_line) []
                  (data_item_structures (structure self))) as H.
    simpl in H. rewrite Nat.sub_0_r in H. exact H. }
  assert (Hload :
            MFScalar.load first_line file_handle self
            = bind
                (MFScalar.storage_read "set_data" (fun _ => tt) ;;
                 MFScalar.storage_read "convert_data" (fun _ => tt) ;;
                 let* tok := lift (getitem arr_line index) in
                 let* it := lift (getitem (data_item_structures (structure self))
                                    index) in
                 let* it0 := MFScalar.item0 in
                 let* v := lift (convert_data (PStr tok) (item_type it) it0) in
                 MFScalar.storage_set_data v ;;
                 ret index_num)
                (fun index_num =>
                   (if (index_num <? length arr_line)%nat then
                      MFScalar._add_data_line_comment
                        (map PStr (drop index_num arr_line)) 0
                    else ret tt) ;;
                   ret (false, None)) self).
  { unfold MFScalar.load. unfold MFScalar.self_ at 1.
    unfold bind at 1, gets at 1. cbv beta iota zeta.
    fold arr_line. rewrite Hkw. unfold bind at 1, lift at 1. cbv beta iota.
    cbn [fst]. rewrite Hrec. rewrite Hidx.
    unfold bind at 2, lift at 1. cbv beta iota. reflexivity. }
  rewrite Hload. clear Hload. split.
  - intros it it0 v Hit Hit0 Hv.
    assert (Hbranch :
              (MFScalar.storage_read "set_data" (fun _ => tt) ;;
               MFScalar.storage_read "convert_data" (fun _ => tt) ;;
               let* tok := lift (getitem arr_line index) in
               let* it := lift (getitem (data_item_structures (structure self))
                                  index) in
               let* it0 := MFScalar.item0 in
               let* v := lift (convert_data (PStr tok) (item_type it) it0) in
               MFScalar.storage_set_data v ;;
               ret index_num) self
              = (Ok index_num, with_value a v self)).
    { rewrite (bind_ok _ _ _ _ _ (storage_read_some _ _ _ _ Ha)).
      rewrite (bind_ok _ _ _ _ _ (storage_read_some _ _ _ _ Ha)).
      unfold getitem. rewrite Htok, Hit.
      unfold bind at 1, lift at 1. cbv beta iota.
      unfold bind at 1, lift at 1. cbv beta iota.
      rewrite (bind_ok _ _ _ _ _ (item0_some _ _ Hit0)).
      rewrite Hv. unfold bind at 1, lift at 1. cbv beta iota.
      rewrite (bind_ok _ _ _ _ _ (storage_set_data_some v self a Ha)).
      reflexivity. }
    rewrite (bind_ok _ _ _ _ _ Hbranch). apply load_finish_exact.
  - intros Hit. apply bind_raise.
    rewrite (bind_ok _ _ _ _ _ (storage_read_some _ _ _ _ Ha)).
    rewrite (bind_ok _ _ _ _ _ (storage_read_some _ _ _ _ Ha)).
    unfold getitem. rewrite Htok, Hit.
    unfold bind at 1, lift at 1. cbv beta iota. reflexivity.
Qed.

End LoadProperties.

(** [NPER 12 # periods] leaves the comment [# periods]; [SAVE_FLOWS] leaves
    none. *)
Lemma load_remainder_becomes_comment_witness :
  (fst (MFScalar.load (collab := Sample.collaborators) "SAVE_FLOWS" []
          (Fixture.empty_cell Fixture.save_flows Fixture.save_item))
   = Ok (false, None)
   /\ comments (snd (MFScalar.load (collab := Sample.collaborators) "SAVE_FLOWS" []
                       (Fixture.empty_cell Fixture.save_flows Fixture.save_item)))
      = [])
  /\ (fst (MFScalar.load (collab := Sample.collaborators) "NPER 12 # periods" []
             (Fixture.empty_cell Fixture.nper Fixture.nper_item))
      = Ok (false, None)
      /\ comments (snd (MFScalar.load (collab := Sample.collaborators)
                          "NPER 12 # periods" []
                          (Fixture.empty_cell Fixture.nper Fixture.nper_item)))
         = [([PStr "#"; PStr "periods"], 0)]).
Proof.
  split.
  - destruct (load_remainder_becomes_comment (collab := Sample.collaborators)
                (Fixture.empty_cell Fixture.save_flows Fixture.save_item)
                "SAVE_FLOWS" [] 1%nat None 0%nat eq_refl eq_refl eq_refl)
      as [Hkeyword _].
    apply (Hkeyword eq_refl).
  - destruct (load_remainder_becomes_comment (collab := Sample.collaborators)
                (Fixture.empty_cell Fixture.nper Fixture.nper_item)
                "NPER 12 # periods" [] 1%nat None 0%nat eq_refl eq_refl eq_refl)
      as [_ Hscalar].
    apply (Hscalar eq_refl "12"%string Fixture.nper_item (PInt 12)
             eq_refl eq_refl eq_refl).
Defined.

(** [SAVE_FLOWS] is written back as [  SAVE_FLOWS], [nper 12] as
    [  NPER  12]. *)
Lemma load_then_get_file_entry_witness :
  fst (MFScalar.get_file_entry (collab := Sample.collaborators) false false
         (snd (MFScalar.load (collab := Sample.collaborators) "SAVE_FLOWS" []
                 (Fixture.empty_cell Fixture.save_flows Fixture.save_item))))
  = Ok ("  SAVE_FLOWS" +:+ nl)
  /\ fst (MFScalar.get_file_entry (collab := Sample.collaborators) false false
            (snd (MFScalar.load (collab := Sample.collaborators) "nper 12" []
                    (Fixture.empty_cell Fixture.nper Fixture.nper_item))))
     = Ok ("  NPER  12" +:+ nl).
Proof.
  split.
  - destruct (load_then_get_file_entry (collab := Sample.collaborators)
                (Fixture.empty_cell Fixture.save_flows Fixture.save_item)
                "SAVE_FLOWS" [] 1%nat None 0%nat eq_refl eq_refl eq_refl)
      as [Hkeyword _].
    apply (Hkeyword eq_refl eq_refl).
  - destruct (load_then_get_file_entry (collab := Sample.collaborators)
                (Fixture.empty_cell Fixture.nper Fixture.nper_item)
                "nper 12" [] 1%nat None 0%nat eq_refl eq_refl eq_refl)
      as [_ Hscalar].
    apply (Hscalar eq_refl eq_refl "12"%string Fixture.nper_item (PInt 12)
             eq_refl eq_refl eq_refl).
    discriminate.
Defined.

(** [TS6 FILEIN river.ts] stores the file name; [TS6] alone stores the
    keyword; [TS6 river.ts] on the record of one keyword raises. *)
Lemma load_record_stores_token_after_keywords_witness :
  MFScalar.load (collab := Sample.collaborators) "TS6 FILEIN river.ts" []
    (Fixture.empty_cell Records.ts6_file Records.ts6)
  = (Ok (false, None),
     with_remainder 1 ["TS6"; "FILEIN"; "river.ts"]%string
       (with_value 0%nat (PStr "river.ts")
          (Fixture.empty_cell Records.ts6_file Records.ts6)))
  /\ MFScalar.load (collab := Sample.collaborators) "TS6" []
       (Fixture.empty_cell Records.ts6_file Records.ts6)
     = (Ok (false, None),
        with_remainder 1 ["TS6"%string]
          (with_value 0%nat (PStr "TS6")
             (Fixture.empty_cell Records.ts6_file Records.ts6)))
  /\ MFScalar.load (collab := Sample.collaborators) "TS6 river.ts" []
       (Fixture.empty_cell Records.ts6_only Records.ts6)
     = (Raise IndexError, Fixture.empty_cell Records.ts6_only Records.ts6).
Proof.
  split; [|split].
  - destruct (load_record_stores_token_after_keywords
                (collab := Sample.collaborators)
                (Fixture.empty_cell Records.ts6_file Records.ts6)
                "TS6 FILEIN river.ts" [] 1%nat None 0%nat "river.ts"
                eq_refl eq_refl eq_refl eq_refl) as [Hstore _].
    apply (Hstore Records.ts6_filename Records.ts6 (PStr "river.ts")
             eq_refl eq_refl eq_refl).
  - destruct (load_record_stores_token_after_keywords
                (collab := Sample.collaborators)
                (Fixture.empty_cell Records.ts6_file Records.ts6)
                "TS6" [] 1%nat None 0%nat "TS6"
                eq_refl eq_refl eq_refl eq_refl) as [Hstore _].
    apply (Hstore Records.ts6 Records.ts6 (PStr "TS6")
             eq_refl eq_refl eq_refl).
  - destruct (load_record_stores_token_after_keywords
                (collab := Sample.collaborators)
                (Fixture.empty_cell Records.ts6_only Records.ts6)
                "TS6 river.ts" [] 1%nat None 0%nat "river.ts"
                eq_refl eq_refl eq_refl eq_refl) as [_ Hraise].
    apply Hraise. reflexivity.
Defined.

(** ** The scalar cell: further properties *)

Section ScalarMore.
Context {collab : Collaborators}.

Lemma with_value_storage_obj a v s :
  MFScalar._get_storage_obj (with_value a v s) = MFScalar._get_storage_obj s.
Proof. reflexivity. Qed.

(** [add_one] by what the storage holds. *)
Lemma add_one_absent_exact self a :
  is_int_type (get_datum_type (structure self)) = true ->
  MFScalar._get_storage_obj self = Some a ->
  sto_data (store self a) = PNone ->
  MFScalar.add_one self = (Ok tt, with_value a (PInt 1) self).
Proof.
  intros Hint Ha Hv.
  assert (Hs : MFScalar.stored self = Some PNone)
    by (unfold MFScalar.stored; rewrite Ha, Hv; reflexivity).
  unfold MFScalar.add_one. unfold MFScalar.self_ at 1.
  unfold bind at 1, gets at 1. rewrite Hint.
  rewrite (bind_ok _ _ _ _ _ (get_data_false_stored _ _ Hs)). simpl.
  apply storage_set_data_some. exact Ha.
Qed.

Lemma add_one_present_exact self a n :
  is_int_type (get_datum_type (structure self)) = true ->
  MFScalar._get_storage_obj self = Some a ->
  sto_data (store self a) = PInt n ->
  MFScalar.add_one self = (Ok tt, with_value a (PInt (n + 1)) self).
Proof.
  intros Hint Ha Hv.
  assert (Hs : MFScalar.stored self = Some (PInt n))
    by (unfold MFScalar.stored; rewrite Ha, Hv; reflexivity).
  unfold MFScalar.add_one. unfold MFScalar.self_ at 1.
  unfold bind at 1, gets at 1. rewrite Hint.
  rewrite (bind_ok _ _ _ _ _ (get_data_false_stored _ _ Hs)). simpl.
  rewrite (bind_ok _ _ _ _ _ (storage_read_some _ _ _ _ Ha)).
  rewrite (bind_ok _ _ _ _ _ (get_data_false_stored _ _ Hs)).
  unfold bind at 1, lift at 1. simpl.
  apply storage_set_data_some. exact Ha.
Qed.

Lemma add_one_counts_from self a n k :
  is_int_type (get_datum_type (structure self)) = true ->
  MFScalar._get_storage_obj self = Some a ->
  sto_data (store self a) = PInt n ->
  exists self',
    repeat_call k MFScalar.add_one self = (Ok tt, self')
    /\ structure self' = structure self
    /\ MFScalar._get_storage_obj self' = Some a
    /\ sto_data (store self' a) = PInt (n + Z.of_nat k).
Proof.
  revert self n. induction k as [|k IH]; intros self n Hint Ha Hv.
  - exists self. simpl. rewrite Z.add_0_r. auto.
  - cbn [repeat_call].
    rewrite (bind_ok _ _ _ _ _ (add_one_present_exact self a n Hint Ha Hv)).
    destruct (IH (with_value a (PInt (n + 1)) self) (n + 1)) as (s' & Hrun & Hs & Ho & Hd).
    + exact Hint.
    + exact Ha.
    + simpl. rewrite update_store_same. reflexivity.
    + exists s'. split; [exact Hrun|]. split; [exact Hs|]. split; [exact Ho|].
      rewrite Hd. f_equal. lia.
Qed.

(** X4: [add_one] counts.  On a cell of integer datum type that holds no
    value, [k] calls in a row, [k] at least 1, all succeed and leave [k] in
    the cell. *)
Theorem add_one_counts (self : MFScalar) (k : nat) :
  is_int_type (get_datum_type (structure self)) = true ->
  MFScalar.stored self = Some PNone ->
  exists self',
    repeat_call (S k) MFScalar.add_one self = (Ok tt, self')
    /\ MFScalar.stored self' = Some (PInt (Z.of_nat (S k))).
Proof.
  intros Hint Hs. destruct (stored_inv _ _ Hs) as (a & Ha & Hv).
  cbn [repeat_call].
  rewrite (bind_ok _ _ _ _ _ (add_one_absent_exact self a Hint Ha Hv)).
  destruct (add_one_counts_from (with_value a (PInt 1) self) a 1 k)
    as (s' & Hrun & _ & Ho & Hd).
  - exact Hint.
  - exact Ha.
  - simpl. rewrite update_store_same. reflexivity.
  - exists s'. split; [exact Hrun|].
    unfold MFScalar.stored. rewrite Ho, Hd. do 2 f_equal. lia.
Qed.

(** X5: a cell with no data has the empty entry, whatever the schema and the
    flags, and the object is left alone.  When there is no storage object at
    all (the transient cell with no active key, or with an active key that
    is not registered) [has_data], [get_data], [add_one] and [set_data] do
    not return: each raises [AttributeError], and nothing is stored. *)
Theorem no_data_no_storage_object (self : MFScalar) :
  (MFScalar.no_data self = true ->
   forall values_only one_based,
     MFScalar.get_file_entry values_only one_based self = (Ok EmptyString, self))
  /\ (MFScalar._get_storage_obj self = None ->
      MFScalar.no_data self = true
      /\ MFScalar.has_data self = (Raise (AttributeError "has_data"), self)
      /\ (forall apply_mult,
             MFScalar.get_data apply_mult self
             = (Raise (AttributeError "get_data"), self))
      /\ (is_int_type (get_datum_type (structure self)) = true ->
          MFScalar.add_one self = (Raise (AttributeError "get_data"), self))
      /\ (forall raw,
             layers_nonempty raw = true ->
             fst (MFScalar.set_data raw self) = Raise (AttributeError "set_data")
             /\ forall b, store (snd (MFScalar.set_data raw self)) b
                          = store self b)).
Proof.
  split.
  - intros Hnd values_only one_based. apply get_file_entry_no_data. exact Hnd.
  - intros Hnone. split; [|split; [|split; [|split]]].
    + unfold MFScalar.no_data, MFScalar.stored. rewrite Hnone. reflexivity.
    + apply storage_read_none. exact Hnone.
    + intros apply_mult. apply storage_read_none. exact Hnone.
    + intros Hint. unfold MFScalar.add_one. unfold MFScalar.self_ at 1.
      unfold bind at 1, gets at 1. rewrite Hint.
      apply bind_raise. apply storage_read_none. exact Hnone.
    + intros raw Hne.
      destruct (unwrap_nonempty raw self Hne) as (s1 & Hu & Hsame & _).
      assert (Hnone1 : MFScalar._get_storage_obj s1 = None)
        by (rewrite (same_data_storage_obj _ _ Hsame); exact Hnone).
      unfold MFScalar.set_data. rewrite (bind_ok _ _ _ _ _ Hu).
      rewrite (bind_raise _ _ _ _ _ (storage_read_none _ _ _ Hnone1)).
      split; [reflexivity|]. destruct Hsame as [_ Hst]. exact Hst.
Qed.

(** [set_data] once the loop has returned and the conversion has failed. *)
Lemma set_data_after_unwrap_raise raw data self0 self a it e :
  MFScalar.unwrap raw self0 = (Ok data, self) ->
  MFScalar._get_storage_obj self = Some a ->
  data_item_structures (structure self) !! 0%nat = Some it ->
  convert_data data (_data_type self) it = Raise e ->
  MFScalar.set_data raw self0 = (Raise e, self).
Proof.
  intros Hu Ha Hit Hv. unfold MFScalar.set_data.
  rewrite (bind_ok _ _ _ _ _ Hu).
  rewrite (bind_ok _ _ _ _ _ (storage_read_some _ _ _ _ Ha)).
  rewrite (bind_ok _ _ _ _ _ (storage_read_some _ _ _ _ Ha)).
  unfold MFScalar.self_ at 1. unfold bind at 1, gets at 1.
  rewrite (bind_ok _ _ _ _ _ (item0_some _ _ Hit)).
  unfold bind at 1, lift at 1. rewrite Hv. reflexivity.
Qed.

(** X6: when the storage engine refuses the unwrapped scalar, [set_data]
    raises the engine's exception and every storage object holds what it
    held; the comments met while unwrapping have been recorded. *)
Theorem set_data_conversion_failure (raw : pyval) (self : MFScalar)
    (a : addr) (it : MFDataItemStructure) (e : exc) :
  layers_nonempty raw = true ->
  MFScalar._get_storage_obj self = Some a ->
  data_item_structures (structure self) !! 0%nat = Some it ->
  convert_data (first_scalar raw) (_data_type self) it = Raise e ->
  fst (MFScalar.set_data raw self) = Raise e
  /\ (forall b, store (snd (MFScalar.set_data raw self)) b = store self b)
  /\ MFScalar.stored (snd (MFScalar.set_data raw self)) = MFScalar.stored self
  /\ comments (snd (MFScalar.set_data raw self))
     = comments self ++ logged (recorded_comments raw).
Proof.
  intros Hne Ha Hit Hv.
  destruct (unwrap_nonempty raw self Hne) as (s1 & Hu & Hsame & Hc).
  pose proof (same_data_storage_obj _ _ Hsame) as Hobj. rewrite Ha in Hobj.
  pose proof (same_data_stored _ _ Hsame) as Hst.
  destruct Hsame as [[Hs Hdt _ _ _ _ _ _] Hstore].
  rewrite (set_data_after_unwrap_raise raw (first_scalar raw) self s1 a it e Hu Hobj).
  - cbn [fst snd]. auto.
  - rewrite Hs. exact Hit.
  - rewrite Hdt. exact Hv.
Qed.

(** X7: [get_data] returns what [set_data] stored: after a successful
    [set_data] of a raw value, [get_data] without [apply_mult] returns the
    conversion of its first scalar, [get_data] with [apply_mult] returns
    what the multiplier logic of the storage engine makes of that value, and
    [has_data] tells whether the value is not [None]. *)
Theorem set_data_then_get_data (raw : pyval) (self : MFScalar)
    (a : addr) (it : MFDataItemStructure) (v : pyval) :
  layers_nonempty raw = true ->
  MFScalar._get_storage_obj self = Some a ->
  data_item_structures (structure self) !! 0%nat = Some it ->
  convert_data (first_scalar raw) (_data_type self) it = Ok v ->
  fst (MFScalar.set_data raw self) = Ok tt
  /\ (forall apply_mult,
         fst (MFScalar.get_data apply_mult (snd (MFScalar.set_data raw self)))
         = Ok (if apply_mult then multiplied v else v))
  /\ fst (MFScalar.has_data (snd (MFScalar.set_data raw self)))
     = Ok (negb (DataStorage.is_none v)).
Proof.
  intros Hne Ha Hit Hv.
  destruct (unwrap_nonempty raw self Hne) as (s1 & Hu & Hsame & Hc).
  pose proof (same_data_storage_obj _ _ Hsame) as Hobj. rewrite Ha in Hobj.
  destruct Hsame as [[Hs Hdt _ _ _ _ _ _] Hstore].
  rewrite (set_data_after_unwrap raw (first_scalar raw) self s1 a it v Hu Hobj)
    by (rewrite ?Hs, ?Hdt; assumption).
  cbn [fst snd].
  pose proof (stored_with_store v s1 a Hobj) as Hst.
  split; [reflexivity|]. split.
  - intros apply_mult. rewrite (get_data_stored _ _ apply_mult Hst). reflexivity.
  - rewrite (has_data_stored _ _ Hst). reflexivity.
Qed.

Lemma record_text_line_closed_form items self v n :
  MFScalar.stored self = Some v ->
  py_len v = Ok n ->
  MFScalar.record_text_line items self
  = (Ok (flat_map (record_item_text self v n) items), self).
Proof.
  intros Hs Hn. induction items as [|data_item rest IH]; [reflexivity|].
  cbn [MFScalar.record_text_line flat_map]. unfold record_item_text at 1.
  destruct (String.eqb (lower (item_type data_item)) "keyword"
            && negb (optional data_item)).
  - unfold bind at 1, ret at 1. cbv beta iota.
    rewrite (bind_ok _ _ _ _ _ IH). reflexivity.
  - assert (Hhere :
              (let* data := MFScalar.get_data false in
               let* n := lift (py_len data) in
               if (0 <? n)%nat then
                 let* d := MFScalar.get_data false in
                 let* self := MFScalar.self_ in
                 ret [to_string d (_data_type self) (ucase data_item)]
               else ret []) self
              = (Ok (if (0 <? n)%nat
                     then [to_string v (_data_type self) (ucase data_item)]
                     else []), self)).
    { rewrite (bind_ok _ _ _ _ _ (get_data_false_stored _ _ Hs)).
      rewrite Hn. unfold bind at 1, lift at 1. cbv beta iota.
      destruct (0 <? n)%nat; [|reflexivity].
      rewrite (bind_ok _ _ _ _ _ (get_data_false_stored _ _ Hs)). reflexivity. }
    rewrite (bind_ok _ _ _ _ _ Hhere).
    rewrite (bind_ok _ _ _ _ _ IH). reflexivity.
Qed.

Lemma record_text_line_raise items self v e :
  MFScalar.stored self = Some v ->
  py_len v = Raise e ->
  (exists data_item,
      data_item ∈ items
      /\ String.eqb (lower (item_type data_item)) "keyword"
         && negb (optional data_item) = false) ->
  MFScalar.record_text_line items self = (Raise e, self).
Proof.
  intros Hs He. induction items as [|it rest IH]; intros (data_item & Hin & Hkw).
  - inversion Hin.
  - cbn [MFScalar.record_text_line].
    destruct (String.eqb (lower (item_type it)) "keyword" && negb (optional it))
      eqn:Hit.
    + unfold bind at 1, ret at 1. cbv beta iota.
      apply bind_raise. apply IH. exists data_item. split; [|exact Hkw].
      apply elem_of_cons in Hin as [->|Hin]; [congruence|exact Hin].
    + apply bind_raise.
      rewrite (bind_ok _ _ _ _ _ (get_data_false_stored _ _ Hs)).
      rewrite He. reflexivity.
Qed.

(** X8: the entry of a record that holds a value with a length is the
    indent, then its sub-items in schema order joined by the indent, then a
    newline: a keyword that is not optional gives its upper-case name, any
    other sub-item gives the formatted value, or nothing when the value is
    empty.  When the value has no length (an integer) and the schema has a
    sub-item that is not such a keyword, [get_file_entry] raises the
    [TypeError] of [len]; the object is left alone either way. *)
Theorem get_file_entry_record (self : MFScalar) (v : pyval)
    (values_only one_based : bool) :
  String.eqb (type (structure self)) "keyword" = false ->
  String.eqb (type (structure self)) "record" = true ->
  MFScalar.stored self = Some v ->
  DataStorage.is_none v = false ->
  (forall n,
      py_len v = Ok n ->
      MFScalar.get_file_entry values_only one_based self
      = (Ok (indent_string self
             +:+ join (indent_string self)
                   (flat_map (record_item_text self v n)
                      (data_item_structures (structure self)))
             +:+ nl), self))
  /\ (forall e,
        py_len v = Raise e ->
        (exists data_item,
            data_item ∈ data_item_structures (structure self)
            /\ String.eqb (lower (item_type data_item)) "keyword"
               && negb (optional data_item) = false) ->
        MFScalar.get_file_entry values_only one_based self = (Raise e, self)).
Proof.
  intros Hk Hr Hs Hv.
  assert (Hrun : MFScalar.get_file_entry values_only one_based self
            = (let* text_line :=
                 MFScalar.record_text_line (data_item_structures (structure self)) in
               ret (indent_string self +:+ join (indent_string self) text_line
                    +:+ nl)) self).
  { rewrite get_file_entry_with_data
      by (rewrite (no_data_stored _ _ Hs); exact Hv).
    unfold MFScalar.entry_text. unfold MFScalar.self_ at 1.
    unfold bind at 1, gets at 1. cbv beta iota zeta. rewrite Hk, Hr.
    reflexivity. }
  rewrite Hrun. split.
  - intros n Hn.
    rewrite (bind_ok _ _ _ _ _ (record_text_line_closed_form _ self v n Hs Hn)).
    reflexivity.
  - intros e He Hex. apply bind_raise.
    apply (record_text_line_raise _ self v e Hs He Hex).
Qed.

End ScalarMore.

(** Three calls of [add_one] on the empty integer cell leave 3. *)
Lemma add_one_counts_witness :
  exists self',
    repeat_call 3 (MFScalar.add_one (collab := Sample.collaborators))
      (Fixture.empty_cell Fixture.nper Fixture.nper_item) = (Ok tt, self')
    /\ MFScalar.stored self' = Some (PInt 3).
Proof.
  apply (add_one_counts (collab := Sample.collaborators)
           (Fixture.empty_cell Fixture.nper Fixture.nper_item) 2);
    reflexivity.
Defined.

(** The empty integer cell has the empty entry; the transient sequence with
    no active key has no storage object. *)
Lemma no_data_no_storage_object_witness :
  MFScalar.get_file_entry (collab := Sample.collaborators) false false
    (Fixture.empty_cell Fixture.nper Fixture.nper_item)
  = (Ok EmptyString, Fixture.empty_cell Fixture.nper Fixture.nper_item)
  /\ MFScalar.has_data Fixture.three_periods
     = (Raise (AttributeError "has_data"), Fixture.three_periods)
  /\ fst (MFScalar.set_data (collab := Sample.collaborators) (PList [PInt 4])
            Fixture.three_periods)
     = Raise (AttributeError "set_data").
Proof.
  split; [|split].
  - destruct (no_data_no_storage_object (collab := Sample.collaborators)
                (Fixture.empty_cell Fixture.nper Fixture.nper_item))
      as [Hentry _].
    apply (Hentry eq_refl false false).
  - destruct (no_data_no_storage_object (collab := Sample.collaborators)
                Fixture.three_periods) as [_ Hnone].
    destruct (Hnone eq_refl) as (_ & Hhas & _). exact Hhas.
  - destruct (no_data_no_storage_object (collab := Sample.collaborators)
                Fixture.three_periods) as [_ Hnone].
    destruct (Hnone eq_refl) as (_ & _ & _ & _ & Hset).
    destruct (Hset (PList [PInt 4]) eq_refl) as [Hraise _]. exact Hraise.
Defined.

(** The text [abc] is refused by the integer cell, which stays empty. *)
Lemma set_data_conversion_failure_witness :
  fst (MFScalar.set_data (collab := Sample.collaborators) (PList [PStr "abc"])
         (Fixture.empty_cell Fixture.nper Fixture.nper_item))
  = Raise (MFFileParseException "Unable to convert abc")
  /\ MFScalar.stored
       (snd (MFScalar.set_data (collab := Sample.collaborators)
               (PList [PStr "abc"])
               (Fixture.empty_cell Fixture.nper Fixture.nper_item)))
     = Some PNone.
Proof.
  destruct (set_data_conversion_failure (collab := Sample.collaborators)
              (PList [PStr "abc"])
              (Fixture.empty_cell Fixture.nper Fixture.nper_item)
              0%nat Fixture.nper_item
              (MFFileParseException "Unable to convert abc")
              eq_refl eq_refl eq_refl eq_refl) as (Hraise & _ & Hstored & _).
  split; [exact Hraise | exact Hstored].
Defined.

(** After [set_data([[5, "note"]])], [get_data] returns 5, and 10 from the
    engine that doubles when [apply_mult] holds. *)
Lemma set_data_then_get_data_witness :
  fst (MFScalar.get_data (collab := Sample.collaborators) false
         (snd (MFScalar.set_data (collab := Sample.collaborators)
                 (PList [PList [PInt 5; PStr "note"]])
                 (Fixture.empty_cell Fixture.nper Fixture.nper_item))))
  = Ok (PInt 5)
  /\ fst (MFScalar.get_data (collab := Sample.collaborators) true
            (snd (MFScalar.set_data (collab := Sample.collaborators)
                    (PList [PList [PInt 5; PStr "note"]])
                    (Fixture.empty_cell Fixture.nper Fixture.nper_item))))
     = Ok (PInt 10).
Proof.
  destruct (set_data_then_get_data (collab := Sample.collaborators)
              (PList [PList [PInt 5; PStr "note"]])
              (Fixture.empty_cell Fixture.nper Fixture.nper_item)
              0%nat Fixture.nper_item (PInt 5)
              eq_refl eq_refl eq_refl eq_refl) as (_ & Hget & _).
  split; [apply (Hget false)|apply (Hget true)].
Defined.

(** The record holding [river.ts] is written [  TS6  FILEIN  river.ts];
    holding the integer 5 it cannot be written. *)
Lemma get_file_entry_record_witness :
  MFScalar.get_file_entry (collab := Sample.collaborators) false false
    (Fixture.cell_with Records.ts6_file Records.ts6 (PStr "river.ts"))
  = (Ok ("  TS6  FILEIN  river.ts" +:+ nl),
     Fixture.cell_with Records.ts6_file Records.ts6 (PStr "river.ts"))
  /\ MFScalar.get_file_entry (collab := Sample.collaborators) false false
       (Fixture.cell_with Records.ts6_file Records.ts6 (PInt 5))
     = (Raise (TypeError "object has no len()"),
        Fixture.cell_with Records.ts6_file Records.ts6 (PInt 5)).
Proof.
  split.
  - destruct (get_file_entry_record (collab := Sample.collaborators)
                (Fixture.cell_with Records.ts6_file Records.ts6 (PStr "river.ts"))
                (PStr "river.ts") false false eq_refl eq_refl eq_refl eq_refl)
      as [Hline _].
    apply (Hline 8%nat eq_refl).
  - destruct (get_file_entry_record (collab := Sample.collaborators)
                (Fixture.cell_with Records.ts6_file Records.ts6 (PInt 5))
                (PInt 5) false false eq_refl eq_refl eq_refl eq_refl)
      as [_ Hraise].
    apply (Hraise (TypeError "object has no len()") eq_refl).
    exists Records.ts6_filename. split; [|reflexivity].
    do 2 (apply elem_of_cons; right). apply elem_of_cons. left. reflexivity.
Defined.

(** ** The transient sequence: further properties *)

Lemma same_but_key_refl : Reflexive same_but_key.
Proof. intros s. constructor; reflexivity. Qed.
#[local] Existing Instance same_but_key_refl.

Lemma same_but_key_trans : Transitive same_but_key.
Proof. intros s1 s2 s3 [] []. constructor; congruence. Qed.
#[local] Existing Instance same_but_key_trans.

Lemma same_but_key_with_current_key k s : same_but_key s (with_current_key k s).
Proof. constructor; reflexivity. Qed.

Lemma same_but_key_cell s s' k : same_but_key s s' -> cell s' k = cell s k.
Proof.
  intros [_ _ _ _ Hst _ Hd _]. unfold cell, cell_addr, dict_of.
  rewrite Hd, Hst. reflexivity.
Qed.

Lemma keyed_storage_obj s d k :
  _data_storage s = Keyed d ->
  MFScalar._get_storage_obj (with_current_key (Some k) s) = OrderedDict.get k d.
Proof. intros Hd. unfold MFScalar._get_storage_obj. simpl. rewrite Hd. reflexivity. Qed.

Lemma keyed_cell_addr s d k :
  _data_storage s = Keyed d -> cell_addr s k = OrderedDict.get k d.
Proof. intros Hd. unfold cell_addr, dict_of. rewrite Hd. reflexivity. Qed.

Lemma ordered_dict_get_key k d :
  k ∈ OrderedDict.keys d -> exists a, OrderedDict.get k d = Some a.
Proof.
  induction d as [|[k0 a0] d IH]; simpl; intros Hin.
  - inversion Hin.
  - destruct (Z.eqb_spec k k0) as [->|Hne]; [eauto|].
    apply IH. apply elem_of_cons in Hin as [->|Hin]; [contradiction|exact Hin].
Qed.

Lemma ordered_dict_get_none k d :
  OrderedDict.get k d = None -> k ∉ OrderedDict.keys d.
Proof.
  intros Hget Hin. destruct (ordered_dict_get_key k d Hin) as [a Ha]. congruence.
Qed.

Lemma ordered_dict_keys_set k a d :
  OrderedDict.keys (OrderedDict.set k a d)
  = match OrderedDict.get k d with
    | Some _ => OrderedDict.keys d
    | None => OrderedDict.keys d ++ [k]
    end.
Proof.
  unfold OrderedDict.keys.
  induction d as [|[k0 a0] d IH]; [reflexivity|].
  cbn [OrderedDict.set OrderedDict.get].
  destruct (Z.eqb_spec k k0) as [->|Hne]; [reflexivity|].
  cbn [map fst]. rewrite IH.
  destruct (OrderedDict.get k d); reflexivity.
Qed.

Section TransientMore.
Context {collab : Collaborators}.

(** [has_data] and [get_data] scoped to a key read the cell of the key. *)
Lemma transient_has_data_key s d k a :
  _data_storage s = Keyed d ->
  OrderedDict.get k d = Some a ->
  MFScalarTransient.has_data (Some k) s
  = (Ok (DataStorage.has_data (store s a)), with_current_key (Some k) s).
Proof.
  intros Hd Ha. unfold MFScalarTransient.has_data, MFScalarTransient.get_data_prep.
  unfold bind at 1, modify at 1. cbv beta iota.
  unfold MFScalar.has_data.
  rewrite (storage_read_some _ _ _ a); [reflexivity|].
  rewrite (keyed_storage_obj s d k Hd). exact Ha.
Qed.

Lemma transient_get_data_cell s d k :
  _data_storage s = Keyed d ->
  MFScalarTransient.get_data k s
  = (match cell s k with
     | Some c => Ok (sto_data c)
     | None => Raise (AttributeError "get_data")
     end, with_current_key (Some k) s).
Proof.
  intros Hd. unfold MFScalarTransient.get_data, MFScalarTransient.get_data_prep.
  unfold bind at 1, modify at 1. cbv beta iota.
  unfold MFScalar.get_data, cell. rewrite (keyed_cell_addr s d k Hd).
  pose proof (keyed_storage_obj s d k Hd) as Ho.
  destruct (OrderedDict.get k d) as [a|].
  - rewrite (storage_read_some _ _ _ a Ho). reflexivity.
  - rewrite (storage_read_none _ _ _ Ho). reflexivity.
Qed.

Lemma has_data_loop_step s d k a rest :
  _data_storage s = Keyed d ->
  OrderedDict.get k d = Some a ->
  MFScalarTransient.has_data_loop (k :: rest) false s
  = if DataStorage.has_data (store s a)
    then (Ok true, with_current_key (Some k) s)
    else MFScalarTransient.has_data_loop rest false (with_current_key (Some k) s).
Proof.
  intros Hd Ha. cbn [MFScalarTransient.has_data_loop].
  unfold MFScalarTransient.get_data_prep.
  unfold bind at 1, modify at 1. cbv beta iota.
  unfold MFScalar.has_data.
  rewrite (bind_ok _ _ _ _ _
             (storage_read_some "has_data" DataStorage.has_data
                (with_current_key (Some k) s) a
                (eq_trans (keyed_storage_obj s d k Hd) Ha))).
  change (store (with_current_key (Some k) s) a) with (store s a).
  destruct (DataStorage.has_data (store s a)); reflexivity.
Qed.

Lemma last_after_head {A} (x d : A) l : List.last (x :: l) d = List.last l x.
Proof.
  revert x d. induction l as [|y l IH]; intros x d; [reflexivity|].
  change (List.last (x :: y :: l) d) with (List.last (y :: l) d).
  rewrite (IH y d), (IH y x). reflexivity.
Qed.

Lemma has_data_loop_any self d keys :
  forall s,
    same_but_key self s ->
    _data_storage self = Keyed d ->
    (forall k, k ∈ keys -> k ∈ OrderedDict.keys d) ->
    fst (MFScalarTransient.has_data_loop keys false s)
    = Ok (existsb (key_has_data self) keys)
    /\ same_but_key self (snd (MFScalarTransient.has_data_loop keys false s))
    /\ _current_key (snd (MFScalarTransient.has_data_loop keys false s))
       = match List.find (key_has_data self) keys with
         | Some k => Some k
         | None => List.last (map Some keys) (_current_key s)
         end.
Proof.
  induction keys as [|k rest IH]; intros s Hs Hd Hreg.
  - split; [reflexivity|]. split; [exact Hs|reflexivity].
  - destruct (ordered_dict_get_key k d) as [a Ha];
      [apply Hreg, elem_of_cons; left; reflexivity|].
    assert (Hds : _data_storage s = Keyed d)
      by (destruct Hs as [_ _ _ _ _ _ Hx _]; congruence).
    assert (Hst : store s = store self) by (destruct Hs; assumption).
    assert (Hs1 : same_but_key self (with_current_key (Some k) s))
      by (transitivity s; [exact Hs|apply same_but_key_with_current_key]).
    assert (Hkd : key_has_data self k = DataStorage.has_data (store s a)).
    { unfold key_has_data, cell. rewrite (keyed_cell_addr self d k Hd), Ha, Hst.
      reflexivity. }
    rewrite (has_data_loop_step s d k a rest Hds Ha).
    cbn [existsb List.find]. rewrite Hkd.
    destruct (DataStorage.has_data (store s a)).
    + split; [reflexivity|]. split; [exact Hs1|reflexivity].
    + destruct (IH (with_current_key (Some k) s) Hs1 Hd) as (Hres & Hsame & Hkey).
      { intros k' Hin. apply Hreg, elem_of_cons. right. exact Hin. }
      split; [exact Hres|]. split; [exact Hsame|].
      rewrite Hkey. destruct (List.find (key_has_data self) rest); [reflexivity|].
      cbn [map]. symmetry. apply last_after_head.
Qed.

(** X9: [has_data()] with no key is true exactly when the cell of some
    registered key holds data.  The keys are tried in registration order
    and the loop stops at the first one with data: the active key
    afterwards is the first registered key whose cell holds data, or, when
    no cell holds data, the key registered last, or the key that was active
    when no key is registered.  The call changes the active key and nothing
    else. *)
Theorem transient_has_data_any (self : MFScalar) (d : list (Z * addr)) :
  _data_storage self = Keyed d ->
  fst (MFScalarTransient.has_data None self)
  = Ok (existsb (key_has_data self) (OrderedDict.keys d))
  /\ _current_key (snd (MFScalarTransient.has_data None self))
     = match List.find (key_has_data self) (OrderedDict.keys d) with
       | Some k => Some k
       | None => List.last (map Some (OrderedDict.keys d)) (_current_key self)
       end
  /\ same_but_key self (snd (MFScalarTransient.has_data None self))
  /\ forall k, cell (snd (MFScalarTransient.has_data None self)) k = cell self k.
Proof.
  intros Hd.
  assert (Hrun : MFScalarTransient.has_data None self
            = MFScalarTransient.has_data_loop (OrderedDict.keys d) false self).
  { unfold MFScalarTransient.has_data, MFScalarTransient.storage_keys.
    unfold bind at 1. rewrite Hd. reflexivity. }
  rewrite Hrun.
  destruct (has_data_loop_any self d (OrderedDict.keys d) self)
    as (Hres & Hsame & Hkey); [reflexivity | exact Hd | auto |].
  split; [exact Hres|]. split; [exact Hkey|]. split; [exact Hsame|].
  intros k. apply same_but_key_cell. exact Hsame.
Qed.

Lemma same_but_key_lines s s' it v :
  same_but_key s s' ->
  scalar_line s' it v = scalar_line s it v /\ keyword_line s' = keyword_line s.
Proof.
  intros [Hs Hdt _ Hi _ _ _ _]. unfold scalar_line, keyword_line.
  rewrite Hs, Hdt, Hi. auto.
Qed.

Lemma collect_entries_closed_form self d it keys :
  _data_storage self = Keyed d ->
  String.eqb (type (structure self)) "record" = false ->
  data_item_structures (structure self) !! 0%nat = Some it ->
  forall s,
    same_but_key self s ->
    (forall k, k ∈ keys -> k ∈ OrderedDict.keys d) ->
    fst (MFScalarTransient.collect_entries keys s)
    = Ok (flat_map (key_entry self it) keys)
    /\ same_but_key self (snd (MFScalarTransient.collect_entries keys s)).
Proof.
  intros Hd Hrec Hit. induction keys as [|k rest IH]; intros s Hs Hreg.
  - split; [reflexivity|exact Hs].
  - destruct (ordered_dict_get_key k d) as [a Ha];
      [apply Hreg, elem_of_cons; left; reflexivity|].
    assert (Hds : _data_storage s = Keyed d)
      by (destruct Hs as [_ _ _ _ _ _ Hx _]; congruence).
    assert (Hst : store s = store self) by (destruct Hs; assumption).
    assert (Hs1 : same_but_key self (with_current_key (Some k) s))
      by (transitivity s; [exact Hs|apply same_but_key_with_current_key]).
    assert (Hrest : forall k', k' ∈ rest -> k' ∈ OrderedDict.keys d)
      by (intros k' Hin; apply Hreg, elem_of_cons; right; exact Hin).
    cbn [MFScalarTransient.collect_entries flat_map].
    rewrite (bind_ok _ _ _ _ _ (transient_has_data_key s d k a Hds Ha)).
    unfold key_entry at 1. unfold cell.
    rewrite (keyed_cell_addr self d k Hd), Ha, <- Hst.
    destruct (DataStorage.has_data (store s a)) eqn:Hhas.
    + assert (Hstored : MFScalar.stored (with_current_key (Some k)
                                           (with_current_key (Some k) s))
                        = Some (sto_data (store s a))).
      { unfold MFScalar.stored.
        rewrite (keyed_storage_obj (with_current_key (Some k) s) d k Hds), Ha.
        reflexivity. }
      assert (Hnn : DataStorage.is_none (sto_data (store s a)) = false).
      { unfold DataStorage.has_data in Hhas.
        destruct (DataStorage.is_none _); [discriminate|reflexivity]. }
      assert (Hs2 : same_but_key self
                      (with_current_key (Some k) (with_current_key (Some k) s)))
        by (transitivity (with_current_key (Some k) s);
            [exact Hs1|apply same_but_key_with_current_key]).
      pose proof Hs2 as [Hstr _ _ _ _ _ _ _].
      destruct (same_but_key_lines _ _ it (sto_data (store s a)) Hs2)
        as [Hsl Hkl].
      assert (Hentry :
                MFScalar.get_file_entry false false
                  (with_current_key (Some k) (with_current_key (Some k) s))
                = (Ok (if String.eqb (type (structure self)) "keyword"
                       then keyword_line self
                       else scalar_line self it (sto_data (store s a))),
                   with_current_key (Some k) (with_current_key (Some k) s))).
      { destruct (String.eqb (type (structure self)) "keyword") eqn:Hk.
        - rewrite (get_file_entry_keyword_line _ _ _ _
                     ltac:(rewrite Hstr; exact Hk) Hstored Hnn).
          rewrite Hkl. reflexivity.
        - rewrite (get_file_entry_scalar_line _ it _
                     ltac:(rewrite Hstr; exact Hk)
                     ltac:(rewrite Hstr; exact Hrec)
                     ltac:(rewrite Hstr; exact Hit) Hstored Hnn).
          rewrite Hsl. reflexivity. }
      assert (Hhere :
                (MFScalarTransient._get_file_entry_prep k ;;
                 let* entry := MFScalar.get_file_entry false false in
                 ret [entry]) (with_current_key (Some k) s)
                = (Ok [if String.eqb (type (structure self)) "keyword"
                       then keyword_line self
                       else scalar_line self it (sto_data (store s a))],
                   with_current_key (Some k) (with_current_key (Some k) s))).
      { unfold MFScalarTransient._get_file_entry_prep.
        unfold bind at 1, modify at 1. cbv beta iota.
        rewrite (bind_ok _ _ _ _ _ Hentry). reflexivity. }
      rewrite (bind_ok _ _ _ _ _ Hhere).
      destruct (IH _ Hs2 Hrest) as [Hres Hsame].
      unfold bind, ret.
      destruct (MFScalarTransient.collect_entries rest _) as [[more|e] s3];
        cbn [fst snd] in Hres, Hsame |- *; [|discriminate].
      injection Hres as ->.
      split; [reflexivity|exact Hsame].
    + destruct (IH _ Hs1 Hrest) as [Hres Hsame].
      unfold bind, ret.
      destruct (MFScalarTransient.collect_entries rest _) as [[more|e] s3];
        cbn [fst snd] in Hres, Hsame |- *; [|discriminate].
      injection Hres as ->.
      split; [reflexivity|exact Hsame].
Qed.

(** X10: in a node that is not a record, the loop of [get_file_entry] with
    no key collects, in registration order, the entry of every key whose
    cell holds data and nothing for the other keys; it changes the active
    key and nothing else.  The entry of a key is what [get_file_entry] with
    that key returns. *)
Theorem collect_entries_in_registration_order (self : MFScalar)
    (d : list (Z * addr)) (it : MFDataItemStructure) :
  _data_storage self = Keyed d ->
  String.eqb (type (structure self)) "record" = false ->
  data_item_structures (structure self) !! 0%nat = Some it ->
  fst (MFScalarTransient.collect_entries (OrderedDict.keys d) self)
  = Ok (flat_map (key_entry self it) (OrderedDict.keys d))
  /\ same_but_key self
       (snd (MFScalarTransient.collect_entries (OrderedDict.keys d) self))
  /\ forall py k,
       k ∈ OrderedDict.keys d ->
       key_has_data self k = true ->
       exists entry,
         key_entry self it k = [entry]
         /\ fst (MFScalarTransient.get_file_entry py (Some k) self) = Ok entry.
Proof.
  intros Hd Hrec Hit.
  destruct (collect_entries_closed_form self d it (OrderedDict.keys d)
              Hd Hrec Hit self) as [Hres Hsame]; [reflexivity | auto |].
  split; [exact Hres|]. split; [exact Hsame|].
  intros py k Hin Hhas.
  destruct (ordered_dict_get_key k d Hin) as [a Ha].
  unfold key_has_data, cell in Hhas. unfold key_entry, cell.
  rewrite (keyed_cell_addr self d k Hd), Ha in Hhas |- *. rewrite Hhas.
  eexists. split; [reflexivity|].
  assert (Hstored : MFScalar.stored (with_current_key (Some k) self)
                    = Some (sto_data (store self a))).
  { unfold MFScalar.stored. rewrite (keyed_storage_obj self d k Hd), Ha.
    reflexivity. }
  assert (Hnn : DataStorage.is_none (sto_data (store self a)) = false).
  { unfold DataStorage.has_data in Hhas.
    destruct (DataStorage.is_none _); [discriminate|reflexivity]. }
  pose proof (same_but_key_with_current_key (Some k) self) as Hs1.
  destruct (same_but_key_lines _ _ it (sto_data (store self a)) Hs1) as [Hsl Hkl].
  unfold MFScalarTransient.get_file_entry, MFScalarTransient._get_file_entry_prep.
  unfold bind at 1, modify at 1. cbv beta iota.
  destruct (String.eqb (type (structure self)) "keyword") eqn:Hk.
  - rewrite (get_file_entry_keyword_line false false
               (with_current_key (Some k) self) _ Hk Hstored Hnn).
    cbn [fst]. rewrite Hkl. reflexivity.
  - rewrite (get_file_entry_scalar_line (with_current_key (Some k) self) it _
               Hk Hrec Hit Hstored Hnn).
    cbn [fst]. rewrite Hsl. reflexivity.
Qed.

End TransientMore.

Section TransientCells.
Context {collab : Collaborators}.

Lemma add_one_touches : preserves touches_own_storage MFScalar.add_one.
Proof.
  unfold MFScalar.add_one, MFScalar.self_.
  apply preserves_bind; [apply _ | apply preserves_gets; apply _ |].
  intros self. apply preserves_if.
  - apply preserves_bind; [apply _ | apply storage_read_touches |].
    intros d. apply preserves_if; [apply storage_set_data_touches|].
    apply preserves_bind; [apply _ | apply storage_read_touches |].
    intros _. apply preserves_bind; [apply _ | apply storage_read_touches |].
    intros d'. apply preserves_bind; [apply _ | apply preserves_lift; apply _ |].
    intros v. apply storage_set_data_touches.
  - apply preserves_raise. apply _.
Qed.

(** [add_one] by what the storage object holds. *)
Lemma add_one_exact self a :
  is_int_type (get_datum_type (structure self)) = true ->
  MFScalar._get_storage_obj self = Some a ->
  MFScalar.add_one self
  = if DataStorage.is_none (sto_data (store self a))
    then (Ok tt, with_value a (PInt 1) self)
    else match py_add_int (sto_data (store self a)) 1 with
         | Ok v => (Ok tt, with_value a v self)
         | Raise e => (Raise e, self)
         end.
Proof.
  intros Hint Ha.
  assert (Hs : MFScalar.stored self = Some (sto_data (store self a)))
    by (unfold MFScalar.stored; rewrite Ha; reflexivity).
  unfold MFScalar.add_one. unfold MFScalar.self_ at 1.
  unfold bind at 1, gets at 1. rewrite Hint.
  rewrite (bind_ok _ _ _ _ _ (get_data_false_stored _ _ Hs)).
  destruct (DataStorage.is_none (sto_data (store self a))).
  - apply storage_set_data_some. exact Ha.
  - rewrite (bind_ok _ _ _ _ _ (storage_read_some _ _ _ _ Ha)).
    rewrite (bind_ok _ _ _ _ _ (get_data_false_stored _ _ Hs)).
    unfold bind at 1, lift at 1.
    destruct (py_add_int (sto_data (store self a)) 1) as [v|e]; [|reflexivity].
    apply storage_set_data_some. exact Ha.
Qed.

Lemma with_value_cell a v s d K :
  _data_storage s = Keyed d ->
  OrderedDict.get K d = Some a ->
  cell (with_value a v s) K = Some {| sto_data := v |}.
Proof.
  intros Hd Ha. unfold cell, cell_addr, dict_of. simpl. rewrite Hd, Ha.
  rewrite update_store_same. reflexivity.
Qed.

(** X11: [add_one(key)] of a transient sequence works on the cell of [key]
    and on no other.  For an integer type, an empty cell becomes 1, a cell
    holding [d] becomes [d + 1] when Python can add 1 to [d], and else the
    error of the addition is raised and the cell is as before; with no cell
    for [key] the call raises [AttributeError].  For any other type the call
    raises and every cell is as before. *)
Theorem transient_add_one_scoped (self : MFScalar) (K : Z) :
  own_cells self ->
  let run := MFScalarTransient.add_one K self in
  own_cells (snd run)
  /\ (forall k, k <> K -> cell (snd run) k = cell self k)
  /\ (if is_int_type (get_datum_type (structure self)) then
        match cell self K with
        | Some c =>
            if DataStorage.is_none (sto_data c) then
              fst run = Ok tt /\ cell (snd run) K = Some {| sto_data := PInt 1 |}
            else
              match py_add_int (sto_data c) 1 with
              | Ok v => fst run = Ok tt /\ cell (snd run) K = Some {| sto_data := v |}
              | Raise e => fst run = Raise e /\ cell (snd run) K = Some c
              end
        | None =>
            fst run = Raise (AttributeError "get_data") /\ cell (snd run) K = None
        end
      else
        fst run
        = Raise (MFFileParseException
                   (_data_name self +:+ " of type "
                    +:+ get_datum_type (structure self)
                    +:+ " does not support add one operation."))
        /\ cell (snd run) K = cell self K).
Proof.
  intros Hown run. subst run.
  assert (Hrun : MFScalarTransient.add_one K self
            = MFScalar.add_one (with_current_key (Some K) self)) by reflexivity.
  rewrite Hrun. clear Hrun.
  destruct (other_cells_kept self (with_current_key (Some K) self)
              (snd (MFScalar.add_one (with_current_key (Some K) self))) K Hown
              eq_refl eq_refl eq_refl eq_refl (add_one_touches _))
    as [Hown' Hkeep].
  split; [exact Hown'|]. split; [exact Hkeep|].
  destruct Hown as [[d Hd] _ _].
  pose proof (keyed_storage_obj self d K Hd) as Hobj.
  destruct (is_int_type (get_datum_type (structure self))) eqn:Hint.
  - unfold cell at 1. rewrite (keyed_cell_addr self d K Hd).
    destruct (OrderedDict.get K d) as [a|] eqn:Ha.
    + rewrite (add_one_exact (with_current_key (Some K) self) a Hint Hobj).
      change (store (with_current_key (Some K) self) a) with (store self a).
      destruct (DataStorage.is_none (sto_data (store self a))).
      * split; [reflexivity|]. cbn [snd].
        apply (with_value_cell a _ _ d K); [exact Hd|exact Ha].
      * destruct (py_add_int (sto_data (store self a)) 1) as [v|e].
        -- split; [reflexivity|]. cbn [snd].
           apply (with_value_cell a _ _ d K); [exact Hd|exact Ha].
        -- split; [reflexivity|]. cbn [snd].
           unfold cell, cell_addr, dict_of. simpl. rewrite Hd, Ha. reflexivity.
    + assert (Hraise : MFScalar.add_one (with_current_key (Some K) self)
                = (Raise (AttributeError "get_data"),
                   with_current_key (Some K) self)).
      { unfold MFScalar.add_one. unfold MFScalar.self_ at 1.
        unfold bind at 1, gets at 1.
        change (structure (with_current_key (Some K) self)) with (structure self).
        rewrite Hint. apply bind_raise.
        unfold MFScalar.get_data. apply storage_read_none. exact Hobj. }
      rewrite Hraise. split; [reflexivity|]. cbn [snd].
      unfold cell, cell_addr, dict_of. simpl. rewrite Hd, Ha. reflexivity.
  - assert (Hraise : MFScalar.add_one (with_current_key (Some K) self)
              = (Raise (MFFileParseException (MFScalar.add_one_message self)),
                 with_current_key (Some K) self)).
    { unfold MFScalar.add_one. unfold MFScalar.self_ at 1.
      unfold bind at 1, gets at 1.
      change (structure (with_current_key (Some K) self)) with (structure self).
      rewrite Hint. reflexivity. }
    rewrite Hraise. split; reflexivity.
Qed.

(** X12: what [set_data] stores under a key [get_data] returns for that key,
    and for that key only: after a successful [set_data] of a raw value that
    is no dictionary under the registered key [K], [get_data(K)] returns the
    conversion of its first scalar and [get_data] of every other key returns
    what it returned before. *)
Theorem transient_set_data_then_get_data (self : MFScalar) (K : Z) (a : addr)
    (data : pyval) (it : MFDataItemStructure) (v : pyval) :
  own_cells self ->
  cell_addr self K = Some a ->
  (forall items, data <> PDict items) ->
  layers_nonempty data = true ->
  data_item_structures (structure self) !! 0%nat = Some it ->
  convert_data (first_scalar data) (_data_type self) it = Ok v ->
  let run := MFScalarTransient.set_data data (Some K) self in
  fst run = Ok tt
  /\ fst (MFScalarTransient.get_data K (snd run)) = Ok v
  /\ fst (MFScalarTransient.has_data (Some K) (snd run))
     = Ok (negb (DataStorage.is_none v))
  /\ forall k, k <> K ->
       fst (MFScalarTransient.get_data k (snd run))
       = fst (MFScalarTransient.get_data k self).
Proof.
  intros Hown HK Hnd Hne Hit Hv run. subst run.
  assert (Hrun : MFScalarTransient.set_data data (Some K) self
            = (MFScalarTransient._set_data_prep data (Some K) ;;
               MFScalar.set_data data) self).
  { destruct data; try reflexivity. exfalso. eapply Hnd. reflexivity. }
  rewrite Hrun.
  destruct (set_data_scoped data K self Hown) as [Hown' Hkeep].
  revert Hown' Hkeep.
  unfold MFScalarTransient._set_data_prep.
  unfold bind at 1 2 3 4 5 6, modify at 1 2 3 4 5 6. cbv beta iota.
  pose proof Hown as [[d Hd] _ _].
  rewrite (keyed_cell_addr self d K Hd) in HK.
  pose proof (keyed_storage_obj self d K Hd) as Hobj. rewrite HK in Hobj.
  destruct (unwrap_nonempty data (with_current_key (Some K) self) Hne)
    as (s1 & Hu & Hsame & _).
  pose proof (same_data_storage_obj _ _ Hsame) as Hobj1. rewrite Hobj in Hobj1.
  pose proof Hsame as [[Hs Hdt _ _ _ Hds _ _] _].
  rewrite (set_data_after_unwrap data (first_scalar data)
             (with_current_key (Some K) self) s1 a it v Hu Hobj1)
    by (rewrite ?Hs, ?Hdt; assumption).
  cbn [fst snd]. intros Hown' Hkeep.
  assert (Hd1 : _data_storage s1 = Keyed d) by (rewrite Hds; exact Hd).
  assert (Hd' : _data_storage (with_value a v s1) = Keyed d) by exact Hd1.
  fold (with_value a v s1) in Hown', Hkeep |- *.
  split; [reflexivity|]. split; [|split].
  - rewrite (transient_get_data_cell _ d K Hd').
    rewrite (with_value_cell a v s1 d K Hd1 HK). reflexivity.
  - rewrite (transient_has_data_key _ d K a Hd' HK). cbn [fst].
    unfold with_value. simpl. rewrite update_store_same. reflexivity.
  - intros k Hk.
    rewrite (transient_get_data_cell _ d k Hd'),
      (transient_get_data_cell _ d k Hd).
    cbn [fst]. rewrite (Hkeep k Hk). reflexivity.
Qed.

(** [add_transient_key], step by step. *)
Lemma add_transient_key_exact self d K :
  _data_storage self = Keyed d ->
  MFScalarTransient.add_transient_key K self
  = (Ok tt,
     with_data_storage (Keyed (OrderedDict.set K (next_addr self) d))
       (S (next_addr self))
       (with_store
          (update_store (next_addr self) (fun _ => DataStorage.new) (store self))
          self)).
Proof.
  intros Hd.
  unfold MFScalarTransient.add_transient_key, MFScalar._new_storage,
    MFScalarTransient.storage_setitem.
  unfold bind. simpl. rewrite Hd. reflexivity.
Qed.

Lemma add_transient_key_cells self d K :
  own_cells self ->
  _data_storage self = Keyed d ->
  let self' := snd (MFScalarTransient.add_transient_key K self) in
  cell self' K = Some DataStorage.new
  /\ forall k, k <> K -> cell self' k = cell self k.
Proof.
  intros [_ _ Hcr] Hd self'. subst self'.
  rewrite (add_transient_key_exact self d K Hd). cbn [snd].
  assert (Hca : forall k,
            cell_addr
              (with_data_storage (Keyed (OrderedDict.set K (next_addr self) d))
                 (S (next_addr self))
                 (with_store
                    (update_store (next_addr self)
                       (fun _ => DataStorage.new) (store self)) self)) k
            = if Z.eqb k K then Some (next_addr self) else cell_addr self k).
  { intros k. unfold cell_addr, dict_of. simpl. rewrite Hd.
    apply ordered_dict_get_set. }
  split.
  - unfold cell. rewrite Hca, Z.eqb_refl. simpl.
    rewrite update_store_same. reflexivity.
  - intros k Hk. unfold cell. rewrite Hca.
    destruct (Z.eqb_spec k K) as [->|_]; [contradiction|].
    destruct (cell_addr self k) as [b|] eqn:E; [|reflexivity].
    simpl. rewrite update_store_other; [reflexivity|].
    apply Hcr in E. lia.
Qed.

Lemma flat_map_skip {A} (f f' : Z -> list A) K l :
  f' K = [] ->
  (forall k, k <> K -> f' k = f k) ->
  flat_map f' l = flat_map f (List.filter (fun k => negb (Z.eqb k K)) l).
Proof.
  intros HK Hother. induction l as [|k l IH]; [reflexivity|].
  cbn [flat_map List.filter]. destruct (Z.eqb_spec k K) as [->|Hne]; cbn [negb].
  - rewrite HK. exact IH.
  - cbn [flat_map]. rewrite (Hother k Hne), IH. reflexivity.
Qed.

(** X13: [add_transient_key(K)] keeps the order of registration: a key that
    is registered keeps its place and a new key goes last.  As the cell of
    [K] is then a new one, the entries written for the sequence afterwards
    are those of the other keys, in the order they had. *)
Theorem add_transient_key_keeps_order (self : MFScalar) (d : list (Z * addr))
    (K : Z) (it : MFDataItemStructure) :
  own_cells self ->
  _data_storage self = Keyed d ->
  String.eqb (type (structure self)) "record" = false ->
  data_item_structures (structure self) !! 0%nat = Some it ->
  let run := MFScalarTransient.add_transient_key K self in
  fst run = Ok tt
  /\ OrderedDict.keys (dict_of (snd run))
     = match cell_addr self K with
       | Some _ => OrderedDict.keys d
       | None => OrderedDict.keys d ++ [K]
       end
  /\ fst (MFScalarTransient.collect_entries
            (OrderedDict.keys (dict_of (snd run))) (snd run))
     = Ok (flat_map (key_entry self it)
             (List.filter (fun k => negb (Z.eqb k K)) (OrderedDict.keys d))).
Proof.
  intros Hown Hd Hrec Hit run. subst run.
  destruct (add_transient_key_cells self d K Hown Hd) as [Hnew Hkeep].
  revert Hnew Hkeep. rewrite (add_transient_key_exact self d K Hd).
  cbn [fst snd].
  set (self' := with_data_storage _ _ _). intros Hnew Hkeep.
  assert (Hd' : _data_storage self'
                = Keyed (OrderedDict.set K (next_addr self) d)) by reflexivity.
  assert (Hkeys : OrderedDict.keys (dict_of self')
                  = match cell_addr self K with
                    | Some _ => OrderedDict.keys d
                    | None => OrderedDict.keys d ++ [K]
                    end).
  { unfold dict_of. rewrite Hd'. rewrite ordered_dict_keys_set.
    rewrite (keyed_cell_addr self d K Hd). reflexivity. }
  split; [reflexivity|]. split; [exact Hkeys|].
  assert (Hdict : dict_of self' = OrderedDict.set K (next_addr self) d)
    by (unfold dict_of; rewrite Hd'; reflexivity).
  rewrite Hdict.
  destruct (collect_entries_closed_form self'
              (OrderedDict.set K (next_addr self) d) it
              (OrderedDict.keys (OrderedDict.set K (next_addr self) d))
              Hd' Hrec Hit self') as [Hres _]; [reflexivity | auto |].
  rewrite Hres. f_equal.
  assert (HeK : key_entry self' it K = []).
  { unfold key_entry. rewrite Hnew. reflexivity. }
  assert (Heo : forall k, k <> K -> key_entry self' it k = key_entry self it k).
  { intros k Hk. unfold key_entry. rewrite (Hkeep k Hk). reflexivity. }
  rewrite (flat_map_skip (key_entry self it) (key_entry self' it) K _ HeK Heo).
  f_equal. rewrite <- Hdict, Hkeys.
  destruct (cell_addr self K); [reflexivity|].
  rewrite List.filter_app. cbn [List.filter]. rewrite Z.eqb_refl. cbn [negb].
  apply app_nil_r.
Qed.

End TransientCells.

(** ** [ModflowPcgn]: the lists of the data files *)

Lemma data_files_closed_form tu :
  forall ea extension name units extra,
    ModflowPcgn.data_files tu ea (extension, name, units, extra)
    = (extension ++ map snd (List.filter (fun p => 0 <? fst p) (combine tu ea)),
       name ++ repeat "DATA"%string
                 (length (List.filter (fun p => 0 <? fst p) (combine tu ea))),
       units ++ map fst (List.filter (fun p => 0 <? fst p) (combine tu ea)),
       extra ++ repeat "REPLACE"%string
                  (length (List.filter (fun p => 0 <? fst p) (combine tu ea)))).
Proof.
  induction tu as [|t tu IH]; intros ea extension name units extra.
  - cbn. rewrite !app_nil_r. reflexivity.
  - destruct ea as [|e ea].
    + cbn. rewrite !app_nil_r. reflexivity.
    + cbn [ModflowPcgn.data_files combine List.filter fst].
      destruct (0 <? t).
      * rewrite IH. cbn [map length repeat fst snd].
        rewrite <- !app_assoc. reflexivity.
      * apply IH.
Qed.

Section PcgnLists.
Variable float : Type.

(** X14: the constructor hands four lists to [Package.__init__] that
    describe the files of the package line by line: the entry of the package
    itself, then one entry for each of [unit_pc], [unit_ts] and [ipunit] that
    is positive, in this order, with its extension, the name [DATA], the unit
    and [REPLACE].  The extensions follow the list the caller gave, whatever
    its length. *)
Theorem pcgn_file_lists_aligned
    (iter_mo iter_mi : Z) (close_h close_r relax : float)
    (ifill unit_pc unit_ts adamp : Z) (damp damp_lb rate_d chglimit : float)
    (acnvg : Z) (cnvg_lb : float) (mcnvg : Z) (rate_c : float) (ipunit : Z)
    (extension : list string) (unit_number : Z)
    (model model' : ModflowPcgn.Model float)
    (self : ModflowPcgn.ModflowPcgn float) :
  ModflowPcgn.__init__ float iter_mo iter_mi close_h close_r relax ifill
    unit_pc unit_ts adamp damp damp_lb rate_d chglimit acnvg cnvg_lb mcnvg
    rate_c ipunit extension unit_number model
  = (Ok self, model') ->
  let files := pcgn_data_units unit_pc unit_ts ipunit in
  ModflowPcgn.extension float self = extension ++ map snd files
  /\ ModflowPcgn.name float self
     = "PCGN"%string :: repeat "DATA"%string (length files)
  /\ ModflowPcgn.unit_number float self = unit_number :: map fst files
  /\ ModflowPcgn.extra float self
     = EmptyString :: repeat "REPLACE"%string (length files)
  /\ Forall (fun t => 0 < t) (map fst files).
Proof.
  unfold ModflowPcgn.__init__. rewrite data_files_closed_form.
  change (List.filter _ (combine _ _))
    with (pcgn_data_units unit_pc unit_ts ipunit).
  destruct ((ifill <? 0) || (1 <? ifill)); [discriminate|].
  unfold bind, ModflowPcgn.add_package, modify, ret. intros [= <- _]. cbn.
  repeat split.
  unfold pcgn_data_units. cbn [List.filter fst].
  destruct (Z.ltb_spec 0 unit_pc), (Z.ltb_spec 0 unit_ts), (Z.ltb_spec 0 ipunit);
    cbn [map fst]; repeat constructor; assumption.
Qed.

(** X15: a call without [extension] appends to the default list itself.
    After the call the default holds the extensions of the positive units in
    addition to what it held, also when the call raises on [ifill]; a call
    that succeeds hands this list to [Package.__init__], so that the list of
    extensions and the list of names have the same length only when the
    default held one element before the call. *)
Theorem pcgn_default_extension_grows
    (iter_mo iter_mi : Z) (close_h close_r relax : float)
    (ifill unit_pc unit_ts adamp : Z) (damp damp_lb rate_d chglimit : float)
    (acnvg : Z) (cnvg_lb : float) (mcnvg : Z) (rate_c : float) (ipunit : Z)
    (unit_number : Z) (default : list string)
    (model : ModflowPcgn.Model float) :
  let run :=
    DefaultExtension.__init__ float iter_mo iter_mi close_h close_r relax ifill
      unit_pc unit_ts adamp damp damp_lb rate_d chglimit acnvg cnvg_lb mcnvg
      rate_c ipunit unit_number (default, model) in
  let files := pcgn_data_units unit_pc unit_ts ipunit in
  fst (snd run) = default ++ map snd files
  /\ match fst run with
     | Ok self =>
         (ifill = 0 \/ ifill = 1)
         /\ ModflowPcgn.extension float self = default ++ map snd files
         /\ (length (ModflowPcgn.extension float self)
             + 1 = length (ModflowPcgn.name float self) + length default)%nat
     | Raise e =>
         (ifill < 0 \/ 1 < ifill) /\ snd (snd run) = model
     end.
Proof.
  cbv zeta. unfold DefaultExtension.__init__, ModflowPcgn.__init__.
  rewrite data_files_closed_form.
  change (List.filter _ (combine _ _))
    with (pcgn_data_units unit_pc unit_ts ipunit).
  destruct (Z.ltb_spec ifill 0) as [Hlo|Hlo]; cbn [orb].
  - cbn. split; [reflexivity|]. split; [left; exact Hlo|reflexivity].
  - destruct (Z.ltb_spec 1 ifill) as [Hhi|Hhi].
    + cbn. split; [reflexivity|]. split; [right; exact Hhi|reflexivity].
    + cbn. split; [reflexivity|]. split; [lia|]. split; [reflexivity|].
      rewrite length_app, length_map, repeat_length. lia.
Qed.

End PcgnLists.

(** ** The properties on concrete input *)

(** Of the keys 0, 1 and 2, with data at 0 and 2, the loop stops at 0. *)
Lemma transient_has_data_any_witness :
  fst (MFScalarTransient.has_data None Fixture.three_periods) = Ok true
  /\ _current_key (snd (MFScalarTransient.has_data None Fixture.three_periods))
     = Some 0
  /\ cell (snd (MFScalarTransient.has_data None Fixture.three_periods)) 2
     = Some {| sto_data := PInt 7 |}.
Proof.
  destruct (transient_has_data_any Fixture.three_periods
              [(0, 0%nat); (1, 1%nat); (2, 2%nat)] eq_refl)
    as (Hres & Hkey & _ & Hcell).
  split; [exact Hres|]. split; [exact Hkey|]. rewrite Hcell. reflexivity.
Defined.

Lemma collect_entries_in_registration_order_witness :
  fst (MFScalarTransient.collect_entries (collab := Sample.collaborators)
         [0; 1; 2] Fixture.three_periods)
  = Ok [("  NPER  5" +:+ nl)%string; ("  NPER  7" +:+ nl)%string].
Proof.
  destruct (collect_entries_in_registration_order
              (collab := Sample.collaborators) Fixture.three_periods
              [(0, 0%nat); (1, 1%nat); (2, 2%nat)] Fixture.nper_item
              eq_refl eq_refl eq_refl) as (Hres & _ & _).
  exact Hres.
Defined.

Lemma transient_add_one_scoped_witness :
  fst (MFScalarTransient.add_one (collab := Sample.collaborators) 1
                Fixture.three_periods) = Ok tt
  /\ cell (snd (MFScalarTransient.add_one (collab := Sample.collaborators) 1
                Fixture.three_periods)) 1
     = Some {| sto_data := PInt 1 |}
  /\ cell (snd (MFScalarTransient.add_one (collab := Sample.collaborators) 1
                Fixture.three_periods)) 0
     = Some {| sto_data := PInt 5 |}.
Proof.
  destruct (transient_add_one_scoped (collab := Sample.collaborators)
              Fixture.three_periods 1
              three_periods_own_cells) as (_ & Hkeep & Hres & Hcell).
  split; [exact Hres|]. split; [exact Hcell|].
  rewrite (Hkeep 0) by lia. reflexivity.
Defined.

Lemma transient_set_data_then_get_data_witness :
  fst (MFScalarTransient.get_data (collab := Sample.collaborators) 1
         (snd (MFScalarTransient.set_data (collab := Sample.collaborators)
                 (PList [PInt 9; PInt 4]) (Some 1) Fixture.three_periods)))
  = Ok (PInt 9)
  /\ fst (MFScalarTransient.get_data (collab := Sample.collaborators) 0
            (snd (MFScalarTransient.set_data (collab := Sample.collaborators)
                    (PList [PInt 9; PInt 4]) (Some 1) Fixture.three_periods)))
     = Ok (PInt 5).
Proof.
  destruct (transient_set_data_then_get_data (collab := Sample.collaborators)
              Fixture.three_periods 1 1%nat (PList [PInt 9; PInt 4])
              Fixture.nper_item (PInt 9) three_periods_own_cells eq_refl
              ltac:(intros items; discriminate) eq_refl eq_refl eq_refl)
    as (_ & Hget & _ & Hother).
  split; [exact Hget|]. rewrite (Hother 0) by lia. reflexivity.
Defined.

Lemma add_transient_key_keeps_order_witness :
  OrderedDict.keys
    (dict_of (snd (MFScalarTransient.add_transient_key 0 Fixture.three_periods)))
  = [0; 1; 2]
  /\ fst (MFScalarTransient.collect_entries (collab := Sample.collaborators)
            (OrderedDict.keys
               (dict_of (snd (MFScalarTransient.add_transient_key 0
                                Fixture.three_periods))))
            (snd (MFScalarTransient.add_transient_key 0 Fixture.three_periods)))
     = Ok [("  NPER  7" +:+ nl)%string].
Proof.
  destruct (add_transient_key_keeps_order (collab := Sample.collaborators)
              Fixture.three_periods [(0, 0%nat); (1, 1%nat); (2, 2%nat)] 0
              Fixture.nper_item three_periods_own_cells eq_refl eq_refl eq_refl)
    as (_ & Hkeys & Hres).
  split; [exact Hkeys|exact Hres].
Defined.

Lemma pcgn_file_lists_aligned_witness :
  exists self,
    ModflowPcgn.extension unit self = ["pcgn"; "pcgni"; "pcgno"]%string
    /\ ModflowPcgn.name unit self = ["PCGN"; "DATA"; "DATA"]%string
    /\ ModflowPcgn.unit_number unit self = [27; 5; 8].
Proof.
  eexists.
  destruct (pcgn_file_lists_aligned unit 50 30 tt tt tt 0 5 0 0 tt tt tt tt 0
              tt 2 tt 8 ["pcgn"%string] 27 {| ModflowPcgn.packagelist := [] |}
              _ _ eq_refl) as (Hext & Hname & Hunits & _).
  split; [exact Hext|]. split; [exact Hname|exact Hunits].
Defined.
